(** * Google Docs tools: the positional edit compiler and the text walker

    A shallow embedding of [gdocs/docs_tools.py]:
    - the text-extraction walk of [get_doc_content]
      ([extract_text_from_elements], [process_tab_hierarchy]);
    - the request construction of [modify_doc_content] (operation
      [edit_text]) and of [insert_doc_elements];
    - the boundary retry of the table operation of [insert_doc_elements].

    Python [int] is [Z]; Python [str] is [string], one [ascii] per code
    point (so [len] is [String.length]); [None] is [option]; a list is a
    [list]; a JSON object with optional keys is a record of [option]s or a
    tagged inductive type. *)

From Stdlib Require Import ZArith List String Ascii Bool Lia.
From Stdlib Require Import Numbers.DecimalString.
Import ListNotations.

Set Warnings "-register-all".

Open Scope list_scope.
Open Scope string_scope.

(** ** Python string primitives *)

Module PyStr.

(** [str.isspace] on one code point below 256: TAB..CR, FS..US, space,
    NEL and NBSP. *)
Definition isspace (c : ascii) : bool :=
  let n := nat_of_ascii c in
  ((9 <=? n)%nat && (n <=? 13)%nat) || ((28 <=? n)%nat && (n <=? 32)%nat)
  || (n =? 133)%nat || (n =? 160)%nat.

(** Every code point of [s] is whitespace; true of the empty string. *)
Fixpoint blank (s : string) : bool :=
  match s with
  | EmptyString => true
  | String c s' => isspace c && blank s'
  end.

(** Truth value of [s.strip()]: some code point survives the strip. *)
Definition strip_truthy (s : string) : bool := negb (blank s).

(** Truth value of a string: [bool(s)]. *)
Definition truthy (s : string) : bool :=
  match s with EmptyString => false | String _ _ => true end.

(** [len(s)] as a Python int. *)
Definition len (s : string) : Z := Z.of_nat (String.length s).

(** [s * n] for a count that is never negative here. *)
Fixpoint repeat (s : string) (n : nat) : string :=
  match n with
  | O => ""
  | S n' => s ++ repeat s n'
  end.

(** [sep.join(parts)] with the empty separator. *)
Definition join (parts : list string) : string := String.concat "" parts.

(** [needle in haystack]. *)
Fixpoint contains (needle haystack : string) : bool :=
  String.prefix needle haystack ||
  match haystack with
  | EmptyString => false
  | String _ rest => contains needle rest
  end.

(** [s.startswith(p)]. *)
Definition startswith (s p : string) : bool := String.prefix p s.

(** [str(n)] for an int. *)
Definition of_int (n : Z) : string := NilEmpty.string_of_int (Z.to_int n).

(** [str(b)] for a bool. *)
Definition of_bool (b : bool) : string := if b then "True" else "False".

(** [s.lower()] on code points below 256: A..Z and the Latin-1 capitals. *)
Definition lower_char (c : ascii) : ascii :=
  let n := nat_of_ascii c in
  if ((65 <=? n)%nat && (n <=? 90)%nat)
     || ((192 <=? n)%nat && (n <=? 222)%nat && negb (n =? 215)%nat)
  then ascii_of_nat (n + 32) else c.

Fixpoint lower (s : string) : string :=
  match s with
  | EmptyString => EmptyString
  | String c s' => String (lower_char c) (lower s')
  end.

End PyStr.

(** ** The document tree read by [get_doc_content] *)

(** [textRun]: the [content] key may be missing. *)
Record TextRun := { content : option string }.

(** A paragraph element: the [textRun] key may be missing. *)
Record ParagraphElement := { textRun : option TextRun }.

(** An entry of [body.content]: tagged with [paragraph], [table] or
    neither (a section break and the like).  A missing [elements],
    [tableRows], [tableCells] or [content] key reads as the empty list, as
    the [.get(key, [])] calls of the source make it. *)
Inductive StructuralElement : Type :=
| Paragraph (elements : list ParagraphElement)
| Table (tableRows : list (list (list StructuralElement)))
| SectionBreak.

(** [documentTab]: [title] may be missing; [body.content] defaults to []. *)
Record DocumentTab := {
  title : option string;
  tab_body : list StructuralElement
}.

(** A tab: [documentTab] may be missing; [childTabs] defaults to []. *)
Inductive Tab : Type :=
| mkTab (documentTab : option DocumentTab) (childTabs : list Tab).

(** The document returned by [documents().get]. *)
Record Document := {
  body : list StructuralElement;
  tabs : list Tab
}.

(** ** [get_doc_content]: text extraction *)

(** [TAB_HEADER_FORMAT.format(tab_name=tab_name)]. *)
Definition TAB_HEADER_FORMAT (tab_name : string) : string :=
  String "010" "--- TAB: " ++ tab_name ++ " ---" ++ String "010" "".

(** The inner loop over [para_elements]: [current_line_text += ...]. *)
Definition paragraph_text (para_elements : list ParagraphElement) : string :=
  fold_left
    (fun current_line_text pe =>
       match textRun pe with
       | Some text_run =>
           match content text_run with
           | Some c => current_line_text ++ c
           | None => current_line_text
           end
       | None => current_line_text
       end)
    para_elements "".

(** [text_lines.append(x)] guarded by [if x.strip()]. *)
Definition append_if_text (x : string) : list string :=
  if PyStr.strip_truthy x then [x] else [].

(** [text_lines = []] and the header appended [if tab_name]. *)
Definition header_lines (tab_name : option string) : list string :=
  match tab_name with
  | Some tab_name =>
      if PyStr.truthy tab_name then [TAB_HEADER_FORMAT tab_name] else []
  | None => []
  end.

(** The body of [extract_text_from_elements(elements, tab_name, depth)],
    open in the work done for one element of the [for element in elements]
    loop: the depth guard, the optional tab header, then the lines each
    element appends to [text_lines], joined. *)
Definition extract_text_from_elements_body
  (for_element : nat -> StructuralElement -> list string)
  (elements : list StructuralElement) (tab_name : option string)
  (depth : nat) : string :=
  if (5 <? depth)%nat then ""
  else
    let text_lines := header_lines tab_name in
    PyStr.join (text_lines ++ flat_map (for_element depth) elements)%list.

(** One iteration of the loop: what [element] appends to [text_lines].
    A table recurses into the content of each cell of each row with
    [depth + 1]. *)
Fixpoint for_element (depth : nat) (element : StructuralElement)
  {struct element} : list string :=
  match element with
  | Paragraph para_elements =>
      append_if_text (paragraph_text para_elements)
  | Table table_rows =>
      flat_map
        (fun row_cells =>
           flat_map
             (fun cell_content =>
                let cell_text :=
                  extract_text_from_elements_body
                    for_element cell_content None (S depth) in
                append_if_text cell_text)
             row_cells)
        table_rows
  | SectionBreak => []
  end.

(** [extract_text_from_elements(elements, tab_name=None, depth=0)]. *)
Definition extract_text_from_elements
  (elements : list StructuralElement) (tab_name : option string)
  (depth : nat) : string :=
  extract_text_from_elements_body for_element elements tab_name depth.

(** How many activations of [extract_text_from_elements] are on the call
    stack at the deepest point of the call on [elements] at [depth]: this
    call, and below it, unless the guard returns at once, the deepest of the
    calls made for the cells.  It follows the calls of the function above,
    one for one. *)
Definition recursion_depth_body
  (for_element_depth : nat -> StructuralElement -> nat)
  (elements : list StructuralElement) (depth : nat) : nat :=
  S (if (5 <? depth)%nat then 0
     else list_max (map (for_element_depth depth) elements)).

Fixpoint for_element_depth (depth : nat) (element : StructuralElement)
  {struct element} : nat :=
  match element with
  | Paragraph _ => 0
  | Table table_rows =>
      list_max
        (map (fun row_cells =>
                list_max
                  (map (fun cell_content =>
                          recursion_depth_body
                            for_element_depth cell_content (S depth))
                     row_cells))
           table_rows)
  | SectionBreak => 0
  end.

Definition recursion_depth (elements : list StructuralElement) (depth : nat)
  : nat :=
  recursion_depth_body for_element_depth elements depth.

(** [process_tab_hierarchy(tab, level)]. *)
Fixpoint process_tab_hierarchy (tab : Tab) (level : nat) {struct tab} : string :=
  match tab with
  | mkTab document_tab child_tabs =>
      let tab_text :=
        match document_tab with
        | Some dt =>
            let tab_title :=
              match title dt with Some t => t | None => "Untitled Tab" end in
            let tab_title :=
              if (0 <? level)%nat then PyStr.repeat "    " level ++ tab_title
              else tab_title in
            "" ++ extract_text_from_elements (tab_body dt) (Some tab_title) 0
        | None => ""
        end in
      fold_left
        (fun tab_text child_tab =>
           tab_text ++ process_tab_hierarchy child_tab (level + 1))
        child_tabs tab_text
  end.

(** The list [processed_text_lines] built for a native Google Doc. *)
Definition processed_text_lines (doc_data : Document) : list string :=
  (append_if_text (extract_text_from_elements (body doc_data) None 0)
   ++ flat_map (fun tab => append_if_text (process_tab_hierarchy tab 0))
        (tabs doc_data))%list.

(** [body_text] of a native Google Doc. *)
Definition body_text (doc_data : Document) : string :=
  PyStr.join (processed_text_lines doc_data).

(** ** Edit operations *)

(** Modelled from the spec: the request constructors of
    [gdocs/docs_helpers.py] are not part of the sources.  The spec gives the
    operation as a tagged variant, one constructor per [create_*_request],
    carrying the arguments the caller passes, in the caller's order.
    [FormatText] receives [format_end] as the caller holds it, an optional
    int. *)
Inductive EditOperation : Type :=
| InsertText (index : Z) (text : string)
| DeleteRange (start_index end_index : Z)
| FormatText (start_index : Z) (end_index : option Z)
    (bold italic underline : option bool)
    (font_size : option Z) (font_family : option string)
| FindReplace (find_text replace_text : string) (match_case : bool)
| InsertTable (index rows columns : Z)
| InsertImage (index : Z) (image_uri : string) (width height : option Z)
| InsertPageBreak (index : Z)
| CreateBullets (start_index end_index : Z) (list_type : string).

Definition create_insert_text_request := InsertText.
Definition create_delete_range_request := DeleteRange.
Definition create_format_text_request := FormatText.
Definition create_insert_table_request := InsertTable.
Definition create_insert_page_break_request := InsertPageBreak.
Definition create_insert_image_request := InsertImage.
Definition create_bullet_list_request := CreateBullets.

(** ** Tools as interaction programs *)

(** What a tool call ends with: a returned string or a raised exception
    (its message). *)
Inductive ToolResult : Type :=
| Returned (s : string)
| Raised (message : string).

(** An exception coming out of a service call, with [str(e)]. *)
Inductive Exn : Type :=
| HttpError (s : string)
| OtherException (s : string).

(** The [except HttpError] / [except Exception] pair closing each tool. *)
Definition handle_exception (e : Exn) : ToolResult :=
  match e with
  | HttpError s => Raised ("API error: " ++ s)
  | OtherException s => Raised ("Unexpected error: " ++ s)
  end.

(** [str(e)] of a caught exception. *)
Definition exn_str (e : Exn) : string :=
  match e with HttpError s => s | OtherException s => s end.

(** A Python dict with int values, read with [.get(key, default)]. *)
Definition Dict := list (string * Z).

Fixpoint dict_get (d : Dict) (key : string) (default : Z) : Z :=
  match d with
  | [] => default
  | (k, v) :: d' => if String.eqb k key then v else dict_get d' key default
  end.

(** [(success, message, metadata)] of [create_and_populate_table]. *)
Record ManagerResult := {
  success : bool;
  message : string;
  metadata : Dict
}.

(** The file metadata of [drive_service.files().get]. *)
Record FileMetadata := {
  name : option string;
  mimeType : option string
}.

(** A tool is a finite tree of service calls: each node names the call and
    continues with the reply (or the exception) the service gives. *)
Inductive Prog : Type :=
| Done (r : ToolResult)
| BatchUpdate (document_id : string) (requests : list EditOperation)
    (k : Exn + unit -> Prog)
| CreateAndPopulateTable (document_id : string)
    (table_data : list (list string)) (index : Z) (bold_headers : bool)
    (k : Exn + ManagerResult -> Prog)
| DriveFilesGet (file_id : string) (k : Exn + FileMetadata -> Prog).

(** The calls a run makes, in order. *)
Inductive Event : Type :=
| EvBatchUpdate (document_id : string) (requests : list EditOperation)
| EvCreateAndPopulateTable (document_id : string)
    (table_data : list (list string)) (index : Z) (bold_headers : bool)
| EvDriveFilesGet (file_id : string).

(** The services behind a run, over a world [W] they may change. *)
Record Services (W : Type) := {
  sv_batch_update :
    W -> string -> list EditOperation -> (Exn + unit) * W;
  sv_create_and_populate_table :
    W -> string -> list (list string) -> Z -> bool -> (Exn + ManagerResult) * W;
  sv_drive_files_get : W -> string -> (Exn + FileMetadata) * W
}.
Arguments sv_batch_update {W}.
Arguments sv_create_and_populate_table {W}.
Arguments sv_drive_files_get {W}.

(** Run a tool against the services: the calls made, the result, the
    final world. *)
Fixpoint run {W : Type} (sv : Services W) (w : W) (p : Prog)
  : list Event * ToolResult * W :=
  match p with
  | Done r => ([], r, w)
  | BatchUpdate d reqs k =>
      let '(reply, w1) := sv_batch_update sv w d reqs in
      let '(evs, r, w2) := run sv w1 (k reply) in
      (EvBatchUpdate d reqs :: evs, r, w2)
  | CreateAndPopulateTable d td i bh k =>
      let '(reply, w1) := sv_create_and_populate_table sv w d td i bh in
      let '(evs, r, w2) := run sv w1 (k reply) in
      (EvCreateAndPopulateTable d td i bh :: evs, r, w2)
  | DriveFilesGet f k =>
      let '(reply, w1) := sv_drive_files_get sv w f in
      let '(evs, r, w2) := run sv w1 (k reply) in
      (EvDriveFilesGet f :: evs, r, w2)
  end.

(** The calls and the result of a run. *)
Definition events {W : Type} (sv : Services W) (w : W) (p : Prog)
  : list Event := fst (fst (run sv w p)).

Definition result {W : Type} (sv : Services W) (w : W) (p : Prog)
  : ToolResult := snd (fst (run sv w p)).

(** The batches a run submits, in order. *)
Definition batches_of (evs : list Event) : list (list EditOperation) :=
  flat_map (fun e => match e with EvBatchUpdate _ reqs => [reqs] | _ => [] end) evs.

(** The indices a run passes to [create_and_populate_table], in order. *)
Definition table_attempts_of (evs : list Event) : list Z :=
  flat_map
    (fun e => match e with EvCreateAndPopulateTable _ _ i _ => [i] | _ => [] end)
    evs.

(** [f"https://docs.google.com/document/d/{document_id}/edit"]. *)
Definition doc_link (document_id : string) : string :=
  "https://docs.google.com/document/d/" ++ document_id ++ "/edit".

(** [ValidationManager] of [gdocs/managers.py] is not part of the sources:
    its methods are parameters of the tools, each returning
    [(is_valid, error_msg)]. *)
Record ValidationManager := {
  validate_document_id : string -> bool * string;
  validate_text_formatting_params :
    option bool -> option bool -> option bool -> option Z -> option string
    -> bool * string;
  validate_index_range : Z -> Z -> bool * string;
  validate_table_data : list (list string) -> bool * string;
  validate_index : Z -> string -> bool * string
}.

(** ** [modify_doc_content], operation [edit_text] *)

Module ModifyDocContent.

Local Open Scope Z_scope.

(** [EditTextPayload]: [operation] is ["edit_text"]; every other key may be
    missing or [None], [start_index] included ([p.get("start_index")]). *)
Record EditTextPayload := {
  start_index : option Z;
  end_index : option Z;
  text : option string;
  bold : option bool;
  italic : option bool;
  underline : option bool;
  font_size : option Z;
  font_family : option string
}.

Definition is_not_None {A : Type} (x : option A) : bool :=
  match x with Some _ => true | None => false end.

(** Truth value of an optional int and of an optional string. *)
Definition truthy_int (x : option Z) : bool :=
  match x with Some n => negb (n =? 0) | None => false end.

Definition truthy_str (x : option string) : bool :=
  match x with Some s => PyStr.truthy s | None => false end.

(** [any([bold is not None, italic is not None, underline is not None,
    font_size, font_family])]. *)
Definition any_formatting (p : EditTextPayload) : bool :=
  existsb (fun b => b)
    [is_not_None (bold p); is_not_None (italic p); is_not_None (underline p);
     truthy_int (font_size p); truthy_str (font_family p)].

(** [end_index is not None and end_index > start_index]. *)
Definition is_replacement (start_index : Z) (end_index : option Z) : bool :=
  match end_index with
  | Some e => e >? start_index
  | None => false
  end.

(** [str(end_index)], which may be [None]. *)
Definition str_opt_int (x : option Z) : string :=
  match x with Some n => PyStr.of_int n | None => "None" end.

(** "Handle text insertion/replacement": the requests and the entries of
    [operations] this block appends. *)
Definition text_requests (start_index : Z) (end_index : option Z)
  (text : option string) : list EditOperation * list string :=
  match text with
  | Some text =>
      match end_index with
      | Some e =>
          if e >? start_index then
            if start_index =? 0 then
              let adjusted_end := e + PyStr.len text in
              ([create_insert_text_request 1 text;
                create_delete_range_request (1 + PyStr.len text) adjusted_end],
               ["Replaced text from index " ++ PyStr.of_int start_index
                ++ " to " ++ PyStr.of_int e])
            else
              ([create_delete_range_request start_index e;
                create_insert_text_request start_index text],
               ["Replaced text from index " ++ PyStr.of_int start_index
                ++ " to " ++ PyStr.of_int e])
          else
            let actual_index := if start_index =? 0 then 1 else start_index in
            ([create_insert_text_request actual_index text],
             ["Inserted text at index " ++ PyStr.of_int start_index])
      | None =>
          let actual_index := if start_index =? 0 then 1 else start_index in
          ([create_insert_text_request actual_index text],
           ["Inserted text at index " ++ PyStr.of_int start_index])
      end
  | None => ([], [])
  end.

(** "Adjust range for formatting based on text operations", then the two
    corrections: the pair [(format_start, format_end)] handed to
    [create_format_text_request]. *)
Definition format_range (start_index : Z) (end_index : option Z)
  (text : option string) : Z * option Z :=
  let format_start := start_index in
  let format_end := end_index in
  let '(format_start, format_end) :=
    match text with
    | Some text =>
        if is_replacement start_index end_index then
          (format_start, Some (start_index + PyStr.len text))
        else
          let actual_index := if start_index =? 0 then 1 else start_index in
          (actual_index, Some (actual_index + PyStr.len text))
    | None => (format_start, format_end)
    end in
  let format_start := if format_start =? 0 then 1 else format_start in
  let format_end :=
    match format_end with
    | Some fe => if fe <=? format_start then Some (format_start + 1) else Some fe
    | None => None
    end in
  (format_start, format_end).

(** The list [format_details]. *)
Definition format_details (p : EditTextPayload) : list string :=
  let d_bold :=
    match bold p with Some b => ["bold=" ++ PyStr.of_bool b] | None => [] end in
  let d_italic :=
    match italic p with Some b => ["italic=" ++ PyStr.of_bool b] | None => [] end in
  let d_underline :=
    match underline p with
    | Some b => ["underline=" ++ PyStr.of_bool b]
    | None => []
    end in
  let d_font_size :=
    match font_size p with
    | Some n => if n =? 0 then [] else ["font_size=" ++ PyStr.of_int n]
    | None => []
    end in
  let d_font_family :=
    match font_family p with
    | Some f => if PyStr.truthy f then ["font_family=" ++ f] else []
    | None => []
    end in
  (d_bold ++ d_italic ++ d_underline ++ d_font_size ++ d_font_family)%list.

(** "Handle formatting": the request and the [operations] entry. *)
Definition format_requests (start_index : Z) (p : EditTextPayload)
  : list EditOperation * list string :=
  if any_formatting p then
    let '(format_start, format_end) :=
      format_range start_index (end_index p) (text p) in
    ([create_format_text_request format_start format_end
        (bold p) (italic p) (underline p) (font_size p) (font_family p)],
     ["Applied formatting (" ++ String.concat ", " (format_details p)
      ++ ") to range " ++ PyStr.of_int format_start ++ "-"
      ++ str_opt_int format_end])
  else ([], []).

(** The list [requests] once both blocks have run. *)
Definition edit_text_requests (start_index : Z) (p : EditTextPayload)
  : list EditOperation :=
  (fst (text_requests start_index (end_index p) (text p))
   ++ fst (format_requests start_index p))%list.

(** The list [operations] once both blocks have run. *)
Definition edit_text_operations (start_index : Z) (p : EditTextPayload)
  : list string :=
  (snd (text_requests start_index (end_index p) (text p))
   ++ snd (format_requests start_index p))%list.

Section Tool.

Variable validator : ValidationManager.

(** The validation of the formatting parameters: [Some] the string
    returned when one check fails. *)
Definition formatting_validation (start_index : Z) (p : EditTextPayload)
  : option string :=
  if any_formatting p then
    let '(is_valid, error_msg) :=
      validate_text_formatting_params validator
        (bold p) (italic p) (underline p) (font_size p) (font_family p) in
    if negb is_valid then Some ("Error: " ++ error_msg)
    else
      match end_index p with
      | None => Some "Error: 'end_index' is required when applying formatting."
      | Some e =>
          let '(is_valid, error_msg) :=
            validate_index_range validator start_index e in
          if negb is_valid then Some ("Error: " ++ error_msg) else None
      end
  else None.

(** [modify_doc_content] with [payload["operation"] == "edit_text"]. *)
Definition edit_text (document_id : string) (p : EditTextPayload) : Prog :=
  match start_index p with
  | None =>
      Done (handle_exception
              (OtherException "'start_index' is required for edit_text operation"))
  | Some start_index =>
      let '(is_valid, error_msg) := validate_document_id validator document_id in
      if negb is_valid then Done (Returned ("Error: " ++ error_msg))
      else if negb (is_not_None (text p)) && negb (any_formatting p) then
        Done (Returned
          "Error: Must provide either 'text' to insert/replace, or formatting parameters (bold, italic, underline, font_size, font_family).")
      else
        match formatting_validation start_index p with
        | Some error => Done (Returned error)
        | None =>
            let requests := edit_text_requests start_index p in
            let operations := edit_text_operations start_index p in
            BatchUpdate document_id requests
              (fun reply =>
                 match reply with
                 | inl e => Done (handle_exception e)
                 | inr _ =>
                     let link := doc_link document_id in
                     let operation_summary := String.concat "; " operations in
                     let text_info :=
                       match text p with
                       | Some t =>
                           if PyStr.truthy t then
                             " Text length: " ++ PyStr.of_int (PyStr.len t)
                             ++ " characters."
                           else ""
                       | None => ""
                       end in
                     Done (Returned
                             (operation_summary ++ " in document " ++ document_id
                              ++ "." ++ text_info ++ " Link: " ++ link))
                 end)
        end
  end.

End Tool.

End ModifyDocContent.

(** ** [insert_doc_elements] *)

Module InsertDocElements.

Local Open Scope Z_scope.

(** The arguments of one call. *)
Record Args := {
  operation : string;
  index : Z;
  element_type : option string;
  rows : option Z;
  columns : option Z;
  list_type : option string;
  text : option string;
  image_source : option string;
  width : option Z;
  height : option Z;
  table_data : option (list (list string));
  bold_headers : bool
}.

(** [x or default] on an optional string. *)
Definition str_or (x : option string) (default : string) : string :=
  match x with
  | Some s => if PyStr.truthy s then s else default
  | None => default
  end.

(** [x or 'auto'] on an optional int, printed. *)
Definition int_or_auto (x : option Z) : string :=
  match x with
  | Some n => if n =? 0 then "auto" else PyStr.of_int n
  | None => "auto"
  end.

(** "If index is 0, bump it to 1 to avoid the section break". *)
Definition bump_index (index : Z) : Z := if index =? 0 then 1 else index.

(** The line feed of ['\n']. *)
Definition newline : string := String "010" "".

(** Operation [text_elements] up to the [batchUpdate] call: an early
    result, or the list [requests] with [description]. *)
Definition text_elements_requests (index : Z) (a : Args)
  : ToolResult + (list EditOperation * string) :=
  match element_type a with
  | None =>
      inl (handle_exception
             (OtherException "'element_type' is required for text_elements operation"))
  | Some et =>
      if negb (PyStr.truthy et) then
        inl (handle_exception
               (OtherException "'element_type' is required for text_elements operation"))
      else if String.eqb et "table" then
        match rows a, columns a with
        | Some r, Some c =>
            if (r =? 0) || (c =? 0) then
              inl (Returned
                "Error: 'rows' and 'columns' parameters are required for table insertion.")
            else
              inr ([create_insert_table_request index r c],
                   "table (" ++ PyStr.of_int r ++ "x" ++ PyStr.of_int c ++ ")")
        | _, _ =>
            inl (Returned
              "Error: 'rows' and 'columns' parameters are required for table insertion.")
        end
      else if String.eqb et "list" then
        match list_type a with
        | Some lt =>
            if negb (PyStr.truthy lt) then
              inl (Returned
                "Error: 'list_type' parameter is required for list insertion ('UNORDERED' or 'ORDERED').")
            else
              let text := str_or (text a) "List item" in
              inr ([create_insert_text_request index (text ++ newline);
                    create_bullet_list_request
                      index (index + PyStr.len text + 1) lt],
                   PyStr.lower lt ++ " list")
        | None =>
            inl (Returned
              "Error: 'list_type' parameter is required for list insertion ('UNORDERED' or 'ORDERED').")
        end
      else if String.eqb et "page_break" then
        inr ([create_insert_page_break_request index], "page break")
      else
        inl (Returned
               ("Error: Unsupported element type '" ++ et
                ++ "'. Supported types: 'table', 'list', 'page_break'."))
  end.

(** The [batchUpdate] call and the confirmation shared by the
    [text_elements] and [image] operations. *)
Definition submit_and_confirm (document_id : string)
  (requests : list EditOperation) (what : string) (index : Z) : Prog :=
  BatchUpdate document_id requests
    (fun reply =>
       match reply with
       | inl e => Done (handle_exception e)
       | inr _ =>
           Done (Returned
                   ("Inserted " ++ what ++ " at index " ++ PyStr.of_int index
                    ++ " in document " ++ document_id ++ ". Link: "
                    ++ doc_link document_id))
       end).

(** Operation [image]. *)
Definition image_operation (document_id : string) (index : Z) (a : Args)
  : Prog :=
  match image_source a with
  | None =>
      Done (handle_exception
              (OtherException "'image_source' is required for image operation"))
  | Some src =>
      if negb (PyStr.truthy src) then
        Done (handle_exception
                (OtherException "'image_source' is required for image operation"))
      else
        let size_info :=
          if ModifyDocContent.truthy_int (width a)
             || ModifyDocContent.truthy_int (height a)
          then " (size: " ++ int_or_auto (width a) ++ "x"
               ++ int_or_auto (height a) ++ " points)"
          else "" in
        let insert image_uri source_description :=
          submit_and_confirm document_id
            [create_insert_image_request index image_uri (width a) (height a)]
            (source_description ++ size_info) index in
        let is_drive_file :=
          negb (PyStr.startswith src "http://"
                || PyStr.startswith src "https://") in
        if is_drive_file then
          DriveFilesGet src
            (fun reply =>
               match reply with
               | inl e =>
                   Done (Returned
                           ("Error: Could not access Drive file " ++ src
                            ++ ": " ++ exn_str e))
               | inr file_metadata =>
                   let mime_type :=
                     match mimeType file_metadata with
                     | Some m => m
                     | None => ""
                     end in
                   if negb (PyStr.startswith mime_type "image/") then
                     Done (Returned
                             ("Error: File " ++ src
                              ++ " is not an image (MIME type: " ++ mime_type
                              ++ ")."))
                   else
                     insert ("https://drive.google.com/uc?id=" ++ src)
                       ("Drive file "
                        ++ match name file_metadata with
                           | Some n => n
                           | None => src
                           end)
               end)
        else insert src "URL image"
  end.

(** The message pattern of a boundary error. *)
Definition BOUNDARY_PATTERN : string := "must be less than the end index".

(** The closing [if success: ... else: ...] of operation [table]. *)
Definition table_result (document_id : string) (index : Z)
  (r : ManagerResult) : ToolResult :=
  if success r then
    let rows_count := dict_get (metadata r) "rows" 0 in
    let columns_count := dict_get (metadata r) "columns" 0 in
    Returned ("SUCCESS: " ++ message r ++ ". Table: "
              ++ PyStr.of_int rows_count ++ "x" ++ PyStr.of_int columns_count
              ++ ", Index: " ++ PyStr.of_int index ++ ". Link: "
              ++ doc_link document_id)
  else Returned ("ERROR: " ++ message r).

(** The create-and-populate attempt and its one retry. *)
Definition create_table_with_retry (document_id : string)
  (table_data : list (list string)) (index : Z) (bold_headers : bool) : Prog :=
  CreateAndPopulateTable document_id table_data index bold_headers
    (fun reply =>
       match reply with
       | inl e => Done (handle_exception e)
       | inr r =>
           if negb (success r) && PyStr.contains BOUNDARY_PATTERN (message r)
           then
             CreateAndPopulateTable document_id table_data (index - 1)
               bold_headers
               (fun reply' =>
                  match reply' with
                  | inl e => Done (handle_exception e)
                  | inr r' => Done (table_result document_id index r')
                  end)
           else Done (table_result document_id index r)
       end).

Section Tool.

Variable validator : ValidationManager.

(** Operation [table]. *)
Definition table_operation (document_id : string) (index : Z) (a : Args)
  : Prog :=
  match table_data a with
  | None | Some [] =>
      Done (handle_exception
              (OtherException "'table_data' is required for table operation"))
  | Some table_data =>
      let '(is_valid, error_msg) := validate_document_id validator document_id in
      if negb is_valid then Done (Returned ("ERROR: " ++ error_msg))
      else
        let '(is_valid, error_msg) := validate_table_data validator table_data in
        if negb is_valid then Done (Returned ("ERROR: " ++ error_msg))
        else
          let '(is_valid, error_msg) := validate_index validator index "Index" in
          if negb is_valid then Done (Returned ("ERROR: " ++ error_msg))
          else
            create_table_with_retry document_id table_data index
              (bold_headers a)
  end.

(** [insert_doc_elements(document_id, operation, index, ...)]. *)
Definition insert_doc_elements (document_id : string) (a : Args) : Prog :=
  let index := bump_index (index a) in
  if String.eqb (operation a) "text_elements" then
    match text_elements_requests index a with
    | inl r => Done r
    | inr (requests, description) =>
        submit_and_confirm document_id requests description index
    end
  else if String.eqb (operation a) "image" then
    image_operation document_id index a
  else if String.eqb (operation a) "table" then
    table_operation document_id index a
  else
    Done (handle_exception
            (OtherException ("Invalid operation: " ++ operation a))).

End Tool.

End InsertDocElements.

(** ** Text as Unicode code points *)

Module Unicode.

Local Open Scope Z_scope.

(** A Python [str] is a sequence of Unicode code points, which go up to
    0x10FFFF, and [len] counts code points; a [string] holds the code
    points below 256 only.  Where the place a text takes in a document
    matters, the text is a list of code points. *)
Definition Text := list Z.

(** [len(text)]. *)
Definition len (text : Text) : Z := Z.of_nat (List.length text).

(** The code points of a [string]. *)
Definition of_string (s : string) : Text :=
  map (fun c => Z.of_nat (nat_of_ascii c)) (list_ascii_of_string s).

(** Modelled from the spec: the index space of a document has one position
    per UTF-16 code unit.  A code point of the Basic Multilingual Plane is
    one code unit; a code point beyond it is a pair of surrogates. *)
Definition utf16_of (c : Z) : list Z :=
  if c <? 65536 then [c]
  else [55296 + (c - 65536) / 1024; 56320 + (c - 65536) mod 1024].

Definition utf16 (text : Text) : list Z := flat_map utf16_of text.

(** Every code point of the text lies in the Basic Multilingual Plane. *)
Definition in_bmp (text : Text) : bool := forallb (fun c => c <? 65536) text.

End Unicode.

(** ** The document as a sequence of code units *)

Module DocService.

Local Open Scope Z_scope.

(** Modelled from the spec: the document service is outside the sources.
    The spec's data model makes the content one ordered sequence of UTF-16
    code units indexed from 0, its end index being its length.  Position 0
    is taken by the section marker: nothing is inserted there and no
    deletion starts there.  An insertion index that is not strictly less
    than the end index is refused (the boundary error).  A range is
    [start, end) with [start < end] and lies inside the content.  A batch
    is applied strictly in list order, each operation on the content the
    earlier ones left, and is rejected as a whole ([None]) when one
    operation is.  A style change leaves the content as it is. *)
Definition Doc := list Z.

Definition doc_length (d : Doc) : Z := Z.of_nat (List.length d).

Definition insert_at (i : Z) (t : Doc) (d : Doc) : Doc :=
  (firstn (Z.to_nat i) d ++ t ++ skipn (Z.to_nat i) d)%list.

Definition delete_range (s e : Z) (d : Doc) : Doc :=
  (firstn (Z.to_nat s) d ++ skipn (Z.to_nat e) d)%list.

(** The requests of [edit_text] as the service receives them, under the
    keys of the submission format; the text is the Unicode text, the style
    of a style change plays no part in the content. *)
Inductive Request : Type :=
| insertText (index : Z) (text : Unicode.Text)
| deleteContentRange (startIndex endIndex : Z)
| updateTextStyle (startIndex : Z) (endIndex : option Z).

Definition apply_op (op : Request) (d : Doc) : option Doc :=
  match op with
  | insertText i t =>
      if (1 <=? i) && (i <? doc_length d)
      then Some (insert_at i (Unicode.utf16 t) d) else None
  | deleteContentRange s e =>
      if (1 <=? s) && (s <? e) && (e <=? doc_length d)
      then Some (delete_range s e d) else None
  | updateTextStyle _ _ => Some d
  end.

Fixpoint apply_batch (batch : list Request) (d : Doc) : option Doc :=
  match batch with
  | [] => Some d
  | op :: batch' =>
      match apply_op op d with
      | Some d' => apply_batch batch' d'
      | None => None
      end
  end.

(** The request the service receives for an operation of the compiler;
    the structural insertions are outside this content model. *)
Definition request_of (op : EditOperation) : option Request :=
  match op with
  | InsertText i t => Some (insertText i (Unicode.of_string t))
  | DeleteRange s e => Some (deleteContentRange s e)
  | FormatText s e _ _ _ _ _ => Some (updateTextStyle s e)
  | _ => None
  end.

(** The conceptual replace of [start, end) by [text]. *)
Definition replaced (s e : Z) (text : Unicode.Text) (d : Doc) : Doc :=
  (firstn (Z.to_nat s) d ++ Unicode.utf16 text ++ skipn (Z.to_nat e) d)%list.

End DocService.

(** ** [modify_doc_content], operation [edit_text], on Unicode text *)

Module EditTextUnicode.

Import DocService.
Local Open Scope Z_scope.

(** "Handle text insertion/replacement" with the text as code points: the
    list [requests] this block leaves, as the service receives it. *)
Definition text_requests (start_index : Z) (end_index : option Z)
  (text : option Unicode.Text) : list Request :=
  match text with
  | Some text =>
      match end_index with
      | Some e =>
          if e >? start_index then
            if start_index =? 0 then
              let adjusted_end := e + Unicode.len text in
              [insertText 1 text;
               deleteContentRange (1 + Unicode.len text) adjusted_end]
            else
              [deleteContentRange start_index e;
               insertText start_index text]
          else
            let actual_index := if start_index =? 0 then 1 else start_index in
            [insertText actual_index text]
      | None =>
          let actual_index := if start_index =? 0 then 1 else start_index in
          [insertText actual_index text]
      end
  | None => []
  end.

(** "Adjust range for formatting based on text operations", then the two
    corrections, with the text as code points. *)
Definition format_range (start_index : Z) (end_index : option Z)
  (text : option Unicode.Text) : Z * option Z :=
  let format_start := start_index in
  let format_end := end_index in
  let '(format_start, format_end) :=
    match text with
    | Some text =>
        if ModifyDocContent.is_replacement start_index end_index then
          (format_start, Some (start_index + Unicode.len text))
        else
          let actual_index := if start_index =? 0 then 1 else start_index in
          (actual_index, Some (actual_index + Unicode.len text))
    | None => (format_start, format_end)
    end in
  let format_start := if format_start =? 0 then 1 else format_start in
  let format_end :=
    match format_end with
    | Some fe => if fe <=? format_start then Some (format_start + 1) else Some fe
    | None => None
    end in
  (format_start, format_end).

(** The list [requests] once both blocks have run; [formatting] is the
    value of [any([bold is not None, ..., font_family])]. *)
Definition edit_text_requests (start_index : Z) (end_index : option Z)
  (text : option Unicode.Text) (formatting : bool) : list Request :=
  (text_requests start_index end_index text
   ++ if formatting then
        let '(format_start, format_end) :=
          format_range start_index end_index text in
        [updateTextStyle format_start format_end]
      else [])%list.

(** The index-0 branch of the compiler, read at an arbitrary anchor: insert
    the new text at [at_index], then delete the original range shifted
    forward by [len(text)]. *)
Definition shifted_replace (at_index end_index : Z) (text : Unicode.Text)
  : list Request :=
  [insertText at_index text;
   deleteContentRange (at_index + Unicode.len text)
     (end_index + Unicode.len text)].

End EditTextUnicode.

(** ** Definitions used by the statements *)

(** The batch a tool submits as its first action, if that is what it does. *)
Definition submitted (p : Prog) : option (list EditOperation) :=
  match p with
  | BatchUpdate _ requests _ => Some requests
  | _ => None
  end.

(** An [edit_text] call passes its validation: the document id is valid
    and no formatting check returns an error. *)
Definition edit_text_accepted (validator : ValidationManager)
  (document_id : string) (start_index : Z)
  (p : ModifyDocContent.EditTextPayload) : bool :=
  fst (validate_document_id validator document_id)
  && match ModifyDocContent.formatting_validation validator start_index p with
     | None => true
     | Some _ => false
     end.

(** A [table] call passes its validation. *)
Definition table_call_accepted (validator : ValidationManager)
  (document_id : string) (index : Z) (table_data : list (list string)) : bool :=
  fst (validate_document_id validator document_id)
  && fst (validate_table_data validator table_data)
  && fst (validate_index validator index "Index").

(** A validator that accepts every input. *)
Definition accept_all : ValidationManager := {|
  validate_document_id := fun _ => (true, "");
  validate_text_formatting_params := fun _ _ _ _ _ => (true, "");
  validate_index_range := fun _ _ => (true, "");
  validate_table_data := fun _ => (true, "");
  validate_index := fun _ _ => (true, "")
|}.

(** An [edit_text] payload with text and a range, no formatting. *)
Definition plain_edit (start_index : Z) (end_index : option Z)
  (text : string) : ModifyDocContent.EditTextPayload := {|
  ModifyDocContent.start_index := Some start_index;
  ModifyDocContent.end_index := end_index;
  ModifyDocContent.text := Some text;
  ModifyDocContent.bold := None;
  ModifyDocContent.italic := None;
  ModifyDocContent.underline := None;
  ModifyDocContent.font_size := None;
  ModifyDocContent.font_family := None
|}.

(** The same payload asking for bold. *)
Definition bold_edit (start_index : Z) (end_index : option Z)
  (text : string) : ModifyDocContent.EditTextPayload := {|
  ModifyDocContent.start_index := Some start_index;
  ModifyDocContent.end_index := end_index;
  ModifyDocContent.text := Some text;
  ModifyDocContent.bold := Some true;
  ModifyDocContent.italic := None;
  ModifyDocContent.underline := None;
  ModifyDocContent.font_size := None;
  ModifyDocContent.font_family := None
|}.



(** A list insertion of [text] at [index]. *)
Definition list_args (index : Z) (text : option string)
  : InsertDocElements.Args := {|
  InsertDocElements.operation := "text_elements";
  InsertDocElements.index := index;
  InsertDocElements.element_type := Some "list";
  InsertDocElements.rows := None;
  InsertDocElements.columns := None;
  InsertDocElements.list_type := Some "UNORDERED";
  InsertDocElements.text := text;
  InsertDocElements.image_source := None;
  InsertDocElements.width := None;
  InsertDocElements.height := None;
  InsertDocElements.table_data := None;
  InsertDocElements.bold_headers := true
|}.

(** A table insertion of a one-cell table at [index]. *)
Definition table_args (index : Z) : InsertDocElements.Args := {|
  InsertDocElements.operation := "table";
  InsertDocElements.index := index;
  InsertDocElements.element_type := None;
  InsertDocElements.rows := None;
  InsertDocElements.columns := None;
  InsertDocElements.list_type := None;
  InsertDocElements.text := None;
  InsertDocElements.image_source := None;
  InsertDocElements.width := None;
  InsertDocElements.height := None;
  InsertDocElements.table_data := Some [["H1"]];
  InsertDocElements.bold_headers := true
|}.

(** A document whose end index is 50: a table at 50 or beyond is refused
    with the boundary message, the retry below it is refused for another
    reason. *)
Definition refused_at_end : ManagerResult := {|
  success := false;
  message :=
    "Index 50 must be less than the end index of the referenced segment, 50.";
  metadata := []
|}.

Definition refused_inside : ManagerResult := {|
  success := false;
  message :=
    "The insertion index must be inside the bounds of an existing paragraph.";
  metadata := []
|}.

Definition end_at_50 : Services unit := {|
  sv_batch_update := fun w _ _ => (inr tt, w);
  sv_create_and_populate_table :=
    fun w _ _ index _ =>
      if (50 <=? index)%Z then (inr refused_at_end, w)
      else (inr refused_inside, w);
  sv_drive_files_get :=
    fun w _ => (inr {| name := None; mimeType := None |}, w)
|}.

(** A delete whose range [start, end) includes position 0. *)
Definition deletes_position_0 (op : EditOperation) : bool :=
  match op with
  | DeleteRange s e => ((s <=? 0) && (0 <? e))%Z
  | _ => false
  end.

(** The index an operation is addressed at. *)
Definition target_index (op : EditOperation) : option Z :=
  match op with
  | InsertText i _ => Some i
  | DeleteRange s _ => Some s
  | FormatText s _ _ _ _ _ _ => Some s
  | FindReplace _ _ _ => None
  | InsertTable i _ _ => Some i
  | InsertImage i _ _ _ => Some i
  | InsertPageBreak i => Some i
  | CreateBullets s _ _ => Some s
  end.

(** The format range as the prose gives it: the range of the new text,
    then a start of 0 moved to 1, then a degenerate range widened. *)
Definition new_text_range (start_index : Z) (end_index : option Z)
  (text : string) : Z * Z :=
  match end_index with
  | Some e =>
      if (start_index <? e)%Z
      then (start_index, start_index + PyStr.len text)%Z
      else
        let actual_index := if (start_index =? 0)%Z then 1%Z else start_index in
        (actual_index, actual_index + PyStr.len text)%Z
  | None =>
      let actual_index := if (start_index =? 0)%Z then 1%Z else start_index in
      (actual_index, actual_index + PyStr.len text)%Z
  end.

Definition corrected_range (r : Z * Z) : Z * Z :=
  let s := if (fst r =? 0)%Z then 1%Z else fst r in
  let e := if (snd r <=? s)%Z then (s + 1)%Z else snd r in
  (s, e).

(** A tree cut below [fuel] further levels of table-in-cell: the cells of
    a table met with no fuel left are emptied. *)
Fixpoint prune (fuel : nat) (element : StructuralElement) {struct element}
  : StructuralElement :=
  match element with
  | Table table_rows =>
      Table
        (map (map (fun cell_content =>
                     match fuel with
                     | O => []
                     | S fuel' => map (prune fuel') cell_content
                     end))
           table_rows)
  | other => other
  end.

(** How many tables deep the cells of an element go. *)
Fixpoint table_nesting (element : StructuralElement) {struct element} : nat :=
  match element with
  | Table table_rows =>
      S (list_max
           (map (fun row_cells =>
                   list_max
                     (map (fun cell_content =>
                             list_max (map table_nesting cell_content))
                        row_cells))
              table_rows))
  | _ => O
  end.

(** The tabs of a hierarchy in depth-first order, each with its level. *)
Fixpoint tab_preorder (level : nat) (tab : Tab) {struct tab}
  : list (nat * Tab) :=
  match tab with
  | mkTab _ child_tabs =>
      (level, tab) :: flat_map (tab_preorder (S level)) child_tabs
  end.

(** The title a tab is labelled with at [level]: four spaces per level
    before the title, ['Untitled Tab'] when there is none. *)
Definition tab_title (dt : DocumentTab) : string :=
  match title dt with Some t => t | None => "Untitled Tab" end.

Definition tab_label (level : nat) (dt : DocumentTab) : string :=
  PyStr.repeat "    " level ++ tab_title dt.

(** The block one tab contributes by itself, its children apart. *)
Definition tab_block (entry : nat * Tab) : string :=
  match entry with
  | (level, mkTab (Some dt) _) =>
      extract_text_from_elements (tab_body dt) (Some (tab_label level dt)) 0
  | (_, mkTab None _) => ""
  end.

(** A string is [well_filled] when it is empty or has a code point that is
    not whitespace: never a run of whitespace alone. *)
Definition well_filled (s : string) : Prop :=
  PyStr.blank s = true -> s = "".

(** The table inside [k] levels of single-cell tables around [inner]. *)
Fixpoint nest_tables (k : nat) (inner : list StructuralElement)
  : list StructuralElement :=
  match k with
  | O => inner
  | S k' => [Table [[nest_tables k' inner]]]
  end.

(** A paragraph of one text run. *)
Definition text_paragraph (s : string) : StructuralElement :=
  Paragraph [{| textRun := Some {| content := Some s |} |}].

(** ** Definitions used by the further properties *)

(** What one paragraph element adds to the line: the content of its text
    run, nothing when the run or its content is missing. *)
Definition run_content (pe : ParagraphElement) : string :=
  match textRun pe with
  | Some text_run =>
      match content text_run with Some c => c | None => "" end
  | None => ""
  end.

(** The cells of a table in reading order, row after row. *)
Definition cells_in_order (table_rows : list (list (list StructuralElement)))
  : list (list StructuralElement) :=
  List.concat table_rows.

(** The code units of a document in [a, b). *)
Definition slice (d : DocService.Doc) (a b : Z) : DocService.Doc :=
  firstn (Z.to_nat (b - a)) (skipn (Z.to_nat a) d).

(** An [edit_text] payload with its [end_index] taken away. *)
Definition without_end (p : ModifyDocContent.EditTextPayload)
  : ModifyDocContent.EditTextPayload := {|
  ModifyDocContent.start_index := ModifyDocContent.start_index p;
  ModifyDocContent.end_index := None;
  ModifyDocContent.text := ModifyDocContent.text p;
  ModifyDocContent.bold := ModifyDocContent.bold p;
  ModifyDocContent.italic := ModifyDocContent.italic p;
  ModifyDocContent.underline := ModifyDocContent.underline p;
  ModifyDocContent.font_size := ModifyDocContent.font_size p;
  ModifyDocContent.font_family := ModifyDocContent.font_family p
|}.

(** An [edit_text] call has something to do and passes its validation. *)
Definition edit_text_ready (validator : ValidationManager)
  (document_id : string) (start_index : Z)
  (p : ModifyDocContent.EditTextPayload) : bool :=
  edit_text_accepted validator document_id start_index p
  && (ModifyDocContent.is_not_None (ModifyDocContent.text p)
      || ModifyDocContent.any_formatting p).

(** A bold request over a range, with no text. *)
Definition bold_only (start_index : Z) (end_index : option Z)
  : ModifyDocContent.EditTextPayload := {|
  ModifyDocContent.start_index := Some start_index;
  ModifyDocContent.end_index := end_index;
  ModifyDocContent.text := None;
  ModifyDocContent.bold := Some true;
  ModifyDocContent.italic := None;
  ModifyDocContent.underline := None;
  ModifyDocContent.font_size := None;
  ModifyDocContent.font_family := None
|}.



(** The arguments of a call with another index. *)
Definition with_index (a : InsertDocElements.Args) (index : Z)
  : InsertDocElements.Args := {|
  InsertDocElements.operation := InsertDocElements.operation a;
  InsertDocElements.index := index;
  InsertDocElements.element_type := InsertDocElements.element_type a;
  InsertDocElements.rows := InsertDocElements.rows a;
  InsertDocElements.columns := InsertDocElements.columns a;
  InsertDocElements.list_type := InsertDocElements.list_type a;
  InsertDocElements.text := InsertDocElements.text a;
  InsertDocElements.image_source := InsertDocElements.image_source a;
  InsertDocElements.width := InsertDocElements.width a;
  InsertDocElements.height := InsertDocElements.height a;
  InsertDocElements.table_data := InsertDocElements.table_data a;
  InsertDocElements.bold_headers := InsertDocElements.bold_headers a
|}.

(** An image insertion from [image_source] at [index]. *)
Definition image_args (index : Z) (image_source : string)
  : InsertDocElements.Args := {|
  InsertDocElements.operation := "image";
  InsertDocElements.index := index;
  InsertDocElements.element_type := None;
  InsertDocElements.rows := None;
  InsertDocElements.columns := None;
  InsertDocElements.list_type := None;
  InsertDocElements.text := None;
  InsertDocElements.image_source := Some image_source;
  InsertDocElements.width := None;
  InsertDocElements.height := None;
  InsertDocElements.table_data := None;
  InsertDocElements.bold_headers := true
|}.

(** A Drive that knows every file as a PNG image. *)
Definition drive_of_images : Services unit := {|
  sv_batch_update := fun w _ _ => (inr tt, w);
  sv_create_and_populate_table :=
    fun w _ _ _ _ => (inl (OtherException "no table manager"), w);
  sv_drive_files_get :=
    fun w _ =>
      (inr {| name := Some "logo.png"; mimeType := Some "image/png" |}, w)
|}.

(** A document whose end index is 50 and that takes a table below it. *)
Definition created_table : ManagerResult := {|
  success := true;
  message := "Successfully created 1x1 table and populated 1 cells";
  metadata := [("rows", 1%Z); ("columns", 1%Z)]
|}.

Definition end_at_50_free_below : Services unit := {|
  sv_batch_update := fun w _ _ => (inr tt, w);
  sv_create_and_populate_table :=
    fun w _ _ index _ =>
      if (50 <=? index)%Z then (inr refused_at_end, w)
      else (inr created_table, w);
  sv_drive_files_get :=
    fun w _ => (inr {| name := None; mimeType := None |}, w)
|}.



(** ** Further Python string primitives *)

Module PyStr2.

(** [s.replace(old, new)] for a pattern [old] of one code point. *)
Fixpoint replace_char (old : ascii) (new : string) (s : string) : string :=
  match s with
  | EmptyString => EmptyString
  | String c s' =>
      if Ascii.eqb c old then new ++ replace_char old new s'
      else String c (replace_char old new s')
  end.

(** [s.endswith(suffix)]: some tail of [s] is [suffix]. *)
Fixpoint endswith (s suffix : string) : bool :=
  String.eqb s suffix
  || match s with
     | EmptyString => false
     | String _ s' => endswith s' suffix
     end.

(** The digits of [f"{n:,}"], least significant first, a comma after every
    third digit that has a digit above it. *)
Fixpoint group_thousands (rev_digits : list ascii) : list ascii :=
  match rev_digits with
  | a :: b :: c :: ((_ :: _) as rest) =>
      a :: b :: c :: ","%char :: group_thousands rest
  | short => short
  end.

(** [f"{n:,}"] for a size, which is never negative. *)
Definition with_commas (n : nat) : string :=
  string_of_list_ascii
    (rev (group_thousands
            (rev (list_ascii_of_string (PyStr.of_int (Z.of_nat n)))))).

(** [str(x)] of an optional string: [None] prints as ["None"]. *)
Definition of_opt (x : option string) : string :=
  match x with Some s => s | None => "None" end.

(** [l[i]] on a list: a negative index counts from the end, and [None]
    stands for [IndexError]. *)
Definition list_index {A : Type} (l : list A) (i : Z) : option A :=
  let n := Z.of_nat (List.length l) in
  if (0 <=? i)%Z then nth_error l (Z.to_nat i)
  else if (- n <=? i)%Z then nth_error l (Z.to_nat (n + i))
  else None.

(** [enumerate(l)]. *)
Definition enumerate {A : Type} (l : list A) : list (Z * A) :=
  combine (map Z.of_nat (seq 0 (List.length l))) l.

End PyStr2.

(** ** The other tools of the module, as interaction programs *)

Module Api.

(** One file of a Drive listing; [f['name']] and [f['id']] raise
    [KeyError] on a missing key, the other two are read with [.get]. *)
Record ListedFile := {
  name : option string;
  id : option string;
  modifiedTime : option string;
  webViewLink : option string
}.

(** The response of [files().list]. *)
Record ListResponse := { files : option (list ListedFile) }.

(** The reply to one request of a batch, and the result of the batch. *)
Record ReplaceAllTextReply := { occurrencesChanged : option Z }.
Record BatchReply := { replaceAllText : option ReplaceAllTextReply }.
Record BatchResult := { replies : option (list BatchReply) }.

(** The metadata [files().get] returns for [export_pdf]. *)
Record FileInfo := {
  info_mimeType : option string;
  info_name : option string;
  info_webViewLink : option string
}.

(** The file [files().create] returns. *)
Record UploadedFile := {
  uploaded_id : option string;
  uploaded_webViewLink : option string;
  uploaded_parents : option (list string)
}.

(** The service calls of these tools.  [ExportMedia] stands for the
    [export_media] request together with the loop that downloads its
    chunks until [done]: its reply is the content downloaded. *)
Inductive Call : Type :=
| FilesList (q : string) (page_size : Z)
| DocumentsBatchUpdate (document_id : string) (requests : list EditOperation)
| FilesGet (file_id : string)
| ExportMedia (file_id : string) (mime_type : string)
| FilesCreate (file_name : string) (mime_type : string)
    (parents : option (list string)) (media : list Byte.byte).

Definition Reply (c : Call) : Type :=
  match c with
  | FilesList _ _ => ListResponse
  | DocumentsBatchUpdate _ _ => BatchResult
  | FilesGet _ => FileInfo
  | ExportMedia _ _ => list Byte.byte
  | FilesCreate _ _ _ _ => UploadedFile
  end.

(** A tool: a finite tree of calls, each continued with the reply or the
    exception of the service. *)
Inductive Tool : Type :=
| Ret (r : ToolResult)
| Invoke (c : Call) (k : Exn + Reply c -> Tool).

(** The services, over a world they may change. *)
Definition Handler (W : Type) : Type :=
  forall c : Call, W -> (Exn + Reply c) * W.

Fixpoint run {W : Type} (h : Handler W) (w : W) (t : Tool)
  : list Call * ToolResult * W :=
  match t with
  | Ret r => ([], r, w)
  | Invoke c k =>
      let '(reply, w1) := h c w in
      let '(calls, r, w2) := run h w1 (k reply) in
      (c :: calls, r, w2)
  end.

Definition calls {W : Type} (h : Handler W) (w : W) (t : Tool) : list Call :=
  fst (fst (run h w t)).

Definition result {W : Type} (h : Handler W) (w : W) (t : Tool) : ToolResult :=
  snd (fst (run h w t)).

(** *** [search_docs] *)

Definition apostrophe : ascii := "'"%char.
Definition backslash : ascii := "\"%char.

(** [query.replace("'", "\\'")]. *)
Definition escape_query (query : string) : string :=
  PyStr2.replace_char apostrophe (String backslash (String apostrophe ""))
    query.

(** The [q] parameter of the listing. *)
Definition search_q (query : string) : string :=
  "name contains '" ++ escape_query query
  ++ "' and mimeType='application/vnd.google-apps.document' and trashed=false".

(** One line of the listing; [inl] is the key of a [KeyError]. *)
Definition file_line (f : ListedFile) : string + string :=
  match name f with
  | None => inl "name"
  | Some n =>
      match id f with
      | None => inl "id"
      | Some i =>
          inr ("- " ++ n ++ " (ID: " ++ i ++ ") Modified: "
               ++ PyStr2.of_opt (modifiedTime f) ++ " Link: "
               ++ PyStr2.of_opt (webViewLink f))
      end
  end.

(** The loop [for f in files: output.append(...)]. *)
Fixpoint file_lines (fs : list ListedFile) : string + list string :=
  match fs with
  | [] => inr []
  | f :: fs' =>
      match file_line f with
      | inl key => inl key
      | inr line =>
          match file_lines fs' with
          | inl key => inl key
          | inr lines => inr (line :: lines)
          end
      end
  end.

(** [search_docs(query, page_size)].  The function catches nothing: an
    exception of the service, or the [KeyError] of a file without name or
    id, leaves it as it is. *)
Definition search_docs (query : string) (page_size : Z) : Tool :=
  Invoke (FilesList (search_q query) page_size)
    (fun reply =>
       match reply with
       | inl e => Ret (Raised (exn_str e))
       | inr response =>
           match files response with
           | None | Some [] =>
               Ret (Returned ("No Google Docs found matching '" ++ query ++ "'."))
           | Some fs =>
               match file_lines fs with
               | inl key => Ret (Raised ("'" ++ key ++ "'"))
               | inr lines =>
                   Ret (Returned
                          (String.concat (String "010" "")
                             (("Found "
                               ++ PyStr.of_int (Z.of_nat (List.length fs))
                               ++ " Google Docs matching '" ++ query ++ "':")
                              :: lines)))
               end
           end
       end).

(** *** [modify_doc_content], operation [find_replace] *)

Record FindReplacePayload := {
  find_text : option string;
  replace_text : option string;
  match_case : option bool
}.

(** "Extract number of replacements from response". *)
Definition replacements_of (result : BatchResult) : Z :=
  match replies result with
  | Some (reply :: _) =>
      match replaceAllText reply with
      | Some r =>
          match occurrencesChanged r with Some n => n | None => 0%Z end
      | None => 0%Z
      end
  | _ => 0%Z
  end.

Definition find_replace (document_id : string) (p : FindReplacePayload)
  : Tool :=
  match find_text p with
  | None | Some EmptyString =>
      Ret (handle_exception
             (OtherException "'find_text' is required for find_replace operation"))
  | Some find =>
      match replace_text p with
      | None =>
          Ret (handle_exception
                 (OtherException
                    "'replace_text' is required for find_replace operation"))
      | Some replace =>
          let case := match match_case p with Some b => b | None => false end in
          Invoke
            (DocumentsBatchUpdate document_id [FindReplace find replace case])
            (fun reply =>
               match reply with
               | inl e => Ret (handle_exception e)
               | inr result =>
                   Ret (Returned
                          ("Replaced " ++ PyStr.of_int (replacements_of result)
                           ++ " occurrence(s) of '" ++ find ++ "' with '"
                           ++ replace ++ "' in document " ++ document_id
                           ++ ". Link: " ++ doc_link document_id))
               end)
      end
  end.

(** *** [manage_doc_operations], operation [export_pdf] *)

Definition GOOGLE_DOC : string := "application/vnd.google-apps.document".
Definition PDF : string := "application/pdf".

(** "Determine PDF filename". *)
Definition pdf_name (original_name : string) (pdf_filename : option string)
  : string :=
  match pdf_filename with
  | None | Some EmptyString => original_name ++ "_PDF.pdf"
  | Some given =>
      if negb (PyStr2.endswith given ".pdf") then given ++ ".pdf" else given
  end.

(** The [parents] of the upload: set only for a folder id that is given
    and not empty. *)
Definition upload_parents (folder_id : option string) : option (list string) :=
  match folder_id with
  | None | Some EmptyString => None
  | Some folder => Some [folder]
  end.

(** [folder_info]: the folder asked for, else the first parent of the
    uploaded file, else nothing. *)
Definition folder_info (folder_id : option string)
  (pdf_parents : list string) : string :=
  match folder_id with
  | None | Some EmptyString =>
      match pdf_parents with
      | parent :: _ => " in folder " ++ parent
      | [] => ""
      end
  | Some folder => " in folder " ++ folder
  end.

Definition export_pdf (document_id : string) (pdf_filename : option string)
  (folder_id : option string) : Tool :=
  Invoke (FilesGet document_id)
    (fun reply =>
       match reply with
       | inl e =>
           Ret (Returned ("Error: Could not access document " ++ document_id
                          ++ ": " ++ exn_str e))
       | inr file_metadata =>
           let mime_type :=
             match info_mimeType file_metadata with Some m => m | None => "" end in
           let original_name :=
             match info_name file_metadata with
             | Some n => n
             | None => "Unknown Document"
             end in
           let web_view_link :=
             match info_webViewLink file_metadata with
             | Some l => l
             | None => "#"
             end in
           if negb (String.eqb mime_type GOOGLE_DOC) then
             Ret (Returned
                    ("Error: File '" ++ original_name
                     ++ "' is not a Google Doc (MIME type: " ++ mime_type
                     ++ "). Only native Google Docs can be exported to PDF."))
           else
             Invoke (ExportMedia document_id PDF)
               (fun reply =>
                  match reply with
                  | inl e =>
                      Ret (Returned
                             ("Error: Failed to export document to PDF: "
                              ++ exn_str e))
                  | inr pdf_content =>
                      let pdf_size := List.length pdf_content in
                      let pdf_filename := pdf_name original_name pdf_filename in
                      Invoke
                        (FilesCreate pdf_filename PDF
                           (upload_parents folder_id) pdf_content)
                        (fun reply =>
                           match reply with
                           | inl e =>
                               Ret (Returned
                                      ("Error: Failed to upload PDF to Drive: "
                                       ++ exn_str e
                                       ++ ". PDF was generated successfully ("
                                       ++ PyStr2.with_commas pdf_size
                                       ++ " bytes) but could not be saved to Drive."))
                           | inr uploaded_file =>
                               let pdf_web_link :=
                                 match uploaded_webViewLink uploaded_file with
                                 | Some l => l
                                 | None => "#"
                                 end in
                               let pdf_parents :=
                                 match uploaded_parents uploaded_file with
                                 | Some ps => ps
                                 | None => []
                                 end in
                               Ret (Returned
                                      ("Successfully exported '" ++ original_name
                                       ++ "' to PDF and saved to Drive as '"
                                       ++ pdf_filename ++ "' (ID: "
                                       ++ PyStr2.of_opt (uploaded_id uploaded_file)
                                       ++ ", " ++ PyStr2.with_commas pdf_size
                                       ++ " bytes)"
                                       ++ folder_info folder_id pdf_parents
                                       ++ ". PDF: " ++ pdf_web_link
                                       ++ " | Original: " ++ web_view_link))
                           end)
                  end)
       end).

End Api.

(** ** [manage_doc_operations], operation [debug_table] *)

(** A value handed to [json.dumps]. *)
Inductive Json : Type :=
| JString (s : string)
| JInt (n : Z)
| JList (items : list Json)
| JObject (members : list (string * Json)).

Module DebugTable.

Local Open Scope Z_scope.

(** A cell as [find_tables] gives it: the two indices are read with
    [cell[...]], the rest with [.get]. *)
Record CellInfo := {
  start_index : Z;
  end_index : Z;
  insertion_index : option Z;
  content : option string;
  content_elements : option (list StructuralElement)
}.

(** A table as [find_tables] gives it. *)
Record TableInfo := {
  rows : Z;
  columns : Z;
  table_start_index : Z;
  table_end_index : Z;
  cells : list (list CellInfo)
}.

Section Tool.

(** [json.dumps(_, indent=2)] and [repr] belong to Python; [find_tables]
    of [gdocs/docs_structure.py] is not part of the sources, and the
    tables it finds are the input here. *)
Variable json_dumps : Json -> string.
Variable repr : string -> string.

(** [cell_debug] for the cell at [(row_idx, col_idx)]. *)
Definition cell_debug (row_idx col_idx : Z) (cell : CellInfo) : Json :=
  JObject
    [("position",
      JString ("(" ++ PyStr.of_int row_idx ++ "," ++ PyStr.of_int col_idx ++ ")"));
     ("range",
      JString ("[" ++ PyStr.of_int (start_index cell) ++ "-"
               ++ PyStr.of_int (end_index cell) ++ "]"));
     ("insertion_index",
      match insertion_index cell with
      | Some i => JInt i
      | None => JString "N/A"
      end);
     ("current_content",
      JString (repr match content cell with Some c => c | None => "" end));
     ("content_elements_count",
      JInt (Z.of_nat
              (List.length
                 match content_elements cell with
                 | Some es => es
                 | None => []
                 end)))].

(** [debug_info] for [table_info]. *)
Definition debug_info (table_index : Z) (table_info : TableInfo) : Json :=
  JObject
    [("table_index", JInt table_index);
     ("dimensions",
      JString (PyStr.of_int (rows table_info) ++ "x"
               ++ PyStr.of_int (columns table_info)));
     ("table_range",
      JString ("[" ++ PyStr.of_int (table_start_index table_info) ++ "-"
               ++ PyStr.of_int (table_end_index table_info) ++ "]"));
     ("cells",
      JList
        (map (fun '(row_idx, row) =>
                JList
                  (map (fun '(col_idx, cell) => cell_debug row_idx col_idx cell)
                     (PyStr2.enumerate row)))
           (PyStr2.enumerate (cells table_info))))].

(** Operation [debug_table] once the document is read and its tables are
    found. *)
Definition debug_table (document_id : string) (tables : list TableInfo)
  (table_index : Z) : ToolResult :=
  if Z.of_nat (List.length tables) <=? table_index then
    Returned ("Error: Table index " ++ PyStr.of_int table_index
              ++ " not found. Document has "
              ++ PyStr.of_int (Z.of_nat (List.length tables)) ++ " table(s).")
  else
    match PyStr2.list_index tables table_index with
    | None => handle_exception (OtherException "list index out of range")
    | Some table_info =>
        Returned ("Table structure debug for table "
                  ++ PyStr.of_int table_index ++ ":" ++ String "010" (String "010" "")
                  ++ json_dumps (debug_info table_index table_info)
                  ++ String "010" (String "010" "") ++ "Link: "
                  ++ doc_link document_id)
    end.

End Tool.

End DebugTable.

(** Undoing the escape: a backslash that stands before an apostrophe is
    dropped. *)
Fixpoint unescape_query (s : string) : string :=
  match s with
  | EmptyString => EmptyString
  | String c s' =>
      match s' with
      | String c' s'' =>
          if Ascii.eqb c Api.backslash && Ascii.eqb c' Api.apostrophe
          then String c' (unescape_query s'')
          else String c (unescape_query s')
      | EmptyString => String c EmptyString
      end
  end.

(** Every apostrophe of [s] has a backslash just before it;
    [after_backslash] tells whether [s] itself follows one. *)
Fixpoint apostrophes_guarded (after_backslash : bool) (s : string) : bool :=
  match s with
  | EmptyString => true
  | String c s' =>
      (if Ascii.eqb c Api.apostrophe then after_backslash else true)
      && apostrophes_guarded (Ascii.eqb c Api.backslash) s'
  end.

(** How many times [c] occurs in [s]. *)
Fixpoint count_char (c : ascii) (s : string) : nat :=
  match s with
  | EmptyString => 0
  | String c' s' => (if Ascii.eqb c' c then 1 else 0) + count_char c s'
  end.

(** A Drive on which every call fails. *)
Definition drive_down : Api.Handler unit :=
  fun c w => (inl (HttpError "503 backend error"), w).

(** A Docs service that answers every batch with two replies, the first
    counting [n] replacements and the second 99; Drive is down. *)
Definition docs_replacing (n : Z) : Api.Handler unit :=
  fun c =>
    match c as c0 return unit -> (Exn + Api.Reply c0) * unit with
    | Api.DocumentsBatchUpdate _ _ =>
        fun w =>
          (inr {| Api.replies :=
                    Some [{| Api.replaceAllText :=
                               Some {| Api.occurrencesChanged := Some n |} |};
                          {| Api.replaceAllText :=
                               Some {| Api.occurrencesChanged := Some 99%Z |} |}]
               |}, w)
    | _ => fun w => (inl (HttpError "503 backend error"), w)
    end.

(** A find-and-replace payload. *)
Definition replace_payload (find replace : string) : Api.FindReplacePayload := {|
  Api.find_text := Some find;
  Api.replace_text := Some replace;
  Api.match_case := None
|}.

(** The report [debug_table] returns for [table_info] under the index
    asked for. *)
Definition debug_report (json_dumps : Json -> string) (repr : string -> string)
  (document_id : string) (table_index : Z)
  (table_info : DebugTable.TableInfo) : ToolResult :=
  Returned ("Table structure debug for table " ++ PyStr.of_int table_index
            ++ ":" ++ String "010" (String "010" "")
            ++ json_dumps (DebugTable.debug_info repr table_index table_info)
            ++ String "010" (String "010" "") ++ "Link: "
            ++ doc_link document_id).

(** How many cells each row of the [cells] member of a debug object
    holds. *)
Definition debug_row_sizes (j : Json) : list nat :=
  match j with
  | JObject [_; _; _; (_, JList rows_json)] =>
      map (fun r => match r with JList cs => List.length cs | _ => O end)
        rows_json
  | _ => []
  end.

(** A table of one row and two cells. *)
Definition small_table (start : Z) : DebugTable.TableInfo := {|
  DebugTable.rows := 1;
  DebugTable.columns := 2;
  DebugTable.table_start_index := start;
  DebugTable.table_end_index := (start + 9)%Z;
  DebugTable.cells :=
    [[{| DebugTable.start_index := (start + 2)%Z;
         DebugTable.end_index := (start + 4)%Z;
         DebugTable.insertion_index := Some (start + 3)%Z;
         DebugTable.content := Some "a";
         DebugTable.content_elements := None |};
      {| DebugTable.start_index := (start + 4)%Z;
         DebugTable.end_index := (start + 6)%Z;
         DebugTable.insertion_index := None;
         DebugTable.content := None;
         DebugTable.content_elements := Some [] |}]]
|}.

(** * Facts *)

(** ** Strings *)

Lemma append_nil_r (s : string) : s ++ "" = s.
Proof. induction s as [|c s IH]; simpl; [reflexivity | now rewrite IH]. Qed.

Lemma append_assoc (a b c : string) : (a ++ b) ++ c = a ++ (b ++ c).
Proof. induction a as [|x a IH]; simpl; [reflexivity | now rewrite IH]. Qed.

Lemma length_append (a b : string) :
  String.length (a ++ b) = (String.length a + String.length b)%nat.
Proof. induction a as [|x a IH]; simpl; [reflexivity | now rewrite IH]. Qed.

Lemma len_append (a b : string) :
  PyStr.len (a ++ b) = (PyStr.len a + PyStr.len b)%Z.
Proof. unfold PyStr.len. rewrite length_append. lia. Qed.

Lemma len_nonneg (s : string) : (0 <= PyStr.len s)%Z.
Proof. unfold PyStr.len. lia. Qed.

Lemma join_nil : PyStr.join [] = "".
Proof. reflexivity. Qed.

Lemma join_cons (x : string) (l : list string) :
  PyStr.join (x :: l) = x ++ PyStr.join l.
Proof.
  unfold PyStr.join. destruct l as [|y l]; simpl.
  - now rewrite append_nil_r.
  - reflexivity.
Qed.

Lemma join_app (a b : list string) :
  PyStr.join (a ++ b)%list = PyStr.join a ++ PyStr.join b.
Proof.
  induction a as [|x a IH].
  - reflexivity.
  - rewrite <- app_comm_cons, !join_cons, IH. now rewrite append_assoc.
Qed.

Lemma blank_append (a b : string) :
  PyStr.blank (a ++ b) = PyStr.blank a && PyStr.blank b.
Proof.
  induction a as [|x a IH]; simpl.
  - reflexivity.
  - now rewrite IH, andb_assoc.
Qed.

(** The accumulating loop [acc += f(x)] is a join. *)
Lemma fold_left_append {A : Type} (f : A -> string) (l : list A) (init : string) :
  fold_left (fun acc x => acc ++ f x) l init = init ++ PyStr.join (map f l).
Proof.
  revert init. induction l as [|x l IH]; intros init; simpl.
  - now rewrite join_nil, append_nil_r.
  - now rewrite IH, join_cons, append_assoc.
Qed.

Lemma well_filled_empty : well_filled "".
Proof. intros _. reflexivity. Qed.

Lemma well_filled_nonblank (s : string) :
  PyStr.blank s = false -> well_filled s.
Proof. intros H H'. congruence. Qed.

Lemma well_filled_append (a b : string) :
  well_filled a -> well_filled b -> well_filled (a ++ b).
Proof.
  intros Ha Hb H. rewrite blank_append in H.
  apply andb_true_iff in H as [H1 H2].
  now rewrite (Ha H1), (Hb H2).
Qed.

Lemma well_filled_join (l : list string) :
  Forall well_filled l -> well_filled (PyStr.join l).
Proof.
  induction 1 as [|x l Hx _ IH].
  - apply well_filled_empty.
  - rewrite join_cons. now apply well_filled_append.
Qed.

Lemma append_if_text_blank (x : string) :
  PyStr.blank x = true -> append_if_text x = [].
Proof. intros H. unfold append_if_text, PyStr.strip_truthy. now rewrite H. Qed.

Lemma append_if_text_nonblank (x : string) :
  PyStr.blank x = false -> append_if_text x = [x].
Proof. intros H. unfold append_if_text, PyStr.strip_truthy. now rewrite H. Qed.

Lemma append_if_text_well_filled (x : string) :
  Forall well_filled (append_if_text x).
Proof.
  destruct (PyStr.blank x) eqn:E.
  - rewrite append_if_text_blank by assumption. constructor.
  - rewrite append_if_text_nonblank by assumption.
    constructor; [now apply well_filled_nonblank | constructor].
Qed.

Lemma join_append_if_text (x : string) :
  well_filled x -> PyStr.join (append_if_text x) = x.
Proof.
  intros Hx. destruct (PyStr.blank x) eqn:E.
  - rewrite append_if_text_blank by assumption. now rewrite (Hx E).
  - rewrite append_if_text_nonblank by assumption.
    now rewrite join_cons, join_nil, append_nil_r.
Qed.

Lemma Forall_flat_map {A B : Type} (P : B -> Prop) (f : A -> list B)
  (l : list A) :
  (forall x, Forall P (f x)) -> Forall P (flat_map f l).
Proof.
  intros H. induction l as [|x l IH]; simpl.
  - constructor.
  - apply Forall_app. split; [apply H | exact IH].
Qed.

Lemma flat_map_ext_Forall {A B : Type} (f g : A -> list B) (l : list A) :
  Forall (fun x => f x = g x) l -> flat_map f l = flat_map g l.
Proof.
  induction 1 as [|x l Hx _ IH]; simpl; [reflexivity | now rewrite Hx, IH].
Qed.

(** ** Induction over the nested trees *)

Lemma StructuralElement_nested_ind (P : StructuralElement -> Prop) :
  (forall para_elements, P (Paragraph para_elements)) ->
  (forall table_rows,
      Forall (Forall (Forall P)) table_rows -> P (Table table_rows)) ->
  P SectionBreak ->
  forall element, P element.
Proof.
  intros HP HT HS. fix IH 1. intros [pes | rows |].
  - apply HP.
  - apply HT.
    induction rows as [|row rows IHrows]; constructor; [|exact IHrows].
    induction row as [|cell row IHrow]; constructor; [|exact IHrow].
    induction cell as [|e cell IHcell]; constructor; [apply IH | exact IHcell].
  - apply HS.
Qed.

Lemma Tab_nested_ind (P : Tab -> Prop) :
  (forall document_tab child_tabs,
      Forall P child_tabs -> P (mkTab document_tab child_tabs)) ->
  forall tab, P tab.
Proof.
  intros H. fix IH 1. intros [dt cs]. apply H.
  induction cs as [|c cs IHcs]; constructor; [apply IH | exact IHcs].
Qed.

(** ** The text walk *)

Lemma extract_unfold elements tab_name depth :
  extract_text_from_elements elements tab_name depth =
  if (5 <? depth)%nat then ""
  else PyStr.join
         (header_lines tab_name ++ flat_map (for_element depth) elements)%list.
Proof. reflexivity. Qed.

(** The recursive call of the source: a table extracts each cell with
    [extract_text_from_elements(cell_content, depth=depth + 1)]. *)
Lemma for_element_table depth table_rows :
  for_element depth (Table table_rows) =
  flat_map
    (fun row_cells =>
       flat_map
         (fun cell_content =>
            append_if_text
              (extract_text_from_elements cell_content None (S depth)))
         row_cells)
    table_rows.
Proof. reflexivity. Qed.

Lemma extract_beyond_cap elements tab_name depth :
  5 < depth -> extract_text_from_elements elements tab_name depth = "".
Proof.
  intros H. rewrite extract_unfold.
  destruct (Nat.ltb_spec 5 depth); [reflexivity | lia].
Qed.

Lemma extract_within_cap elements tab_name depth :
  depth <= 5 ->
  extract_text_from_elements elements tab_name depth =
  PyStr.join
    (header_lines tab_name ++ flat_map (for_element depth) elements)%list.
Proof.
  intros H. rewrite extract_unfold.
  destruct (Nat.ltb_spec 5 depth); [lia | reflexivity].
Qed.

Lemma table_at_cap depth table_rows :
  5 <= depth -> for_element depth (Table table_rows) = [].
Proof.
  intros H. rewrite for_element_table.
  induction table_rows as [|row rows IH]; simpl; [reflexivity|].
  rewrite IH, app_nil_r.
  induction row as [|cell row IHrow]; simpl; [reflexivity|].
  rewrite IHrow, extract_beyond_cap by lia. reflexivity.
Qed.

Lemma header_blank_false tab_name :
  PyStr.blank (TAB_HEADER_FORMAT tab_name) = false.
Proof. reflexivity. Qed.

Lemma header_lines_well_filled tab_name :
  Forall well_filled (header_lines tab_name).
Proof.
  destruct tab_name as [n|]; simpl; [|constructor].
  destruct (PyStr.truthy n); constructor; [|constructor].
  apply well_filled_nonblank, header_blank_false.
Qed.

Lemma for_element_well_filled depth element :
  Forall well_filled (for_element depth element).
Proof.
  destruct element as [pes | rows |].
  - apply append_if_text_well_filled.
  - rewrite for_element_table.
    apply Forall_flat_map; intros row.
    apply Forall_flat_map; intros cell.
    apply append_if_text_well_filled.
  - constructor.
Qed.

(** The walk never returns whitespace alone. *)
Lemma extract_well_filled elements tab_name depth :
  well_filled (extract_text_from_elements elements tab_name depth).
Proof.
  rewrite extract_unfold. destruct (5 <? depth)%nat.
  - apply well_filled_empty.
  - apply well_filled_join, Forall_app. split.
    + apply header_lines_well_filled.
    + apply Forall_flat_map. intros e. apply for_element_well_filled.
Qed.

(** Cutting the tree at the cap does not change what one element gives. *)
Lemma for_element_prune element :
  forall depth, depth <= 5 ->
  for_element depth (prune (5 - depth) element) = for_element depth element.
Proof.
  induction element as [pes | rows IH |] using StructuralElement_nested_ind;
    intros depth Hd; [reflexivity | | reflexivity].
  cbn [prune]. rewrite !for_element_table.
  rewrite flat_map_concat_map, map_map, <- flat_map_concat_map.
  apply flat_map_ext_Forall.
  induction IH as [|row rows' Hrow _ IHrows]; constructor; [|exact IHrows].
  rewrite flat_map_concat_map, map_map, <- flat_map_concat_map.
  apply flat_map_ext_Forall.
  induction Hrow as [|cell row' Hcell _ IHrow]; constructor; [|exact IHrow].
  f_equal.
  destruct (Nat.eq_dec depth 5) as [-> | Hne].
  - cbn [Nat.sub]. now rewrite !extract_beyond_cap by lia.
  - replace (5 - depth) with (S (5 - S depth)) by lia.
    rewrite !extract_within_cap by lia. f_equal. f_equal.
    rewrite flat_map_concat_map, map_map, <- flat_map_concat_map.
    apply flat_map_ext_Forall.
    induction Hcell as [|e cell' He _ IHcell]; constructor; [|exact IHcell].
    apply He. lia.
Qed.

Lemma extract_prune elements tab_name depth :
  extract_text_from_elements (map (prune (5 - depth)) elements) tab_name depth
  = extract_text_from_elements elements tab_name depth.
Proof.
  rewrite !extract_unfold. destruct (Nat.ltb_spec 5 depth); [reflexivity|].
  f_equal. f_equal.
  rewrite flat_map_concat_map, map_map, <- flat_map_concat_map.
  apply flat_map_ext_Forall, Forall_forall. intros e _.
  apply for_element_prune. lia.
Qed.

Lemma table_nesting_prune element :
  forall fuel, table_nesting (prune fuel element) <= S fuel.
Proof.
  induction element as [pes | rows IH |] using StructuralElement_nested_ind;
    intros fuel; cbn [prune table_nesting]; try lia.
  apply le_n_S. apply list_max_le, Forall_map, Forall_map.
  induction IH as [|row rows' Hrow _ IHrows]; constructor; [|exact IHrows].
  apply list_max_le, Forall_map, Forall_map.
  induction Hrow as [|cell row' Hcell _ IHrow]; constructor; [|exact IHrow].
  destruct fuel as [|fuel']; [cbn; lia|].
  apply list_max_le, Forall_map, Forall_map.
  induction Hcell as [|e cell' He _ IHcell]; constructor; [|exact IHcell].
  apply He.
Qed.

(** ** Tabs *)

Lemma process_tab_unfold document_tab child_tabs level :
  process_tab_hierarchy (mkTab document_tab child_tabs) level =
  tab_block (level, mkTab document_tab child_tabs)
  ++ PyStr.join (map (fun c => process_tab_hierarchy c (S level)) child_tabs).
Proof.
  cbn [process_tab_hierarchy]. rewrite fold_left_append, Nat.add_1_r.
  f_equal. destruct document_tab as [dt|]; [|reflexivity].
  destruct level; reflexivity.
Qed.

Lemma tab_block_well_filled entry : well_filled (tab_block entry).
Proof.
  destruct entry as [level [[dt|] cs]]; simpl.
  - apply extract_well_filled.
  - apply well_filled_empty.
Qed.

(** A tab and its descendants are walked depth-first. *)
Lemma process_tab_preorder tab :
  forall level,
    process_tab_hierarchy tab level =
    PyStr.join (map tab_block (tab_preorder level tab)).
Proof.
  induction tab as [dt cs IH] using Tab_nested_ind. intros level.
  rewrite process_tab_unfold. cbn [tab_preorder map].
  rewrite join_cons. f_equal.
  induction IH as [|c cs' Hc _ IHcs]; [reflexivity|].
  cbn [map flat_map]. rewrite map_app, join_app, join_cons.
  now rewrite Hc, IHcs.
Qed.

Lemma process_tab_well_filled tab level :
  well_filled (process_tab_hierarchy tab level).
Proof.
  rewrite process_tab_preorder. apply well_filled_join, Forall_map.
  apply Forall_forall. intros e _. apply tab_block_well_filled.
Qed.

Lemma body_text_blocks doc_data :
  body_text doc_data =
  extract_text_from_elements (body doc_data) None 0
  ++ PyStr.join (map tab_block (flat_map (tab_preorder 0) (tabs doc_data))).
Proof.
  unfold body_text, processed_text_lines.
  rewrite join_app, join_append_if_text by apply extract_well_filled.
  f_equal. induction (tabs doc_data) as [|t ts IH]; [reflexivity|].
  cbn [flat_map]. rewrite map_app, !join_app, IH.
  rewrite join_append_if_text by apply process_tab_well_filled.
  now rewrite process_tab_preorder.
Qed.

Lemma tab_block_header level dt child_tabs :
  PyStr.truthy (tab_label level dt) = true ->
  tab_block (level, mkTab (Some dt) child_tabs) =
  TAB_HEADER_FORMAT (tab_label level dt)
  ++ extract_text_from_elements (tab_body dt) None 0.
Proof.
  intros H. cbn [tab_block]. rewrite !extract_within_cap by lia.
  cbn [header_lines]. rewrite H. cbn [app].
  now rewrite join_cons.
Qed.

Lemma tab_label_nested level dt :
  0 < level -> PyStr.truthy (tab_label level dt) = true.
Proof. destruct level; [lia | reflexivity]. Qed.

Lemma extract_text_paragraph s :
  PyStr.blank s = false ->
  extract_text_from_elements [text_paragraph s] None 0 = s.
Proof.
  intros H. rewrite extract_within_cap by lia.
  cbn [header_lines flat_map for_element text_paragraph app].
  unfold paragraph_text. cbn [fold_left textRun content].
  rewrite app_nil_r, append_if_text_nonblank by exact H.
  now rewrite join_cons, join_nil, append_nil_r.
Qed.

Lemma tab_label_truthy level dt :
  0 < level \/ PyStr.truthy (tab_title dt) = true ->
  PyStr.truthy (tab_label level dt) = true.
Proof.
  intros [H | H].
  - now apply tab_label_nested.
  - destruct level; [exact H | reflexivity].
Qed.

(** ** The depth cap of the walk *)

Lemma for_element_depth_bound element :
  forall depth, depth <= 5 -> for_element_depth depth element <= 6 - depth.
Proof.
  induction element as [pes | rows IH |] using StructuralElement_nested_ind;
    intros depth Hdepth; cbn [for_element_depth]; try lia.
  apply list_max_le, Forall_map.
  induction IH as [|row rows' Hrow _ IHrows]; constructor; [|exact IHrows].
  apply list_max_le, Forall_map.
  induction Hrow as [|cell row' Hcell _ IHrow]; constructor; [|exact IHrow].
  unfold recursion_depth_body.
  destruct (Nat.ltb_spec 5 (S depth)) as [Hd | Hd]; [lia|].
  apply Nat.le_trans with (S (6 - S depth)); [|lia].
  apply le_n_S, list_max_le, Forall_map.
  induction Hcell as [|e cell' He _ IHcell]; constructor; [|exact IHcell].
  apply He. lia.
Qed.

Lemma recursion_depth_bound elements depth :
  recursion_depth elements depth <= S (6 - depth).
Proof.
  unfold recursion_depth, recursion_depth_body. apply le_n_S.
  destruct (Nat.ltb_spec 5 depth); [lia|].
  apply list_max_le, Forall_map, Forall_forall. intros e _.
  apply for_element_depth_bound. lia.
Qed.

Lemma extract_single_cell cell_content depth :
  depth <= 5 ->
  extract_text_from_elements [Table [[cell_content]]] None depth =
  PyStr.join
    (append_if_text (extract_text_from_elements cell_content None (S depth))).
Proof.
  intros H. rewrite extract_within_cap by exact H.
  cbn [header_lines app flat_map]. rewrite for_element_table.
  cbn [flat_map]. now rewrite !app_nil_r.
Qed.

Lemma nested_beyond_cap inner k :
  forall depth,
    5 < depth + k ->
    extract_text_from_elements (nest_tables k inner) None depth = "".
Proof.
  induction k as [|k IH]; intros depth H; cbn [nest_tables].
  - apply extract_beyond_cap. lia.
  - destruct (Nat.le_gt_cases depth 5) as [Hd | Hd].
    + rewrite extract_single_cell by exact Hd.
      rewrite IH by lia. reflexivity.
    + now apply extract_beyond_cap.
Qed.

(** C6. The walk of [get_doc_content] is a total function of the element
    tree and its depth counter, and its recursion is bounded by the
    counter, not by the tree: at most [S (6 - depth)] calls are ever nested,
    seven from depth 0, whatever the tree.  Called beyond depth 5 it returns the empty string;
    text under more than 5 levels of table-in-cell gives the empty string;
    a table met at depth 5 or deeper appends nothing, its cells being cut;
    and at any depth the result is the result on the tree cut below the
    cap: what lies deeper never reaches the output and never fails the
    walk. *)
Theorem extract_text_depth_capped
  (elements : list StructuralElement) (tab_name : option string)
  (depth : nat) :
  recursion_depth elements depth <= S (6 - depth)
  /\ (5 < depth -> extract_text_from_elements elements tab_name depth = "")
  /\ (forall k, 5 < depth + k ->
      extract_text_from_elements (nest_tables k elements) None depth = "")
  /\ (forall table_rows,
         5 <= depth -> for_element depth (Table table_rows) = [])
  /\ extract_text_from_elements elements tab_name depth =
     extract_text_from_elements
       (map (prune (5 - depth)) elements) tab_name depth
  /\ Forall (fun e => table_nesting e <= S (5 - depth))
       (map (prune (5 - depth)) elements).
Proof.
  split; [apply recursion_depth_bound|].
  split; [apply extract_beyond_cap|].
  split; [intros k; apply nested_beyond_cap|].
  split; [intros rows; apply table_at_cap|].
  split; [symmetry; apply extract_prune|].
  apply Forall_map, Forall_forall. intros e _. apply table_nesting_prune.
Qed.

Lemma extract_text_depth_capped_witness :
  extract_text_from_elements
    (nest_tables 2 [text_paragraph "deep"]) (Some "Tab") 6 = ""
  /\ extract_text_from_elements
       (nest_tables 6 [text_paragraph "deep"]) None 0 = ""
  /\ for_element 5 (Table [[[text_paragraph "deep"]]]) = []
  /\ recursion_depth (nest_tables 9 [text_paragraph "deep"]) 0 <= 7.
Proof.
  pose proof (extract_text_depth_capped
                (nest_tables 2 [text_paragraph "deep"]) (Some "Tab") 6) as H6.
  pose proof (extract_text_depth_capped [text_paragraph "deep"] None 0) as H0.
  pose proof (extract_text_depth_capped [] None 5) as H5.
  pose proof (extract_text_depth_capped
                (nest_tables 9 [text_paragraph "deep"]) None 0) as H9.
  split; [|split; [|split]].
  - apply (proj1 (proj2 H6)). lia.
  - apply (proj1 (proj2 (proj2 H0)) 6). lia.
  - apply (proj1 (proj2 (proj2 (proj2 H5)))). lia.
  - exact (proj1 H9).
Defined.

(** Six tables deep nothing is read; five tables deep the text is. *)
Example nest_6_truncated :
  extract_text_from_elements (nest_tables 6 [text_paragraph "deep"]) None 0 = ""
  /\ extract_text_from_elements (nest_tables 5 [text_paragraph "deep"]) None 0
     = "deep".
Proof. split; reflexivity. Qed.

(** ** Blank content *)

Lemma extract_drop_lines pre element post tab_name depth :
  for_element depth element = [] ->
  extract_text_from_elements (pre ++ element :: post)%list tab_name depth =
  extract_text_from_elements (pre ++ post)%list tab_name depth.
Proof.
  intros H. rewrite !extract_unfold. destruct (5 <? depth)%nat; [reflexivity|].
  rewrite !flat_map_app. cbn [flat_map]. now rewrite H.
Qed.

Lemma extract_same_lines pre element element' post tab_name depth :
  for_element depth element = for_element depth element' ->
  extract_text_from_elements (pre ++ element :: post)%list tab_name depth =
  extract_text_from_elements (pre ++ element' :: post)%list tab_name depth.
Proof.
  intros H. rewrite !extract_unfold. destruct (5 <? depth)%nat; [reflexivity|].
  rewrite !flat_map_app. cbn [flat_map]. now rewrite H.
Qed.

(** C10. Blank content is dropped.  A paragraph whose run text is empty or
    whitespace adds nothing to the walk; so does a table cell whose
    extracted text is whitespace; a main body whose text is whitespace
    gives no entry of [processed_text_lines]; and a tab whose text is
    whitespace gives none either, at the top level or as a child. *)
Theorem blank_content_dropped :
  (forall pre para_elements post tab_name depth,
      PyStr.blank (paragraph_text para_elements) = true ->
      extract_text_from_elements
        (pre ++ Paragraph para_elements :: post)%list tab_name depth =
      extract_text_from_elements (pre ++ post)%list tab_name depth)
  /\ (forall pre rows_before cells_before cell_content cells_after rows_after
             post tab_name depth,
         PyStr.blank
           (extract_text_from_elements cell_content None (S depth)) = true ->
         extract_text_from_elements
           (pre ++ Table (rows_before
                          ++ (cells_before ++ cell_content :: cells_after)
                          :: rows_after) :: post)%list tab_name depth =
         extract_text_from_elements
           (pre ++ Table (rows_before
                          ++ (cells_before ++ cells_after)
                          :: rows_after) :: post)%list tab_name depth)
  /\ (forall doc_data,
         PyStr.blank (extract_text_from_elements (body doc_data) None 0) = true ->
         processed_text_lines doc_data =
         flat_map (fun tab => append_if_text (process_tab_hierarchy tab 0))
           (tabs doc_data))
  /\ (forall body_elements tabs_before tab tabs_after,
         PyStr.blank (process_tab_hierarchy tab 0) = true ->
         processed_text_lines
           {| body := body_elements;
              tabs := (tabs_before ++ tab :: tabs_after)%list |} =
         processed_text_lines
           {| body := body_elements; tabs := (tabs_before ++ tabs_after)%list |})
  /\ (forall document_tab tabs_before child_tab tabs_after level,
         PyStr.blank (process_tab_hierarchy child_tab (S level)) = true ->
         process_tab_hierarchy
           (mkTab document_tab (tabs_before ++ child_tab :: tabs_after)%list)
           level =
         process_tab_hierarchy
           (mkTab document_tab (tabs_before ++ tabs_after)%list) level).
Proof.
  repeat split.
  - intros pre pes post tab_name depth H.
    apply extract_drop_lines. cbn [for_element].
    now apply append_if_text_blank.
  - intros pre rb cb cell ca ra post tab_name depth H.
    apply extract_same_lines. rewrite !for_element_table.
    rewrite !flat_map_app. cbn [flat_map]. rewrite !flat_map_app.
    cbn [flat_map]. now rewrite (append_if_text_blank _ H).
  - intros doc H. unfold processed_text_lines.
    now rewrite (append_if_text_blank _ H).
  - intros b tb tab ta H. unfold processed_text_lines. cbn [body tabs].
    rewrite !flat_map_app. cbn [flat_map].
    now rewrite (append_if_text_blank _ H).
  - intros dt tb c ta level H. rewrite !process_tab_unfold.
    rewrite !map_app, !join_app. cbn [map]. rewrite join_cons.
    now rewrite (process_tab_well_filled c (S level) H).
Qed.

Lemma blank_content_dropped_witness :
  extract_text_from_elements
    ([text_paragraph "a"] ++ Paragraph [] :: [text_paragraph "b"])%list
    None 0 =
  extract_text_from_elements
    ([text_paragraph "a"] ++ [text_paragraph "b"])%list None 0
  /\ extract_text_from_elements
       ([] ++ Table ([] ++ ([[text_paragraph "a"]]
                            ++ [text_paragraph "  "] :: []) :: []) :: [])%list
       None 0 =
     extract_text_from_elements
       ([] ++ Table ([] ++ ([[text_paragraph "a"]] ++ []) :: []) :: [])%list
       None 0
  /\ processed_text_lines {| body := [text_paragraph " "]; tabs := [] |} = []
  /\ processed_text_lines
       {| body := [text_paragraph "a"];
          tabs := ([] ++ mkTab None [] :: [])%list |} =
     processed_text_lines
       {| body := [text_paragraph "a"]; tabs := ([] ++ [])%list |}
  /\ process_tab_hierarchy (mkTab None ([] ++ mkTab None [] :: [])%list) 0 =
     process_tab_hierarchy (mkTab None ([] ++ [])%list) 0.
Proof.
  destruct blank_content_dropped as (Hp & Hc & Hb & Ht & Hch).
  split; [apply Hp; reflexivity|].
  split; [apply Hc; reflexivity|].
  split; [apply (Hb {| body := [text_paragraph " "]; tabs := [] |}); reflexivity|].
  split; [apply Ht; reflexivity|].
  apply Hch; reflexivity.
Defined.

(** ** Tab blocks *)

(** C9, as stated, fails: a tab without [documentTab] is skipped by
    [if 'documentTab' in tab] and gives no block of its own, and a
    top-level tab whose title is the empty string passes an empty
    [tab_name], so that [if tab_name] skips the header and the block of the
    tab starts with its text. *)
Lemma tab_header_counterexample :
  let untitled := {| title := Some ""; tab_body := [text_paragraph "x"] |} in
  body_text {| body := []; tabs := [mkTab None []] |} = ""
  /\ body_text {| body := []; tabs := [mkTab (Some untitled) []] |} = "x"
  /\ ~ (forall (tab : Tab) (level : nat),
           exists tab_name rest,
             process_tab_hierarchy tab level =
             TAB_HEADER_FORMAT tab_name ++ rest)
  /\ ~ (forall (dt : DocumentTab) (child_tabs : list Tab) (level : nat),
           exists tab_name rest,
             process_tab_hierarchy (mkTab (Some dt) child_tabs) level =
             TAB_HEADER_FORMAT tab_name ++ rest).
Proof.
  split; [reflexivity|]. split; [reflexivity|]. split.
  - intros H. destruct (H (mkTab None []) 0) as (n & rest & Hrest).
    vm_compute in Hrest. discriminate Hrest.
  - intros H.
    destruct (H {| title := Some ""; tab_body := [text_paragraph "x"] |} [] 0)
      as (n & rest & Hrest).
    vm_compute in Hrest. discriminate Hrest.
Qed.

(** C9, amended.  The text of a native document is the text of the main
    body, then the blocks of the tabs: every top-level tab in order, each
    followed by its descendants depth-first.  A tab with a [documentTab]
    whose label is not empty (any nested tab, and a top-level tab whose
    title is not the empty string) gives its header line, the title behind
    four spaces per level, and then its text; a tab without [documentTab]
    gives nothing of its own.  So one tab with one child, each of one
    paragraph, gives two labelled blocks, the child's title four spaces
    deeper. *)
Theorem tab_blocks_depth_first :
  (forall doc_data,
      body_text doc_data =
      extract_text_from_elements (body doc_data) None 0
      ++ PyStr.join
           (map tab_block (flat_map (tab_preorder 0) (tabs doc_data))))
  /\ (forall level dt child_tabs,
         0 < level \/ PyStr.truthy (tab_title dt) = true ->
         tab_block (level, mkTab (Some dt) child_tabs) =
         TAB_HEADER_FORMAT (PyStr.repeat "    " level ++ tab_title dt)
         ++ extract_text_from_elements (tab_body dt) None 0)
  /\ (forall level child_tabs, tab_block (level, mkTab None child_tabs) = "")
  /\ (forall main parent_title child_title parent_text child_text,
         PyStr.truthy parent_title = true ->
         PyStr.blank parent_text = false ->
         PyStr.blank child_text = false ->
         body_text
           {| body := main;
              tabs :=
                [mkTab
                   (Some {| title := Some parent_title;
                            tab_body := [text_paragraph parent_text] |})
                   [mkTab
                      (Some {| title := Some child_title;
                               tab_body := [text_paragraph child_text] |})
                      []]] |} =
         extract_text_from_elements main None 0
         ++ TAB_HEADER_FORMAT parent_title ++ parent_text
         ++ TAB_HEADER_FORMAT ("    " ++ child_title) ++ child_text).
Proof.
  split; [apply body_text_blocks|].
  split.
  { intros level dt cs H. apply tab_block_header.
    now apply tab_label_truthy. }
  split; [reflexivity|].
  intros main tp tc p c Htp Hp Hc.
  rewrite body_text_blocks. cbn [body tabs flat_map tab_preorder app map].
  rewrite !join_cons, join_nil, append_nil_r.
  rewrite !tab_block_header.
  - cbn [tab_body tab_label tab_title title PyStr.repeat].
    rewrite !extract_text_paragraph by assumption.
    rewrite !append_assoc. reflexivity.
  - reflexivity.
  - exact Htp.
Qed.

Lemma tab_blocks_depth_first_witness :
  tab_block
    (1, mkTab (Some {| title := Some "Notes"; tab_body := [] |}) []) =
  TAB_HEADER_FORMAT (PyStr.repeat "    " 1 ++ "Notes")
  ++ extract_text_from_elements [] None 0
  /\ body_text
       {| body := [text_paragraph "intro"];
          tabs :=
            [mkTab
               (Some {| title := Some "Plan";
                        tab_body := [text_paragraph "one"] |})
               [mkTab
                  (Some {| title := Some "Detail";
                           tab_body := [text_paragraph "two"] |})
                  []]] |} =
     extract_text_from_elements [text_paragraph "intro"] None 0
     ++ TAB_HEADER_FORMAT "Plan" ++ "one"
     ++ TAB_HEADER_FORMAT ("    " ++ "Detail") ++ "two".
Proof.
  destruct tab_blocks_depth_first as (_ & Hheader & _ & Hscenario).
  split.
  - apply (Hheader 1 {| title := Some "Notes"; tab_body := [] |} []).
    left. lia.
  - apply Hscenario; reflexivity.
Defined.

(** ** The edit compiler of [modify_doc_content] *)

Section EditTextFacts.

Import ModifyDocContent.
Local Open Scope Z_scope.

Variable validator : ValidationManager.
Variable document_id : string.

Lemma format_requests_fst (s : Z) (p : EditTextPayload) :
  fst (format_requests s p) =
  if any_formatting p then
    [FormatText (fst (format_range s (end_index p) (text p)))
       (snd (format_range s (end_index p) (text p)))
       (bold p) (italic p) (underline p) (font_size p) (font_family p)]
  else [].
Proof.
  unfold format_requests. destruct (any_formatting p); [|reflexivity].
  destruct (format_range s (end_index p) (text p)) as [fs fe]. reflexivity.
Qed.

(** A batch is submitted exactly when the call is accepted, and it is the
    list [requests] of the two blocks. *)
Lemma edit_text_submitted (p : EditTextPayload) (s : Z)
  (reqs : list EditOperation) :
  start_index p = Some s ->
  submitted (edit_text validator document_id p) = Some reqs ->
  reqs = edit_text_requests s p.
Proof.
  intros Hs. unfold edit_text. rewrite Hs.
  destruct (validate_document_id validator document_id) as [ok msg].
  destruct ok; cbn [negb]; [|discriminate].
  destruct (negb (is_not_None (text p)) && negb (any_formatting p));
    [discriminate|].
  destruct (formatting_validation validator s p); [discriminate|].
  cbn [submitted]. congruence.
Qed.

Lemma edit_text_accepted_submits (p : EditTextPayload) (s : Z) :
  start_index p = Some s ->
  text p <> None \/ any_formatting p = true ->
  edit_text_accepted validator document_id s p = true ->
  submitted (edit_text validator document_id p) = Some (edit_text_requests s p).
Proof.
  intros Hs Hwork Hacc. unfold edit_text_accepted in Hacc.
  apply andb_true_iff in Hacc as [Hdoc Hfmt].
  unfold edit_text. rewrite Hs.
  destruct (validate_document_id validator document_id) as [ok msg].
  cbn [fst] in Hdoc. subst ok. cbn [negb].
  replace (negb (is_not_None (text p)) && negb (any_formatting p)) with false.
  - destruct (formatting_validation validator s p); [discriminate|reflexivity].
  - symmetry. apply andb_false_iff.
    destruct Hwork as [Ht | Hf].
    + left. destruct (text p); [reflexivity | congruence].
    + right. now rewrite Hf.
Qed.

Lemma text_requests_replace_at_0 (e : Z) (t : string) :
  0 < e ->
  fst (text_requests 0 (Some e) (Some t)) =
  [InsertText 1 t; DeleteRange (1 + PyStr.len t) (e + PyStr.len t)].
Proof.
  intros He. unfold text_requests.
  destruct (Z.gtb_spec e 0); [reflexivity | lia].
Qed.

Lemma text_requests_replace (s e : Z) (t : string) :
  s <> 0 -> s < e ->
  fst (text_requests s (Some e) (Some t)) = [DeleteRange s e; InsertText s t].
Proof.
  intros Hs He. unfold text_requests.
  destruct (Z.gtb_spec e s); [|lia].
  destruct (Z.eqb_spec s 0); [lia | reflexivity].
Qed.

Lemma text_requests_insert (s : Z) (end_index : option Z) (t : string) :
  is_replacement s end_index = false ->
  fst (text_requests s end_index (Some t)) =
  [InsertText (if s =? 0 then 1 else s) t].
Proof.
  intros H. unfold text_requests, is_replacement in *.
  destruct end_index as [e|]; [|reflexivity].
  rewrite H. reflexivity.
Qed.

(** The format range of the code is the range of the prose. *)
Lemma format_range_spec (s : Z) (end_index : option Z) (t : string) :
  format_range s end_index (Some t) =
  (fst (corrected_range (new_text_range s end_index t)),
   Some (snd (corrected_range (new_text_range s end_index t)))).
Proof.
  unfold format_range, new_text_range, is_replacement, corrected_range.
  destruct end_index as [e|].
  - rewrite Z.gtb_ltb. destruct (s <? e); cbn [fst snd];
      match goal with |- context [?a <=? ?b] => destruct (a <=? b) end;
      reflexivity.
  - cbn [fst snd].
    match goal with |- context [?a <=? ?b] => destruct (a <=? b) end;
      reflexivity.
Qed.

End EditTextFacts.

Section EditTextClaims.

Import ModifyDocContent.
Local Open Scope Z_scope.

Lemma no_delete_at_0_format (s : Z) (p : EditTextPayload) :
  Forall (fun op => deletes_position_0 op = false) (fst (format_requests s p)).
Proof.
  rewrite format_requests_fst. destruct (any_formatting p); repeat constructor.
Qed.

Lemma format_requests_shape (s : Z) (p : EditTextPayload) :
  (any_formatting p = false -> fst (format_requests s p) = [])
  /\ (any_formatting p = true ->
      exists fs fe,
        fst (format_requests s p) =
        [FormatText fs fe (bold p) (italic p) (underline p)
           (font_size p) (font_family p)]).
Proof.
  rewrite format_requests_fst. split; intros H; rewrite H; [reflexivity|].
  eexists _, _. reflexivity.
Qed.

(** C1, as stated, fails: a replace at index 0 that also asks for bold
    submits three operations, the format request after the two of the
    replacement. *)
Lemma replace_at_0_counterexample :
  submitted (edit_text accept_all "doc" (bold_edit 0 (Some 5) "hi")) =
  Some [InsertText 1 "hi"; DeleteRange 3 7;
        FormatText 1 (Some 2) (Some true) None None None None]
  /\ ~ (forall validator document_id p e t reqs,
           start_index p = Some 0 -> end_index p = Some e -> 0 < e ->
           text p = Some t ->
           submitted (edit_text validator document_id p) = Some reqs ->
           reqs = [InsertText 1 t;
                   DeleteRange (1 + PyStr.len t) (e + PyStr.len t)]).
Proof.
  split; [reflexivity|]. intros H.
  specialize (H accept_all "doc" (bold_edit 0 (Some 5) "hi") 5 "hi" _
                eq_refl eq_refl ltac:(lia) eq_refl eq_refl).
  discriminate H.
Qed.

(** C1, amended.  For an [edit_text] call with text [t] and a range
    starting at 0 with [end_index > 0], the submitted batch is
    [InsertText 1 t; DeleteRange (1 + len t) (end_index + len t)], followed
    by one [FormatText] exactly when formatting is asked for; no delete of
    the batch has position 0 in its range; and an accepted call does submit
    that batch. *)
Theorem replace_at_0_batch
  (validator : ValidationManager) (document_id : string)
  (p : EditTextPayload) (e : Z) (t : string) :
  start_index p = Some 0 -> end_index p = Some e -> 0 < e ->
  text p = Some t ->
  let text_ops :=
    [InsertText 1 t; DeleteRange (1 + PyStr.len t) (e + PyStr.len t)] in
  (forall reqs,
      submitted (edit_text validator document_id p) = Some reqs ->
      reqs = (text_ops ++ fst (format_requests 0 p))%list
      /\ (any_formatting p = false -> reqs = text_ops)
      /\ (any_formatting p = true ->
          exists fs fe,
            reqs = (text_ops
                    ++ [FormatText fs fe (bold p) (italic p) (underline p)
                          (font_size p) (font_family p)])%list)
      /\ Forall (fun op => deletes_position_0 op = false) reqs)
  /\ (edit_text_accepted validator document_id 0 p = true ->
      submitted (edit_text validator document_id p) =
      Some (text_ops ++ fst (format_requests 0 p))%list).
Proof.
  intros Hs He Hpos Ht text_ops.
  assert (Hreq : edit_text_requests 0 p
                 = (text_ops ++ fst (format_requests 0 p))%list).
  { unfold edit_text_requests. rewrite He, Ht.
    now rewrite text_requests_replace_at_0 by exact Hpos. }
  split.
  - intros reqs Hsub.
    apply (edit_text_submitted validator document_id p 0 reqs Hs) in Hsub.
    rewrite Hreq in Hsub. subst reqs.
    destruct (format_requests_shape 0 p) as [Hnone Hsome].
    split; [reflexivity|]. split; [|split].
    + intros Hf. now rewrite (Hnone Hf).
    + intros Hf. destruct (Hsome Hf) as (fs & fe & Hfmt).
      exists fs, fe. now rewrite Hfmt.
    + apply Forall_app. split; [|apply no_delete_at_0_format].
      pose proof (len_nonneg t) as Hlen.
      repeat constructor. cbn [deletes_position_0].
      destruct (Z.leb_spec (1 + PyStr.len t) 0); [lia | reflexivity].
  - intros Hacc. rewrite <- Hreq.
    apply edit_text_accepted_submits; try assumption.
    left. congruence.
Qed.

Lemma replace_at_0_batch_witness :
  submitted (edit_text accept_all "doc" (plain_edit 0 (Some 5) "hi")) =
  Some [InsertText 1 "hi"; DeleteRange 3 7].
Proof.
  exact (proj2
           (replace_at_0_batch accept_all "doc" (plain_edit 0 (Some 5) "hi")
              5 "hi" eq_refl eq_refl eq_refl eq_refl)
           eq_refl).
Defined.

(** C7, as stated, fails: an ordinary replace that also asks for bold
    submits three operations. *)
Lemma ordinary_replace_counterexample :
  submitted (edit_text accept_all "doc" (bold_edit 5 (Some 10) "hi")) =
  Some [DeleteRange 5 10; InsertText 5 "hi";
        FormatText 5 (Some 7) (Some true) None None None None]
  /\ ~ (forall validator document_id p s e t reqs,
           start_index p = Some s -> end_index p = Some e ->
           0 < s -> s < e -> text p = Some t ->
           submitted (edit_text validator document_id p) = Some reqs ->
           reqs = [DeleteRange s e; InsertText s t]).
Proof.
  split; [reflexivity|]. intros H.
  specialize (H accept_all "doc" (bold_edit 5 (Some 10) "hi") 5 10 "hi" _
                eq_refl eq_refl ltac:(lia) ltac:(lia) eq_refl eq_refl).
  discriminate H.
Qed.

(** C7, amended.  For an [edit_text] call with text [t] and a range
    [start_index < end_index] with [start_index > 0], the submitted batch is
    [DeleteRange start_index end_index; InsertText start_index t], the
    delete first and both at the same boundary, followed by one
    [FormatText] exactly when formatting is asked for; an accepted call does
    submit that batch. *)
Theorem ordinary_replace_batch
  (validator : ValidationManager) (document_id : string)
  (p : EditTextPayload) (s e : Z) (t : string) :
  start_index p = Some s -> end_index p = Some e -> 0 < s -> s < e ->
  text p = Some t ->
  let text_ops := [DeleteRange s e; InsertText s t] in
  (forall reqs,
      submitted (edit_text validator document_id p) = Some reqs ->
      reqs = (text_ops ++ fst (format_requests s p))%list
      /\ (any_formatting p = false -> reqs = text_ops)
      /\ (any_formatting p = true ->
          exists fs fe,
            reqs = (text_ops
                    ++ [FormatText fs fe (bold p) (italic p) (underline p)
                          (font_size p) (font_family p)])%list))
  /\ (edit_text_accepted validator document_id s p = true ->
      submitted (edit_text validator document_id p) =
      Some (text_ops ++ fst (format_requests s p))%list).
Proof.
  intros Hs He Hpos Hlt Ht text_ops.
  assert (Hreq : edit_text_requests s p
                 = (text_ops ++ fst (format_requests s p))%list).
  { unfold edit_text_requests. rewrite He, Ht.
    now rewrite text_requests_replace by lia. }
  split.
  - intros reqs Hsub.
    apply (edit_text_submitted validator document_id p s reqs Hs) in Hsub.
    rewrite Hreq in Hsub. subst reqs.
    destruct (format_requests_shape s p) as [Hnone Hsome].
    split; [reflexivity|]. split.
    + intros Hf. now rewrite (Hnone Hf).
    + intros Hf. destruct (Hsome Hf) as (fs & fe & Hfmt).
      exists fs, fe. now rewrite Hfmt.
  - intros Hacc. rewrite <- Hreq.
    apply edit_text_accepted_submits; try assumption.
    left. congruence.
Qed.

Lemma ordinary_replace_batch_witness :
  submitted (edit_text accept_all "doc" (plain_edit 5 (Some 10) "hi")) =
  Some [DeleteRange 5 10; InsertText 5 "hi"].
Proof.
  exact (proj2
           (ordinary_replace_batch accept_all "doc"
              (plain_edit 5 (Some 10) "hi") 5 10 "hi"
              eq_refl eq_refl eq_refl eq_refl eq_refl)
           eq_refl).
Defined.

End EditTextClaims.

Section FormatRangeClaims.

Import ModifyDocContent.
Local Open Scope Z_scope.


(** C4. When an [edit_text] call writes text [t] and asks for formatting,
    the one [FormatText] of the batch comes last and its range is computed
    from the new text, not taken from the caller: [start, start + len t)
    after a replace, [actual, actual + len t) after an insert with
    [actual = 1] for a start of 0; then a start of 0 is moved to 1 and an
    end not beyond the start is set to the start plus one. *)
Theorem format_range_follows_new_text
  (validator : ValidationManager) (document_id : string)
  (p : EditTextPayload) (s : Z) (t : string) :
  start_index p = Some s -> text p = Some t -> any_formatting p = true ->
  let r := corrected_range (new_text_range s (end_index p) t) in
  let batch :=
    (fst (text_requests s (end_index p) (Some t))
     ++ [FormatText (fst r) (Some (snd r))
           (bold p) (italic p) (underline p) (font_size p) (font_family p)])%list in
  (forall reqs,
      submitted (edit_text validator document_id p) = Some reqs ->
      reqs = batch)
  /\ (edit_text_accepted validator document_id s p = true ->
      submitted (edit_text validator document_id p) = Some batch)
  /\ (is_replacement s (end_index p) = true ->
      new_text_range s (end_index p) t = (s, s + PyStr.len t))
  /\ (is_replacement s (end_index p) = false ->
      new_text_range s (end_index p) t =
      ((if s =? 0 then 1 else s), (if s =? 0 then 1 else s) + PyStr.len t))
  /\ fst r = (if fst (new_text_range s (end_index p) t) =? 0 then 1
              else fst (new_text_range s (end_index p) t))
  /\ snd r = (if snd (new_text_range s (end_index p) t) <=? fst r
              then fst r + 1
              else snd (new_text_range s (end_index p) t)).
Proof.
  intros Hs Ht Hf r batch.
  assert (Hreq : edit_text_requests s p = batch).
  { unfold edit_text_requests, batch.
    rewrite format_requests_fst, Hf, Ht, format_range_spec. reflexivity. }
  split; [|split; [|split; [|split; [|split]]]].
  - intros reqs Hsub. rewrite <- Hreq.
    now apply (edit_text_submitted validator document_id).
  - intros Hacc. rewrite <- Hreq.
    apply edit_text_accepted_submits; try assumption. now right.
  - unfold new_text_range, is_replacement.
    destruct (end_index p) as [e|]; [|discriminate].
    rewrite Z.gtb_ltb. now intros ->.
  - unfold new_text_range, is_replacement.
    destruct (end_index p) as [e|]; [|reflexivity].
    rewrite Z.gtb_ltb. now intros ->.
  - reflexivity.
  - reflexivity.
Qed.

Lemma format_range_follows_new_text_witness :
  submitted (edit_text accept_all "doc" (bold_edit 5 (Some 10) "hi")) =
  Some [DeleteRange 5 10; InsertText 5 "hi";
        FormatText 5 (Some 7) (Some true) None None None None]
  /\ submitted (edit_text accept_all "doc" (bold_edit 0 (Some 0) "")) =
     Some [InsertText 1 "";
           FormatText 1 (Some 2) (Some true) None None None None].
Proof.
  split.
  - exact (proj1 (proj2
             (format_range_follows_new_text accept_all "doc"
                (bold_edit 5 (Some 10) "hi") 5 "hi" eq_refl eq_refl eq_refl))
             eq_refl).
  - exact (proj1 (proj2
             (format_range_follows_new_text accept_all "doc"
                (bold_edit 0 (Some 0) "") 0 "" eq_refl eq_refl eq_refl))
             eq_refl).
Defined.


End FormatRangeClaims.

(** ** Runs *)



(** ** [insert_doc_elements]: the requests built *)

Section InsertFacts.

Import InsertDocElements.
Local Open Scope Z_scope.

Variable validator : ValidationManager.
Variable document_id : string.


Lemma bump_index_other (i : Z) : i <> 0 -> bump_index i = i.
Proof. intros H. unfold bump_index. destruct (Z.eqb_spec i 0); [lia | reflexivity]. Qed.


Lemma text_elements_list (i : Z) (a : Args) (lt : string) :
  element_type a = Some "list" -> list_type a = Some lt ->
  PyStr.truthy lt = true ->
  text_elements_requests i a =
  inr ([InsertText i (str_or (text a) "List item" ++ newline);
        CreateBullets i (i + PyStr.len (str_or (text a) "List item") + 1) lt],
       PyStr.lower lt ++ " list").
Proof.
  intros Het Hlt Htruthy. unfold text_elements_requests.
  rewrite Het, Hlt, Htruthy. reflexivity.
Qed.








End InsertFacts.

(** ** List insertion *)

Section ListClaims.

Import InsertDocElements.
Local Open Scope Z_scope.

(** C3, as stated, fails at index 0, which is bumped to 1, and for an
    empty text, which is replaced by ['List item']: the range then has the
    length of the default text plus one. *)
Lemma list_insertion_counterexample :
  submitted (insert_doc_elements accept_all "doc" (list_args 0 (Some "Item")))
  = Some [InsertText 1 ("Item" ++ newline); CreateBullets 1 6 "UNORDERED"]
  /\ submitted (insert_doc_elements accept_all "doc" (list_args 20 (Some "")))
     = Some [InsertText 20 ("List item" ++ newline);
             CreateBullets 20 30 "UNORDERED"]
  /\ ~ (forall validator document_id a lt t,
           operation a = "text_elements" -> element_type a = Some "list" ->
           list_type a = Some lt -> PyStr.truthy lt = true ->
           text a = Some t ->
           submitted (insert_doc_elements validator document_id a) =
           Some [InsertText (index a) (t ++ newline);
                 CreateBullets (index a) (index a + PyStr.len t + 1) lt]).
Proof.
  split; [reflexivity|]. split; [reflexivity|]. intros H.
  specialize (H accept_all "doc" (list_args 0 (Some "Item")) "UNORDERED" "Item"
                eq_refl eq_refl eq_refl eq_refl eq_refl).
  discriminate H.
Qed.

(** C3, amended.  A list insertion submits
    [InsertText i (t ++ newline); CreateBullets i (i + len t + 1) list_type]
    where [i] is the index asked for, or 1 when 0 was asked for, and [t] is
    the text given, or ['List item'] when none or the empty text was given.
    The bullet range starts where the text is inserted and its length is
    the length of the inserted text, [len t + 1]: it covers the newline. *)
Theorem list_insertion_batch
  (validator : ValidationManager) (document_id : string)
  (a : Args) (lt : string) :
  operation a = "text_elements" -> element_type a = Some "list" ->
  list_type a = Some lt -> PyStr.truthy lt = true ->
  let i := bump_index (index a) in
  let t := str_or (text a) "List item" in
  submitted (insert_doc_elements validator document_id a) =
    Some [InsertText i (t ++ newline); CreateBullets i (i + PyStr.len t + 1) lt]
  /\ (i + PyStr.len t + 1) - i = PyStr.len (t ++ newline)
  /\ PyStr.len (t ++ newline) = PyStr.len t + 1
  /\ (index a = 0 -> i = 1)
  /\ (index a <> 0 -> i = index a)
  /\ (forall s, text a = Some s -> PyStr.truthy s = true -> t = s)
  /\ (text a = None \/ text a = Some "" -> t = "List item").
Proof.
  intros Hop Het Hlt Htruthy i t.
  assert (Hlen : PyStr.len (t ++ newline) = PyStr.len t + 1).
  { rewrite len_append. reflexivity. }
  split; [|split; [|split; [|split; [|split; [|split]]]]].
  - unfold insert_doc_elements. rewrite Hop. cbn [String.eqb Ascii.eqb Bool.eqb].
    fold i. rewrite (text_elements_list i a lt Het Hlt Htruthy). reflexivity.
  - rewrite Hlen. lia.
  - exact Hlen.
  - intros H. unfold i. now rewrite H.
  - intros H. now apply bump_index_other.
  - intros s Hs Hts. unfold t, str_or. now rewrite Hs, Hts.
  - intros [H | H]; unfold t, str_or; now rewrite H.
Qed.

Lemma list_insertion_batch_witness :
  submitted (insert_doc_elements accept_all "doc" (list_args 20 (Some "Buy milk")))
  = Some [InsertText 20 ("Buy milk" ++ newline); CreateBullets 20 29 "UNORDERED"].
Proof.
  exact (proj1
           (list_insertion_batch accept_all "doc"
              (list_args 20 (Some "Buy milk")) "UNORDERED"
              eq_refl eq_refl eq_refl eq_refl)).
Defined.

End ListClaims.

(** ** The boundary retry of the table operation *)

Section TableRetry.

Import InsertDocElements.
Local Open Scope Z_scope.

Lemma table_operation_accepted (validator : ValidationManager)
  (document_id : string) (i : Z) (a : Args) (td : list (list string)) :
  table_data a = Some td -> td <> [] ->
  table_call_accepted validator document_id i td = true ->
  table_operation validator document_id i a =
  create_table_with_retry document_id td i (bold_headers a).
Proof.
  intros Htd Hne Hacc. unfold table_call_accepted in Hacc.
  apply andb_true_iff in Hacc as [Hacc Hidx].
  apply andb_true_iff in Hacc as [Hdoc Hdata].
  unfold table_operation. rewrite Htd.
  destruct td as [|row td]; [congruence|].
  destruct (validate_document_id validator document_id) as [ok1 m1].
  destruct (validate_table_data validator (row :: td)) as [ok2 m2].
  destruct (validate_index validator i "Index") as [ok3 m3].
  cbn [fst] in *. subst. reflexivity.
Qed.

Lemma insert_doc_elements_table (validator : ValidationManager)
  (document_id : string) (a : Args) :
  operation a = "table" ->
  insert_doc_elements validator document_id a =
  table_operation validator document_id (bump_index (index a)) a.
Proof. intros H. unfold insert_doc_elements. rewrite H. reflexivity. Qed.

(** One attempt, and one retry below it after a boundary failure. *)
Lemma run_retry {W : Type} (sv : Services W) (w w1 w2 : W)
  (document_id : string) (td : list (list string)) (i : Z) (bh : bool)
  (r1 : ManagerResult) (reply2 : Exn + ManagerResult) :
  sv_create_and_populate_table sv w document_id td i bh = (inr r1, w1) ->
  success r1 = false ->
  PyStr.contains BOUNDARY_PATTERN (message r1) = true ->
  sv_create_and_populate_table sv w1 document_id td (i - 1) bh = (reply2, w2) ->
  run sv w (create_table_with_retry document_id td i bh) =
  ([EvCreateAndPopulateTable document_id td i bh;
    EvCreateAndPopulateTable document_id td (i - 1) bh],
   match reply2 with
   | inl e => handle_exception e
   | inr r2 => table_result document_id i r2
   end,
   w2).
Proof.
  intros H1 Hfail Hpat H2. unfold create_table_with_retry.
  cbn [run]. rewrite H1, Hfail, Hpat. cbn [negb andb run]. rewrite H2.
  destruct reply2; reflexivity.
Qed.

(** No retry after a success or after any other failure. *)
Lemma run_no_retry {W : Type} (sv : Services W) (w w1 : W)
  (document_id : string) (td : list (list string)) (i : Z) (bh : bool)
  (r1 : ManagerResult) :
  sv_create_and_populate_table sv w document_id td i bh = (inr r1, w1) ->
  success r1 = true \/ PyStr.contains BOUNDARY_PATTERN (message r1) = false ->
  run sv w (create_table_with_retry document_id td i bh) =
  ([EvCreateAndPopulateTable document_id td i bh],
   table_result document_id i r1, w1).
Proof.
  intros H1 Hno. unfold create_table_with_retry. cbn [run]. rewrite H1.
  replace (negb (success r1) && PyStr.contains BOUNDARY_PATTERN (message r1))
    with false; [reflexivity|].
  destruct Hno as [-> | ->]; [reflexivity | now rewrite andb_false_r].
Qed.

(** C2, as stated, fails: when the retry is refused as well, the error
    returned carries the message of the retry; the boundary message of the
    first attempt is overwritten. *)
Lemma table_retry_message_counterexample :
  let call := insert_doc_elements accept_all "doc" (table_args 50) in
  PyStr.contains BOUNDARY_PATTERN (message refused_at_end) = true
  /\ events end_at_50 tt call =
     [EvCreateAndPopulateTable "doc" [["H1"]] 50 true;
      EvCreateAndPopulateTable "doc" [["H1"]] 49 true]
  /\ result end_at_50 tt call = Returned ("ERROR: " ++ message refused_inside)
  /\ result end_at_50 tt call <> Returned ("ERROR: " ++ message refused_at_end)
  /\ ~ (forall validator document_id a td (W : Type) (sv : Services W)
               (w w1 w2 : W) r1 r2,
           operation a = "table" -> table_data a = Some td -> td <> [] ->
           table_call_accepted validator document_id
             (bump_index (index a)) td = true ->
           sv_create_and_populate_table sv w document_id td
             (bump_index (index a)) (bold_headers a) = (inr r1, w1) ->
           success r1 = false ->
           PyStr.contains BOUNDARY_PATTERN (message r1) = true ->
           sv_create_and_populate_table sv w1 document_id td
             (bump_index (index a) - 1) (bold_headers a) = (inr r2, w2) ->
           success r2 = false ->
           result sv w (insert_doc_elements validator document_id a) =
           Returned ("ERROR: " ++ message r1)).
Proof.
  cbv zeta.
  split; [reflexivity|]. split; [reflexivity|]. split; [reflexivity|].
  split; [discriminate|].
  intros H.
  specialize (H accept_all "doc" (table_args 50) [["H1"]] unit end_at_50
                tt tt tt refused_at_end refused_inside
                eq_refl eq_refl ltac:(discriminate) eq_refl eq_refl
                eq_refl eq_refl eq_refl eq_refl).
  discriminate H.
Qed.

(** C2, amended.  When the first create-and-populate attempt of a table
    call, at index [i], fails with a message matching the boundary pattern,
    exactly one retry is made, at [i - 1], and nothing is attempted after
    it, whatever the retry answers.  If the retry fails too, the call
    returns ["ERROR: "] followed by the message of the retry. *)
Theorem table_boundary_retry
  (validator : ValidationManager) (document_id : string) (a : Args)
  (td : list (list string)) (W : Type) (sv : Services W) (w w1 w2 : W)
  (r1 : ManagerResult) (reply2 : Exn + ManagerResult) :
  operation a = "table" -> table_data a = Some td -> td <> [] ->
  let i := bump_index (index a) in
  table_call_accepted validator document_id i td = true ->
  sv_create_and_populate_table sv w document_id td i (bold_headers a)
    = (inr r1, w1) ->
  success r1 = false ->
  PyStr.contains BOUNDARY_PATTERN (message r1) = true ->
  sv_create_and_populate_table sv w1 document_id td (i - 1) (bold_headers a)
    = (reply2, w2) ->
  let call := insert_doc_elements validator document_id a in
  events sv w call =
    [EvCreateAndPopulateTable document_id td i (bold_headers a);
     EvCreateAndPopulateTable document_id td (i - 1) (bold_headers a)]
  /\ table_attempts_of (events sv w call) = [i; i - 1]
  /\ result sv w call =
     match reply2 with
     | inl e => handle_exception e
     | inr r2 => table_result document_id i r2
     end
  /\ (forall r2, reply2 = inr r2 -> success r2 = false ->
      result sv w call = Returned ("ERROR: " ++ message r2)).
Proof.
  intros Hop Htd Hne i Hacc H1 Hfail Hpat H2 call.
  assert (Hrun : run sv w call =
                 ([EvCreateAndPopulateTable document_id td i (bold_headers a);
                   EvCreateAndPopulateTable document_id td (i - 1)
                     (bold_headers a)],
                  match reply2 with
                  | inl e => handle_exception e
                  | inr r2 => table_result document_id i r2
                  end, w2)).
  { unfold call. rewrite insert_doc_elements_table by exact Hop. fold i.
    rewrite (table_operation_accepted validator document_id i a td Htd Hne Hacc).
    exact (run_retry sv w w1 w2 document_id td i (bold_headers a) r1 reply2
             H1 Hfail Hpat H2). }
  unfold events, result. rewrite Hrun. cbn [fst snd].
  split; [reflexivity|]. split; [reflexivity|]. split; [reflexivity|].
  intros r2 -> Hfail2. unfold table_result. now rewrite Hfail2.
Qed.

Lemma table_boundary_retry_witness :
  events end_at_50 tt (insert_doc_elements accept_all "doc" (table_args 50)) =
  [EvCreateAndPopulateTable "doc" [["H1"]] 50 true;
   EvCreateAndPopulateTable "doc" [["H1"]] 49 true].
Proof.
  exact (proj1
           (table_boundary_retry accept_all "doc" (table_args 50) [["H1"]]
              unit end_at_50 tt tt tt refused_at_end (inr refused_inside)
              eq_refl eq_refl ltac:(discriminate) eq_refl eq_refl eq_refl
              eq_refl eq_refl)).
Defined.

End TableRetry.

(** ** Insertion at position 0 *)

Section InsertAtZero.

Import InsertDocElements.
Local Open Scope Z_scope.

Lemma run_submit_and_confirm {W : Type} (sv : Services W) (w : W)
  (document_id : string) (reqs : list EditOperation) (what : string) (i : Z) :
  events sv w (submit_and_confirm document_id reqs what i) =
  [EvBatchUpdate document_id reqs].
Proof.
  unfold events, submit_and_confirm. cbn [run].
  destruct (sv_batch_update sv w document_id reqs) as [[e | u] w1];
    reflexivity.
Qed.






(** The list insertion asked for at 0 is submitted at 1. *)
Example list_at_0_batch :
  batches_of
    (events end_at_50 tt
       (insert_doc_elements accept_all "doc" (list_args 0 (Some "Item")))) =
  [[InsertText 1 ("Item" ++ newline); CreateBullets 1 6 "UNORDERED"]].
Proof. reflexivity. Qed.

End InsertAtZero.

(** ** The workaround and the direct replace on a document *)

Section ReplaceEquivalence.

Import DocService.
Import EditTextUnicode.
Local Open Scope Z_scope.

Lemma len_of_string (t : string) :
  Unicode.len (Unicode.of_string t) = PyStr.len t.
Proof.
  unfold Unicode.len, Unicode.of_string, PyStr.len. rewrite length_map.
  f_equal. induction t as [|c t IH]; simpl; [reflexivity | now rewrite IH].
Qed.

Lemma in_bmp_of_string (t : string) :
  Unicode.in_bmp (Unicode.of_string t) = true.
Proof.
  unfold Unicode.in_bmp, Unicode.of_string.
  induction t as [|c t IH]; [reflexivity|].
  cbn [list_ascii_of_string map forallb]. rewrite IH, andb_true_r.
  apply Z.ltb_lt. pose proof (nat_ascii_bounded c). lia.
Qed.

(** A text takes at least [len] code units, and exactly [len] when it
    lies in the Basic Multilingual Plane. *)
Lemma utf16_length (t : Unicode.Text) :
  Unicode.len t <= doc_length (Unicode.utf16 t)
  /\ (Unicode.in_bmp t = true -> doc_length (Unicode.utf16 t) = Unicode.len t)
  /\ (Unicode.in_bmp t = false -> Unicode.len t < doc_length (Unicode.utf16 t)).
Proof.
  unfold Unicode.len, doc_length, Unicode.utf16, Unicode.in_bmp.
  induction t as [|c t (IH1 & IH2 & IH3)]; cbn [flat_map forallb List.length].
  - split; [lia|]. split; [reflexivity | discriminate].
  - rewrite length_app. unfold Unicode.utf16_of at 1 3 5.
    destruct (c <? 65536); cbn [List.length andb].
    + split; [lia|]. split; intros H; [apply IH2 in H | apply IH3 in H]; lia.
    + split; [lia|]. split; [discriminate | intros _; lia].
Qed.


Lemma doc_length_delete_range (s e : Z) (d : Doc) :
  0 <= s <= e -> e <= doc_length d ->
  doc_length (delete_range s e d) = doc_length d - (e - s).
Proof.
  unfold doc_length, delete_range. intros H1 H2.
  rewrite length_app, length_firstn, length_skipn. lia.
Qed.

Lemma firstn_length_app {A : Type} (p q : list A) :
  firstn (List.length p) (p ++ q) = p.
Proof. induction p as [|x p IH]; simpl; [now destruct q | now rewrite IH]. Qed.

Lemma skipn_length_app {A : Type} (p q : list A) (k : nat) :
  skipn (List.length p + k) (p ++ q) = skipn k q.
Proof. induction p as [|x p IH]; simpl; [reflexivity | exact IH]. Qed.

Lemma length_firstn_le {A : Type} (n : nat) (l : list A) :
  (n <= List.length l)%nat -> List.length (firstn n l) = n.
Proof. intros H. rewrite length_firstn. lia. Qed.


(** Inserting at the start of the deleted range gives the same document. *)
Lemma insert_after_delete (s e : Z) (t d : Doc) :
  0 <= s -> s <= e -> s <= doc_length d ->
  insert_at s t (delete_range s e d) =
  (firstn (Z.to_nat s) d ++ t ++ skipn (Z.to_nat e) d)%list.
Proof.
  unfold doc_length, delete_range, insert_at. intros Hs Hse Hsd.
  assert (Hn : List.length (firstn (Z.to_nat s) d) = Z.to_nat s)
    by (apply length_firstn_le; lia).
  set (p := firstn (Z.to_nat s) d) in *.
  set (q := skipn (Z.to_nat e) d).
  rewrite <- Hn.
  rewrite firstn_length_app.
  replace (List.length p) with (List.length p + 0)%nat by lia.
  now rewrite skipn_length_app.
Qed.

(** The compiler on a [string] sends what the compiler on its code points
    builds. *)
Lemma text_requests_on_the_wire (s : Z) (end_index : option Z)
  (text : option string) :
  map request_of (fst (ModifyDocContent.text_requests s end_index text)) =
  map Some (text_requests s end_index (option_map Unicode.of_string text)).
Proof.
  destruct text as [t|]; [|reflexivity].
  unfold ModifyDocContent.text_requests, text_requests. cbn [option_map].
  rewrite len_of_string.
  destruct end_index as [e|]; [|reflexivity].
  destruct (e >? s); [|reflexivity].
  destruct (s =? 0); reflexivity.
Qed.

Lemma format_range_on_the_wire (s : Z) (end_index : option Z)
  (text : option string) :
  ModifyDocContent.format_range s end_index text =
  format_range s end_index (option_map Unicode.of_string text).
Proof.
  destruct text as [t|]; [|reflexivity].
  unfold ModifyDocContent.format_range, format_range. cbn [option_map].
  now rewrite len_of_string.
Qed.

Lemma edit_text_requests_on_the_wire (s : Z)
  (p : ModifyDocContent.EditTextPayload) :
  map request_of (ModifyDocContent.edit_text_requests s p) =
  map Some
    (edit_text_requests s (ModifyDocContent.end_index p)
       (option_map Unicode.of_string (ModifyDocContent.text p))
       (ModifyDocContent.any_formatting p)).
Proof.
  unfold ModifyDocContent.edit_text_requests, edit_text_requests.
  rewrite !map_app, text_requests_on_the_wire. f_equal.
  rewrite format_requests_fst, <- format_range_on_the_wire.
  destruct (ModifyDocContent.any_formatting p); [|reflexivity].
  destruct (ModifyDocContent.format_range s (ModifyDocContent.end_index p)
              (ModifyDocContent.text p)) as [fs fe].
  reflexivity.
Qed.

Lemma text_requests_index0_is_shifted (e : Z) (t : Unicode.Text) :
  0 < e ->
  text_requests 0 (Some e) (Some t) = shifted_replace 1 e t.
Proof.
  intros H. unfold text_requests, shifted_replace.
  destruct (Z.gtb_spec e 0); [reflexivity | lia].
Qed.

Lemma text_requests_direct (s e : Z) (t : Unicode.Text) :
  s <> 0 -> s < e ->
  text_requests s (Some e) (Some t) =
  [deleteContentRange s e; insertText s t].
Proof.
  intros Hs He. unfold text_requests.
  destruct (Z.gtb_spec e s); [|lia].
  destruct (Z.eqb_spec s 0); [lia | reflexivity].
Qed.

Lemma text_requests_insertion (s : Z) (end_index : option Z)
  (t : Unicode.Text) :
  ModifyDocContent.is_replacement s end_index = false ->
  text_requests s end_index (Some t) =
  [insertText (if s =? 0 then 1 else s) t].
Proof.
  intros H. unfold text_requests, ModifyDocContent.is_replacement in *.
  destruct end_index as [e|]; [|reflexivity].
  rewrite H. reflexivity.
Qed.


(** What the direct batch does to a document: the insertion comes at the
    end index when the range ends the document, and is refused. *)
Lemma apply_direct_replace (d : Doc) (s e : Z) (t : Unicode.Text) :
  0 < s -> s < e ->
  apply_batch [deleteContentRange s e; insertText s t] d =
  if e <? doc_length d then Some (replaced s e t d) else None.
Proof.
  intros Hs Hse. cbn [apply_batch apply_op].
  replace (1 <=? s) with true by (symmetry; apply Z.leb_le; lia).
  replace (s <? e) with true by (symmetry; apply Z.ltb_lt; lia).
  cbn [andb].
  destruct (Z.leb_spec e (doc_length d)) as [Hed | Hed].
  - rewrite doc_length_delete_range by lia.
    destruct (Z.ltb_spec e (doc_length d)) as [Hlt | Hge].
    + replace (s <? doc_length d - (e - s)) with true
        by (symmetry; apply Z.ltb_lt; lia).
      rewrite insert_after_delete by lia. reflexivity.
    + replace (s <? doc_length d - (e - s)) with false
        by (symmetry; apply Z.ltb_ge; lia).
      reflexivity.
  - destruct (Z.ltb_spec e (doc_length d)); [lia | reflexivity].
Qed.




End ReplaceEquivalence.

(** * Further properties of the code *)

(** ** The text walk, element by element *)

(** X1. The walk is compositional: the text of a list of elements is the
    text of its first part followed by the text of the rest, in order; the
    tab header, if any, comes once, in front.  The empty list gives the
    header alone, and an element that is neither a paragraph nor a table
    adds nothing. *)
Theorem extract_text_app
  (before after : list StructuralElement) (tab_name : option string)
  (depth : nat) :
  extract_text_from_elements (before ++ after)%list tab_name depth =
  extract_text_from_elements before tab_name depth
  ++ extract_text_from_elements after None depth
  /\ extract_text_from_elements [] None depth = ""
  /\ extract_text_from_elements (before ++ SectionBreak :: after)%list
       tab_name depth =
     extract_text_from_elements (before ++ after)%list tab_name depth.
Proof.
  split; [|split].
  - rewrite !extract_unfold. destruct (5 <? depth)%nat; [reflexivity|].
    rewrite flat_map_app, app_assoc, join_app. reflexivity.
  - rewrite extract_unfold. now destruct (5 <? depth)%nat.
  - now apply extract_drop_lines.
Qed.

Lemma paragraph_text_from (para_elements : list ParagraphElement)
  (init : string) :
  fold_left
    (fun current_line_text pe =>
       match textRun pe with
       | Some text_run =>
           match content text_run with
           | Some c => current_line_text ++ c
           | None => current_line_text
           end
       | None => current_line_text
       end)
    para_elements init =
  init ++ PyStr.join (map run_content para_elements).
Proof.
  revert init.
  induction para_elements as [|pe pes IH]; intros init; cbn [fold_left map].
  - now rewrite join_nil, append_nil_r.
  - rewrite IH, join_cons, <- append_assoc. f_equal.
    unfold run_content. destruct (textRun pe) as [tr|];
      [destruct (content tr)|]; now rewrite ?append_nil_r.
Qed.

(** X2. The text of a paragraph is the contents of its text runs, joined
    in order; an element without a text run, or a run without content, adds
    nothing.  A paragraph that is not blank is emitted verbatim: the strip
    is a test only, leading and trailing whitespace stay. *)
Theorem paragraph_text_is_joined_runs
  (para_elements more : list ParagraphElement) (depth : nat) :
  paragraph_text para_elements = PyStr.join (map run_content para_elements)
  /\ paragraph_text (para_elements ++ more)%list =
     paragraph_text para_elements ++ paragraph_text more
  /\ (depth <= 5 -> PyStr.blank (paragraph_text para_elements) = false ->
      extract_text_from_elements [Paragraph para_elements] None depth =
      paragraph_text para_elements).
Proof.
  assert (H : forall pes,
             paragraph_text pes = PyStr.join (map run_content pes)).
  { intros pes. unfold paragraph_text. now rewrite paragraph_text_from. }
  split; [apply H|]. split.
  - now rewrite !H, map_app, join_app.
  - intros Hd Hb. rewrite extract_within_cap by exact Hd.
    cbn [header_lines app flat_map for_element].
    rewrite app_nil_r, append_if_text_nonblank by exact Hb.
    now rewrite join_cons, join_nil, append_nil_r.
Qed.

Lemma paragraph_text_is_joined_runs_witness :
  extract_text_from_elements
    [Paragraph [{| textRun := Some {| content := Some "  a " |} |};
                {| textRun := None |};
                {| textRun := Some {| content := None |} |};
                {| textRun := Some {| content := Some "b" |} |}]] None 0 =
  "  a b".
Proof.
  exact (proj2 (proj2
           (paragraph_text_is_joined_runs
              [{| textRun := Some {| content := Some "  a " |} |};
               {| textRun := None |};
               {| textRun := Some {| content := None |} |};
               {| textRun := Some {| content := Some "b" |} |}] [] 0))
           (le_S _ _ (le_S _ _ (le_S _ _ (le_S _ _ (le_S _ _ (le_n 0))))))
           eq_refl).
Defined.

Lemma join_cells (f : list StructuralElement -> string)
  (cells : list (list StructuralElement)) :
  (forall c, well_filled (f c)) ->
  PyStr.join (flat_map (fun c => append_if_text (f c)) cells) =
  PyStr.join (map f cells).
Proof.
  intros Hf. induction cells as [|c cells IH]; [reflexivity|].
  cbn [flat_map map]. rewrite join_app, join_cons, IH.
  now rewrite join_append_if_text by apply Hf.
Qed.

(** X3. Within the cap, the text of a table is the text of its cells in
    reading order, row after row, each cell walked one level deeper;
    nothing separates the cells. *)
Theorem table_text_row_major
  (table_rows : list (list (list StructuralElement))) (depth : nat) :
  depth <= 5 ->
  extract_text_from_elements [Table table_rows] None depth =
  PyStr.join
    (map (fun cell_content =>
            extract_text_from_elements cell_content None (S depth))
       (cells_in_order table_rows)).
Proof.
  intros Hd. rewrite extract_within_cap by exact Hd.
  cbn [header_lines app flat_map]. rewrite app_nil_r, for_element_table.
  unfold cells_in_order.
  induction table_rows as [|row rows IH]; [reflexivity|].
  cbn [flat_map List.concat]. rewrite map_app, !join_app, IH. f_equal.
  apply join_cells. intros c. apply extract_well_filled.
Qed.

Lemma table_text_row_major_witness :
  extract_text_from_elements
    [Table [[[text_paragraph "a"]; [text_paragraph "b"]];
            [[text_paragraph "c"]; []]]] None 0 =
  PyStr.join
    (map (fun cell_content => extract_text_from_elements cell_content None 1)
       (cells_in_order
          [[[text_paragraph "a"]; [text_paragraph "b"]];
           [[text_paragraph "c"]; []]])).
Proof.
  apply table_text_row_major.
  exact (le_S _ _ (le_S _ _ (le_S _ _ (le_S _ _ (le_S _ _ (le_n 0)))))).
Defined.

Lemma processed_text_lines_well_filled doc_data :
  Forall well_filled (processed_text_lines doc_data).
Proof.
  unfold processed_text_lines. apply Forall_app. split.
  - apply append_if_text_well_filled.
  - apply Forall_flat_map. intros t. apply append_if_text_well_filled.
Qed.

(** X4. The walk never gives whitespace alone: the text of a list of
    elements, the text of a tab hierarchy and the body text of a document
    are each either empty or hold a code point that is not whitespace. *)
Theorem walk_never_blank
  (elements : list StructuralElement) (tab_name : option string)
  (depth level : nat) (tab : Tab) (doc_data : Document) :
  (extract_text_from_elements elements tab_name depth = ""
   \/ PyStr.blank (extract_text_from_elements elements tab_name depth) = false)
  /\ (process_tab_hierarchy tab level = ""
      \/ PyStr.blank (process_tab_hierarchy tab level) = false)
  /\ (body_text doc_data = "" \/ PyStr.blank (body_text doc_data) = false).
Proof.
  assert (H : forall s, well_filled s -> s = "" \/ PyStr.blank s = false).
  { intros s Hs. destruct (PyStr.blank s) eqn:E; [left; now apply Hs | now right]. }
  split; [apply H, extract_well_filled|].
  split; [apply H, process_tab_well_filled|].
  apply H, well_filled_join, processed_text_lines_well_filled.
Qed.

(** ** [edit_text]: validation, calls and batches *)

Section EditTextFurther.

Import ModifyDocContent.
Local Open Scope Z_scope.

Lemma run_batch_update {W : Type} (sv : Services W) (w : W)
  (document_id : string) (reqs : list EditOperation)
  (k : Exn + unit -> Prog) :
  (forall reply, exists r, k reply = Done r) ->
  events sv w (BatchUpdate document_id reqs k) =
    [EvBatchUpdate document_id reqs]
  /\ forall r,
       k (fst (sv_batch_update sv w document_id reqs)) = Done r ->
       result sv w (BatchUpdate document_id reqs k) = r.
Proof.
  intros Hk. unfold events, result. cbn [run].
  destruct (sv_batch_update sv w document_id reqs) as [reply w1].
  cbn [fst]. destruct (Hk reply) as [r Hr]. rewrite Hr. cbn.
  split; [reflexivity|]. intros r' [= <-]. reflexivity.
Qed.

(** X5. [edit_text] calls the service at most once, and only after its
    validation.  Without [start_index] it raises; when the document id or
    a formatting check is refused, or when there is neither text nor
    formatting, it returns an ["Error: "] string and nothing is sent;
    otherwise exactly one [batchUpdate] is sent, and the call returns its
    summary when the service accepts and raises what the service raised,
    prefixed, when it does not. *)
Theorem edit_text_service_calls
  (validator : ValidationManager) (document_id : string)
  (p : EditTextPayload) (W : Type) (sv : Services W) (w : W) :
  let call := edit_text validator document_id p in
  match start_index p with
  | None =>
      events sv w call = []
      /\ result sv w call =
         Raised "Unexpected error: 'start_index' is required for edit_text operation"
  | Some s =>
      if edit_text_ready validator document_id s p then
        events sv w call =
          [EvBatchUpdate document_id (edit_text_requests s p)]
        /\ match fst (sv_batch_update sv w document_id
                        (edit_text_requests s p)) with
           | inl (HttpError e) => result sv w call = Raised ("API error: " ++ e)
           | inl (OtherException e) =>
               result sv w call = Raised ("Unexpected error: " ++ e)
           | inr _ => exists summary, result sv w call = Returned summary
           end
      else
        events sv w call = []
        /\ exists error, result sv w call = Returned ("Error: " ++ error)
  end.
Proof.
  intros call. unfold call, edit_text, edit_text_ready, edit_text_accepted.
  destruct (start_index p) as [s|]; [|split; reflexivity].
  destruct (validate_document_id validator document_id) as [ok msg].
  destruct ok; cbn [fst negb andb].
  2:{ split; [reflexivity|]. now exists msg. }
  destruct (is_not_None (text p) || any_formatting p) eqn:Hwork.
  - apply orb_true_iff in Hwork.
    replace (negb (is_not_None (text p)) && negb (any_formatting p))
      with false
      by (destruct Hwork as [-> | ->]; [reflexivity | now rewrite andb_false_r]).
    destruct (formatting_validation validator s p) as [err|] eqn:Hfv;
      cbn [andb].
    + split; [reflexivity|].
      unfold formatting_validation in Hfv.
      destruct (any_formatting p); [|discriminate].
      destruct (validate_text_formatting_params validator _ _ _ _ _)
        as [[] m1]; cbn [negb] in Hfv.
      * destruct (end_index p) as [e|].
        -- destruct (validate_index_range validator s e) as [[] m2];
             cbn [negb] in Hfv; [discriminate|].
           injection Hfv as <-. now exists m2.
        -- injection Hfv as <-.
           now exists "'end_index' is required when applying formatting.".
      * injection Hfv as <-. now exists m1.
    + match goal with
      | |- events sv w (BatchUpdate _ _ ?k) = _ /\ _ =>
          destruct (run_batch_update sv w document_id
                      (edit_text_requests s p) k) as [Hev Hres]
      end.
      { intros [e | u]; eexists; reflexivity. }
      split; [exact Hev|].
      destruct (fst (sv_batch_update sv w document_id (edit_text_requests s p)))
        as [[e | e] | u].
      * apply Hres. reflexivity.
      * apply Hres. reflexivity.
      * eexists. apply Hres. reflexivity.
  - apply orb_false_iff in Hwork as [-> Hfmt]. rewrite Hfmt.
    rewrite andb_false_r. cbn [negb andb].
    split; [reflexivity|]. eexists. reflexivity.
Qed.

Lemma edit_text_submitted_ready (validator : ValidationManager)
  (document_id : string) (p : EditTextPayload) (s : Z)
  (reqs : list EditOperation) :
  start_index p = Some s ->
  submitted (edit_text validator document_id p) = Some reqs ->
  reqs = edit_text_requests s p
  /\ formatting_validation validator s p = None
  /\ (is_not_None (text p) || any_formatting p) = true.
Proof.
  intros Hs. unfold edit_text. rewrite Hs.
  destruct (validate_document_id validator document_id) as [ok msg].
  destruct ok; cbn [negb]; [|discriminate].
  destruct (is_not_None (text p)) eqn:Ht;
    destruct (any_formatting p) eqn:Hf; cbn [negb andb orb];
    try discriminate;
    (destruct (formatting_validation validator s p); [discriminate|]);
    cbn [submitted]; intros [= <-]; repeat split.
Qed.

Lemma formatting_validation_end (validator : ValidationManager)
  (s : Z) (p : EditTextPayload) :
  any_formatting p = true -> formatting_validation validator s p = None ->
  exists e, end_index p = Some e.
Proof.
  intros Hf. unfold formatting_validation. rewrite Hf.
  destruct (validate_text_formatting_params validator _ _ _ _ _) as [[] m1];
    cbn [negb]; [|discriminate].
  destruct (end_index p) as [e|]; [|discriminate]. intros _. now exists e.
Qed.

Lemma text_requests_length (s : Z) (end_index : option Z) (t : string) :
  (1 <= List.length (fst (text_requests s end_index (Some t))) <= 2)%nat.
Proof.
  unfold text_requests. destruct end_index as [e|]; [|cbn; lia].
  destruct (e >? s); [|cbn; lia]. destruct (s =? 0); cbn; lia.
Qed.

(** X6. A batch sent by [edit_text] is never empty and never holds more
    than three operations: one or two for the text, one for the
    formatting. *)
Theorem edit_text_batch_size
  (validator : ValidationManager) (document_id : string)
  (p : EditTextPayload) (reqs : list EditOperation) :
  submitted (edit_text validator document_id p) = Some reqs ->
  (1 <= List.length reqs <= 3)%nat.
Proof.
  intros Hsub.
  destruct (start_index p) as [s|] eqn:Hs.
  2:{ unfold edit_text in Hsub. rewrite Hs in Hsub. discriminate Hsub. }
  destruct (edit_text_submitted_ready validator document_id p s reqs Hs Hsub)
    as (-> & _ & Hwork).
  unfold edit_text_requests. rewrite length_app, format_requests_fst.
  destruct (text p) as [t|].
  - pose proof (text_requests_length s (end_index p) t).
    destruct (any_formatting p); cbn [List.length]; lia.
  - cbn [is_not_None orb] in Hwork. rewrite Hwork. cbn. lia.
Qed.

Lemma edit_text_batch_size_witness :
  (1 <= List.length
          (edit_text_requests 5 (bold_edit 5 (Some 10%Z) "hi")) <= 3)%nat.
Proof.
  exact (edit_text_batch_size accept_all "doc" (bold_edit 5 (Some 10) "hi") _
           eq_refl).
Defined.

Lemma corrected_range_valid (r : Z * Z) :
  fst (corrected_range r) <> 0 /\ fst (corrected_range r) < snd (corrected_range r).
Proof.
  unfold corrected_range. cbn [fst snd].
  destruct (Z.eqb_spec (fst r) 0);
    match goal with |- context [?a <=? ?b] => destruct (Z.leb_spec a b) end;
    lia.
Qed.

Lemma format_range_valid (s : Z) (e : Z) (text : option string) :
  exists fs fe,
    format_range s (Some e) text = (fs, Some fe) /\ fs <> 0 /\ fs < fe.
Proof.
  destruct text as [t|].
  - rewrite format_range_spec. eexists _, _. split; [reflexivity|].
    apply corrected_range_valid.
  - exists (fst (corrected_range (s, e))), (snd (corrected_range (s, e))).
    split; [|apply corrected_range_valid].
    unfold format_range, corrected_range. cbn [fst snd].
    match goal with |- context [?a <=? ?b] => destruct (a <=? b) end;
      reflexivity.
Qed.

(** X7. No operation of a batch built by [edit_text] is addressed at
    index 0, whatever the start index and whether the call inserts,
    replaces or only formats. *)
Theorem edit_text_never_addresses_0
  (validator : ValidationManager) (document_id : string)
  (p : EditTextPayload) (reqs : list EditOperation) :
  submitted (edit_text validator document_id p) = Some reqs ->
  Forall (fun op => target_index op <> Some 0) reqs.
Proof.
  intros Hsub.
  destruct (start_index p) as [s|] eqn:Hs.
  2:{ unfold edit_text in Hsub. rewrite Hs in Hsub. discriminate Hsub. }
  destruct (edit_text_submitted_ready validator document_id p s reqs Hs Hsub)
    as (-> & Hfv & _).
  unfold edit_text_requests. apply Forall_app. split.
  - destruct (text p) as [t|]; [|constructor].
    pose proof (len_nonneg t) as Hlen.
    destruct (is_replacement s (end_index p)) eqn:Hr.
    + unfold is_replacement in Hr.
      destruct (end_index p) as [e|]; [|discriminate].
      apply Z.gtb_lt in Hr.
      destruct (Z.eq_dec s 0) as [-> | Hne].
      * rewrite text_requests_replace_at_0 by lia.
        constructor; [discriminate|].
        constructor; [|constructor].
        cbn [target_index]. intros H.
        assert (1 + PyStr.len t = 0) by congruence. lia.
      * rewrite text_requests_replace by lia.
        constructor; [cbn [target_index]; congruence|].
        constructor; [cbn [target_index]; congruence|constructor].
    + rewrite text_requests_insert by exact Hr.
      constructor; [|constructor]. cbn [target_index].
      destruct (Z.eqb_spec s 0); congruence.
  - rewrite format_requests_fst. destruct (any_formatting p) eqn:Hf;
      [|constructor].
    destruct (formatting_validation_end validator s p Hf Hfv) as [e He].
    rewrite He.
    destruct (format_range_valid s e (text p)) as (fs & fe & -> & Hfs & _).
    constructor; [|constructor]. cbn [target_index fst]. congruence.
Qed.

Lemma edit_text_never_addresses_0_witness :
  Forall (fun op => target_index op <> Some 0)
    [InsertText 1 "hi"; DeleteRange 3 7;
     FormatText 1 (Some 2) (Some true) None None None None].
Proof.
  exact (edit_text_never_addresses_0 accept_all "doc"
           (bold_edit 0 (Some 5) "hi") _ eq_refl).
Defined.

(** X8. Every format request sent by [edit_text] has a proper range: its
    end is present and lies beyond its start, and its start is not 0.  A
    call that only formats a range with [0 < start < end] sends exactly the
    format request over that range. *)
Theorem edit_text_format_range_valid
  (validator : ValidationManager) (document_id : string)
  (p : EditTextPayload) (reqs : list EditOperation) :
  submitted (edit_text validator document_id p) = Some reqs ->
  (forall fs fe b i u fsz ff,
      In (FormatText fs fe b i u fsz ff) reqs ->
      exists e, fe = Some e /\ fs < e /\ fs <> 0)
  /\ (forall s e,
         start_index p = Some s -> end_index p = Some e -> text p = None ->
         0 < s -> s < e ->
         reqs = [FormatText s (Some e) (bold p) (italic p) (underline p)
                   (font_size p) (font_family p)]).
Proof.
  intros Hsub.
  destruct (start_index p) as [s|] eqn:Hs.
  2:{ unfold edit_text in Hsub. rewrite Hs in Hsub. discriminate Hsub. }
  destruct (edit_text_submitted_ready validator document_id p s reqs Hs Hsub)
    as (-> & Hfv & Hwork).
  split.
  - intros fs fe b i u fsz ff Hin.
    unfold edit_text_requests in Hin. apply in_app_or in Hin as [Hin | Hin].
    + exfalso. unfold text_requests in Hin.
      destruct (text p) as [t|]; [|exact Hin].
      destruct (end_index p) as [e|];
        [destruct (e >? s); [destruct (s =? 0)|]|];
        cbn in Hin; intuition discriminate.
    + rewrite format_requests_fst in Hin.
      destruct (any_formatting p) eqn:Hf; [|contradiction].
      destruct (formatting_validation_end validator s p Hf Hfv) as [e He].
      rewrite He in Hin.
      destruct (format_range_valid s e (text p)) as (fs' & fe' & Hr & Hne & Hlt).
      rewrite Hr in Hin. cbn [fst snd In] in Hin.
      destruct Hin as [[= <- <-] | []]. exists fe'. auto.
  - intros s' e [= <-] He Ht Hpos Hlt.
    rewrite Ht in Hwork. cbn [is_not_None orb] in Hwork.
    unfold edit_text_requests. rewrite Ht, He. cbn [text_requests fst app].
    rewrite format_requests_fst, Hwork, Ht, He.
    unfold format_range.
    destruct (Z.eqb_spec s 0); [lia|]. destruct (Z.leb_spec e s); [lia|].
    reflexivity.
Qed.

Lemma edit_text_format_range_valid_witness :
  edit_text_requests 3 (bold_only 3 (Some 8)) =
  [FormatText 3 (Some 8) (Some true) None None None None].
Proof.
  exact (proj2
           (edit_text_format_range_valid accept_all "doc"
              (bold_only 3 (Some 8)) _ eq_refl)
           3 8 eq_refl eq_refl eq_refl eq_refl eq_refl).
Defined.

End EditTextFurther.

(** ** [edit_text]: where the format range falls in the document *)

Section FormatRangeInDocument.

Import DocService.
Import EditTextUnicode.
Local Open Scope Z_scope.

Lemma apply_batch_app (a b : list Request) (d : Doc) :
  apply_batch (a ++ b)%list d =
  match apply_batch a d with
  | Some d1 => apply_batch b d1
  | None => None
  end.
Proof.
  revert d. induction a as [|op a IH]; intros d; cbn [app apply_batch].
  - reflexivity.
  - destruct (apply_op op d) as [d1|]; [apply IH | reflexivity].
Qed.

Lemma slice_middle (before t after : Doc) :
  slice (before ++ t ++ after)%list (doc_length before)
    (doc_length before + doc_length t) = t.
Proof.
  unfold slice, doc_length.
  replace (Z.to_nat (Z.of_nat (List.length before) + Z.of_nat (List.length t)
                     - Z.of_nat (List.length before)))
    with (List.length t) by lia.
  replace (Z.to_nat (Z.of_nat (List.length before)))
    with (List.length before + 0)%nat by lia.
  rewrite skipn_length_app. cbn [skipn]. apply firstn_length_app.
Qed.

Lemma slice_spliced (a : Z) (t d after : Doc) :
  0 <= a <= doc_length d ->
  slice (firstn (Z.to_nat a) d ++ t ++ after)%list a (a + doc_length t) = t.
Proof.
  intros Ha.
  assert (Hlen : doc_length (firstn (Z.to_nat a) d) = a).
  { unfold doc_length in *. rewrite length_firstn_le; lia. }
  rewrite <- Hlen at 2 3. apply slice_middle.
Qed.

(** The style request comes last and leaves the content as the text
    requests made it. *)
Lemma edit_text_requests_apply (s : Z) (end_index : option Z)
  (text : option Unicode.Text) (formatting : bool) (d d' : Doc) :
  apply_batch (edit_text_requests s end_index text formatting) d = Some d' ->
  apply_batch (text_requests s end_index text) d = Some d'.
Proof.
  unfold edit_text_requests. rewrite apply_batch_app.
  destruct (apply_batch (text_requests s end_index text) d) as [d1|];
    [|discriminate].
  destruct formatting; [|cbn [apply_batch]; congruence].
  destruct (format_range s end_index text) as [fs fe].
  cbn [apply_batch apply_op]. congruence.
Qed.

(** The format range of a call that writes a text of at least one code
    point. *)
Lemma format_range_of_text (s : Z) (end_index : option Z) (t : Unicode.Text) :
  1 <= Unicode.len t ->
  format_range s end_index (Some t) =
  if ModifyDocContent.is_replacement s end_index then
    if s =? 0
    then (1, Some (if Unicode.len t <=? 1 then 2 else Unicode.len t))
    else (s, Some (s + Unicode.len t))
  else
    ((if s =? 0 then 1 else s), Some ((if s =? 0 then 1 else s) + Unicode.len t)).
Proof.
  intros Hlen. unfold format_range.
  destruct (ModifyDocContent.is_replacement s end_index);
    destruct (Z.eqb_spec s 0) as [-> | Hs]; rewrite ?Z.add_0_l;
    repeat match goal with
      | |- context [?a =? ?b] => destruct (Z.eqb_spec a b); try lia
      | |- context [?a <=? ?b] => destruct (Z.leb_spec a b); try lia
      end;
    try reflexivity; repeat f_equal; lia.
Qed.

(** X9. When [edit_text] writes a text of at least one code point and
    formats it, and the call is not a replace at index 0, the format range
    of the batch starts where the new text starts in the document the
    batch produces, and its length is [len(text)], the number of code
    points.  For a text of the Basic Multilingual Plane that is exactly
    where the new text stands; a text beyond it takes more code units than
    code points, and the format range ends before the text does. *)
Theorem format_range_holds_new_text
  (d d' : Doc) (s : Z) (end_index : option Z) (t : Unicode.Text) :
  1 <= Unicode.len t ->
  (s = 0 -> ModifyDocContent.is_replacement 0 end_index = false) ->
  apply_batch (edit_text_requests s end_index (Some t) true) d = Some d' ->
  exists fs fe,
    edit_text_requests s end_index (Some t) true =
      (text_requests s end_index (Some t)
       ++ [updateTextStyle fs (Some fe)])%list
    /\ fe - fs = Unicode.len t
    /\ slice d' fs (fs + doc_length (Unicode.utf16 t)) = Unicode.utf16 t
    /\ (Unicode.in_bmp t = true -> slice d' fs fe = Unicode.utf16 t)
    /\ (Unicode.in_bmp t = false -> fe < fs + doc_length (Unicode.utf16 t)).
Proof.
  intros Hlen H0 Happly.
  apply edit_text_requests_apply in Happly.
  destruct (utf16_length t) as (_ & Hbmp & Hastral).
  unfold edit_text_requests. rewrite (format_range_of_text s end_index t Hlen).
  assert (Hgoal :
    forall a, 0 <= a <= doc_length d ->
      forall after, d' = (firstn (Z.to_nat a) d ++ Unicode.utf16 t ++ after)%list ->
      (a + Unicode.len t) - a = Unicode.len t
      /\ slice d' a (a + doc_length (Unicode.utf16 t)) = Unicode.utf16 t
      /\ (Unicode.in_bmp t = true ->
          slice d' a (a + Unicode.len t) = Unicode.utf16 t)
      /\ (Unicode.in_bmp t = false ->
          a + Unicode.len t < a + doc_length (Unicode.utf16 t))).
  { intros a Ha after ->. split; [lia|].
    assert (Hs : slice (firstn (Z.to_nat a) d ++ Unicode.utf16 t ++ after)%list
                   a (a + doc_length (Unicode.utf16 t)) = Unicode.utf16 t)
      by now apply slice_spliced.
    split; [exact Hs|]. split.
    - intros Hb. rewrite <- (Hbmp Hb). exact Hs.
    - intros Hb. specialize (Hastral Hb). lia. }
  destruct (ModifyDocContent.is_replacement s end_index) eqn:Hr.
  - assert (Hs : s <> 0) by (intros ->; rewrite H0 in Hr; congruence).
    destruct (Z.eqb_spec s 0); [contradiction|].
    unfold ModifyDocContent.is_replacement in Hr.
    destruct end_index as [e|]; [|discriminate].
    apply Z.gtb_lt in Hr.
    rewrite text_requests_direct in Happly by lia.
    destruct (Z.ltb_spec s 1) as [Hneg | Hpos].
    { cbn [apply_batch apply_op] in Happly.
      replace (1 <=? s) with false in Happly
        by (symmetry; apply Z.leb_gt; lia).
      discriminate Happly. }
    rewrite apply_direct_replace in Happly by lia.
    destruct (Z.ltb_spec e (doc_length d)); [|discriminate].
    injection Happly as Hd'. symmetry in Hd'.
    exists s, (s + Unicode.len t). split; [reflexivity|].
    apply (Hgoal s ltac:(lia) (skipn (Z.to_nat e) d)). exact Hd'.
  - rewrite text_requests_insertion in Happly by exact Hr.
    cbn [apply_batch apply_op] in Happly.
    set (a := if s =? 0 then 1 else s) in *.
    destruct ((1 <=? a) && (a <? doc_length d)) eqn:Hb; [|discriminate].
    apply andb_true_iff in Hb as [Hb1 Hb2].
    apply Z.leb_le in Hb1. apply Z.ltb_lt in Hb2.
    injection Happly as Hd'. symmetry in Hd'.
    exists a, (a + Unicode.len t). split; [reflexivity|].
    apply (Hgoal a ltac:(lia) (skipn (Z.to_nat a) d)). exact Hd'.
Qed.

Lemma format_range_holds_new_text_witness :
  let abcdef := Unicode.utf16 (Unicode.of_string "abcdef") in
  exists fs fe,
    edit_text_requests 2 (Some 4) (Some [88; 128512]) true =
      (text_requests 2 (Some 4) (Some [88; 128512])
       ++ [updateTextStyle fs (Some fe)])%list
    /\ fe - fs = 2
    /\ slice (Unicode.utf16 (Unicode.of_string "ab")
              ++ Unicode.utf16 [88; 128512]
              ++ Unicode.utf16 (Unicode.of_string "ef"))%list fs (fs + 3) =
       Unicode.utf16 [88; 128512]
    /\ fe < fs + 3.
Proof.
  cbv zeta.
  destruct (format_range_holds_new_text
              (Unicode.utf16 (Unicode.of_string "abcdef"))
              (Unicode.utf16 (Unicode.of_string "ab")
               ++ Unicode.utf16 [88; 128512]
               ++ Unicode.utf16 (Unicode.of_string "ef"))%list
              2 (Some 4) [88; 128512]
              ltac:(discriminate) ltac:(discriminate) eq_refl)
    as (fs & fe & Hreq & Hlen & Hslice & _ & Hshort).
  exists fs, fe. split; [exact Hreq|]. split; [exact Hlen|].
  split; [exact Hslice | exact (Hshort eq_refl)].
Defined.

(** X10. A replace at index 0 is the exception.  With a text of
    [n >= 2] code points and formatting, the batch inserts the text at 1,
    deletes from [1 + n] and asks for the style over [1, n).  The document
    it produces holds at [1, 1 + n) the first [n] code units of the text,
    which is the whole text when it lies in the Basic Multilingual Plane:
    the format range is then one code unit short of the new text. *)
Theorem replace_at_0_format_range_short
  (d d' : Doc) (e : Z) (t : Unicode.Text) :
  0 < e -> 2 <= Unicode.len t ->
  apply_batch (edit_text_requests 0 (Some e) (Some t) true) d = Some d' ->
  edit_text_requests 0 (Some e) (Some t) true =
    [insertText 1 t;
     deleteContentRange (1 + Unicode.len t) (e + Unicode.len t);
     updateTextStyle 1 (Some (Unicode.len t))]
  /\ slice d' 1 (1 + Unicode.len t) =
     firstn (Z.to_nat (Unicode.len t)) (Unicode.utf16 t)
  /\ (Unicode.in_bmp t = true ->
      slice d' 1 (1 + Unicode.len t) = Unicode.utf16 t).
Proof.
  intros Hpos Hlen Happly.
  apply edit_text_requests_apply in Happly.
  destruct (utf16_length t) as (Hge & Hbmp & _).
  assert (Hr : ModifyDocContent.is_replacement 0 (Some e) = true).
  { unfold ModifyDocContent.is_replacement. now apply Z.gtb_lt. }
  assert (Hslice : slice d' 1 (1 + Unicode.len t) =
                   firstn (Z.to_nat (Unicode.len t)) (Unicode.utf16 t)).
  { rewrite text_requests_index0_is_shifted in Happly by exact Hpos.
    unfold shifted_replace in Happly. cbn [apply_batch apply_op] in Happly.
    destruct ((1 <=? 1) && (1 <? doc_length d)) eqn:Hb; [|discriminate].
    apply andb_true_iff in Hb as [_ Hb]. apply Z.ltb_lt in Hb.
    match type of Happly with
    | context [if ?c then _ else _] => destruct c; [|discriminate]
    end.
    assert (Hd' : delete_range (1 + Unicode.len t) (e + Unicode.len t)
                    (insert_at 1 (Unicode.utf16 t) d) = d') by congruence.
    rewrite <- Hd'. clear Hd' Happly.
    unfold delete_range, insert_at.
    set (p := firstn (Z.to_nat 1) d).
    set (u := Unicode.utf16 t) in *.
    assert (Hp : List.length p = 1%nat).
    { unfold p. apply length_firstn_le. unfold doc_length in Hb. lia. }
    assert (Hu : (Z.to_nat (Unicode.len t) <= List.length u)%nat).
    { unfold doc_length in Hge. lia. }
    replace (Z.to_nat (1 + Unicode.len t))
      with (List.length p + Z.to_nat (Unicode.len t))%nat by lia.
    rewrite firstn_app_2, firstn_app.
    replace (Z.to_nat (Unicode.len t) - List.length u)%nat with 0%nat by lia.
    cbn [firstn]. rewrite app_nil_r, <- app_assoc.
    set (v := firstn (Z.to_nat (Unicode.len t)) u).
    assert (Hv : doc_length v = Unicode.len t).
    { unfold v, doc_length. rewrite length_firstn_le by exact Hu. lia. }
    assert (Hp' : doc_length p = 1) by (unfold doc_length; lia).
    match goal with
    | |- slice (p ++ v ++ ?after)%list _ _ = _ =>
        pose proof (slice_middle p v after) as Hm
    end.
    rewrite Hp', Hv in Hm. exact Hm. }
  split; [|split].
  - unfold edit_text_requests.
    rewrite (format_range_of_text 0 (Some e) t ltac:(lia)), Hr.
    rewrite text_requests_index0_is_shifted by exact Hpos.
    cbn [Z.eqb]. destruct (Z.leb_spec (Unicode.len t) 1); [lia | reflexivity].
  - exact Hslice.
  - intros Hb. rewrite Hslice.
    replace (Z.to_nat (Unicode.len t)) with (List.length (Unicode.utf16 t)).
    + apply firstn_all.
    + specialize (Hbmp Hb). unfold doc_length in Hbmp. lia.
Qed.

Lemma replace_at_0_format_range_short_witness :
  edit_text_requests 0 (Some 4) (Some (Unicode.of_string "XYZ")) true =
    [insertText 1 (Unicode.of_string "XYZ"); deleteContentRange 4 7;
     updateTextStyle 1 (Some 3)]
  /\ slice (Unicode.utf16 (Unicode.of_string "aXYZef")) 1 4 =
     Unicode.utf16 (Unicode.of_string "XYZ").
Proof.
  destruct (replace_at_0_format_range_short
              (Unicode.utf16 (Unicode.of_string "abcdef"))
              (Unicode.utf16 (Unicode.of_string "aXYZef"))
              4 (Unicode.of_string "XYZ")
              eq_refl ltac:(discriminate) eq_refl)
    as (Hreq & _ & Hslice).
  split; [exact Hreq | exact (Hslice eq_refl)].
Defined.

End FormatRangeInDocument.

(** ** [edit_text]: ranges that are not checked *)

Section UncheckedRanges.

Import ModifyDocContent.
Local Open Scope Z_scope.

Lemma text_requests_degenerate (s : Z) (end_index : option Z)
  (text : option string) :
  is_replacement s end_index = false ->
  text_requests s end_index text = text_requests s None text.
Proof.
  intros H. unfold text_requests, is_replacement in *.
  destruct text as [t|]; [|reflexivity].
  destruct end_index as [e|]; [|reflexivity]. now rewrite H.
Qed.

(** X11. Without formatting parameters [edit_text] never checks the range.
    The index validator is not consulted, so two validators that agree on
    the document id give the same call; and an [end_index] that is not
    beyond [start_index] is ignored: the call is the insertion that the
    same payload without [end_index] makes, request for request and word
    for word. *)
Theorem edit_text_range_unchecked_without_formatting
  (validator validator' : ValidationManager) (document_id : string)
  (p : EditTextPayload) :
  any_formatting p = false ->
  (validate_document_id validator' document_id =
   validate_document_id validator document_id ->
   edit_text validator' document_id p = edit_text validator document_id p)
  /\ (forall s,
         start_index p = Some s -> is_replacement s (end_index p) = false ->
         edit_text validator document_id p =
         edit_text validator document_id (without_end p)).
Proof.
  intros Hf.
  assert (Hfv : forall v s q, any_formatting q = false ->
                              formatting_validation v s q = None).
  { intros v s q Hq. unfold formatting_validation. now rewrite Hq. }
  split.
  - intros Hdoc. unfold edit_text. rewrite Hdoc.
    destruct (start_index p) as [s|]; [|reflexivity].
    now rewrite !Hfv by exact Hf.
  - intros s Hs Hr.
    assert (Hf' : any_formatting (without_end p) = false) by exact Hf.
    assert (Hreq : edit_text_requests s (without_end p) = edit_text_requests s p).
    { unfold edit_text_requests, format_requests. rewrite Hf, Hf'.
      cbn [end_index text without_end].
      now rewrite (text_requests_degenerate s (end_index p) (text p) Hr). }
    assert (Hops : edit_text_operations s (without_end p)
                   = edit_text_operations s p).
    { unfold edit_text_operations, format_requests. rewrite Hf, Hf'.
      cbn [end_index text without_end].
      now rewrite (text_requests_degenerate s (end_index p) (text p) Hr). }
    unfold edit_text. cbn [start_index text without_end]. rewrite Hs.
    rewrite Hf', Hf. rewrite !Hfv by assumption. rewrite Hreq, Hops.
    reflexivity.
Qed.

Lemma edit_text_range_unchecked_without_formatting_witness :
  edit_text accept_all "doc" (plain_edit 7 (Some 3) "hi") =
  edit_text accept_all "doc" (without_end (plain_edit 7 (Some 3) "hi"))
  /\ submitted (edit_text accept_all "doc" (plain_edit 7 (Some 3) "hi")) =
     Some [InsertText 7 "hi"].
Proof.
  split; [|reflexivity].
  exact (proj2
           (edit_text_range_unchecked_without_formatting accept_all accept_all
              "doc" (plain_edit 7 (Some 3) "hi") eq_refl)
           7 eq_refl eq_refl).
Defined.

End UncheckedRanges.

(** ** [insert_doc_elements]: calls, routing and retries *)




Section InsertFurther.

Import InsertDocElements.
Local Open Scope Z_scope.




End InsertFurther.

Section InsertRouting.

Import InsertDocElements.
Local Open Scope Z_scope.

(** X13. An image source that starts with [http://] or [https://] is
    inserted as it is, with no Drive call.  Any other source is a Drive
    file id: it is looked up once, and the image is inserted, under the
    [drive.google.com/uc?id=] address, only when Drive knows the file with
    a MIME type that starts with [image/]; a failed lookup or another type
    returns an error string, raises nothing and submits nothing. *)
Theorem image_source_routing
  (validator : ValidationManager) (document_id : string) (a : Args)
  (src : string) (W : Type) (sv : Services W) (w : W) :
  operation a = "image" -> image_source a = Some src ->
  PyStr.truthy src = true ->
  let i := bump_index (index a) in
  let call := insert_doc_elements validator document_id a in
  let insert uri :=
    EvBatchUpdate document_id [InsertImage i uri (width a) (height a)] in
  if PyStr.startswith src "http://" || PyStr.startswith src "https://" then
    events sv w call = [insert src]
  else
    match fst (sv_drive_files_get sv w src) with
    | inl e =>
        events sv w call = [EvDriveFilesGet src]
        /\ result sv w call =
           Returned ("Error: Could not access Drive file " ++ src ++ ": "
                     ++ exn_str e)
    | inr file_metadata =>
        let mime_type :=
          match mimeType file_metadata with Some m => m | None => "" end in
        if PyStr.startswith mime_type "image/" then
          events sv w call =
            [EvDriveFilesGet src;
             insert ("https://drive.google.com/uc?id=" ++ src)]
        else
          events sv w call = [EvDriveFilesGet src]
          /\ result sv w call =
             Returned ("Error: File " ++ src ++ " is not an image (MIME type: "
                       ++ mime_type ++ ").")
    end.
Proof.
  intros Hop Hsrc Htruthy i call insert.
  unfold call, insert_doc_elements. rewrite Hop.
  cbn [String.eqb Ascii.eqb Bool.eqb]. fold i.
  unfold image_operation. rewrite Hsrc, Htruthy. cbn [negb].
  destruct (PyStr.startswith src "http://" || PyStr.startswith src "https://");
    cbn [negb].
  - apply run_submit_and_confirm.
  - unfold events, result. cbn [run].
    destruct (sv_drive_files_get sv w src) as [[e | meta] w1]; cbn [fst].
    + split; reflexivity.
    + destruct (PyStr.startswith
                  match mimeType meta with Some m => m | None => "" end
                  "image/"); cbn [negb].
      * match goal with
        | |- context [run sv w1 (submit_and_confirm ?d ?r ?wh ?ix)] =>
            pose proof (run_submit_and_confirm sv w1 d r wh ix) as Hrun;
            unfold events in Hrun;
            destruct (run sv w1 (submit_and_confirm d r wh ix))
              as [[evs res] w2]
        end.
        cbn [fst] in *. now rewrite Hrun.
      * split; reflexivity.
Qed.

Lemma image_source_routing_witness :
  events drive_of_images tt
    (insert_doc_elements accept_all "doc" (image_args 5 "1AbC")) =
  [EvDriveFilesGet "1AbC";
   EvBatchUpdate "doc"
     [InsertImage 5 "https://drive.google.com/uc?id=1AbC" None None]]
  /\ events drive_of_images tt
       (insert_doc_elements accept_all "doc"
          (image_args 5 "https://example.com/a.png")) =
     [EvBatchUpdate "doc"
        [InsertImage 5 "https://example.com/a.png" None None]].
Proof.
  split.
  - exact (image_source_routing accept_all "doc" (image_args 5 "1AbC") "1AbC"
             unit drive_of_images tt eq_refl eq_refl eq_refl).
  - exact (image_source_routing accept_all "doc"
             (image_args 5 "https://example.com/a.png")
             "https://example.com/a.png"
             unit drive_of_images tt eq_refl eq_refl eq_refl).
Defined.

(** X14. A [text_elements] call submits a batch exactly when the element
    type is ['table'] with rows and columns that are both given and not
    zero, ['list'] with a list type that is not empty, or ['page_break'];
    in every other case no service is called. *)
Theorem text_elements_submission
  (validator : ValidationManager) (document_id : string) (a : Args) :
  operation a = "text_elements" ->
  let call := insert_doc_elements validator document_id a in
  (submitted call <> None <->
   exists et,
     element_type a = Some et
     /\ ((et = "table"
          /\ ModifyDocContent.truthy_int (rows a) = true
          /\ ModifyDocContent.truthy_int (columns a) = true)
         \/ (et = "list" /\ ModifyDocContent.truthy_str (list_type a) = true)
         \/ et = "page_break"))
  /\ (submitted call = None ->
      forall (W : Type) (sv : Services W) (w : W), events sv w call = []).
Proof.
  intros Hop call. unfold call, insert_doc_elements. rewrite Hop.
  cbn [String.eqb Ascii.eqb Bool.eqb].
  unfold text_elements_requests, submit_and_confirm.
  destruct (element_type a) as [et|].
  2:{ cbn [submitted]. split; [split|]; [congruence | | reflexivity].
      intros (et & [=] & _). }
  destruct et as [|c et'] eqn:Het.
  { cbn [PyStr.truthy negb submitted]. split; [split|]; [congruence | | reflexivity].
    intros (et0 & [= <-] & [(H & _) | [(H & _) | H]]); discriminate H. }
  rewrite <- Het. replace (PyStr.truthy et) with true by now subst.
  cbn [negb].
  destruct (String.eqb_spec et "table") as [Ht | Ht].
  { unfold ModifyDocContent.truthy_int.
    destruct (rows a) as [r|], (columns a) as [cl|];
      try destruct (Z.eqb_spec r 0); try destruct (Z.eqb_spec cl 0);
      cbn [orb negb submitted];
      (split; [split|]; [| |try reflexivity; try congruence]);
      try congruence;
      try (intros _; exists et; split; [reflexivity|]; left; auto);
      try (intros (et0 & [= <-] & [(_ & H1 & H2) | [(H & _) | H]]);
           congruence). }
  destruct (String.eqb_spec et "list") as [Hl | Hl].
  { unfold ModifyDocContent.truthy_str.
    destruct (list_type a) as [lt|]; [destruct (PyStr.truthy lt)|];
      cbn [negb submitted];
      (split; [split|]; [| |try reflexivity; try congruence]);
      try congruence;
      try (intros _; exists et; split; [reflexivity|]; right; left; auto);
      try (intros (et0 & [= <-] & [(H & _) | [(_ & H) | H]]); congruence). }
  destruct (String.eqb_spec et "page_break") as [Hp | Hp]; cbn [submitted].
  - split; [split|]; [| congruence | congruence].
    intros _. exists et. split; [reflexivity|]. right. right. exact Hp.
  - split; [split|]; [congruence | | reflexivity].
    intros (et0 & [= <-] & [(H & _) | [(H & _) | H]]); congruence.
Qed.

Lemma text_elements_submission_witness :
  submitted (insert_doc_elements accept_all "doc" (list_args 5 None)) <> None.
Proof.
  apply (proj1 (text_elements_submission accept_all "doc" (list_args 5 None)
                  eq_refl)).
  exists "list". split; [reflexivity|]. right. left. split; reflexivity.
Defined.

(** X17. A call with index 0 is the call with index 1: the same tool, with
    the same requests, the same table attempts and the same confirmation,
    which names index 1. *)
Theorem index_0_is_index_1
  (validator : ValidationManager) (document_id : string) (a : Args) :
  index a = 0 ->
  insert_doc_elements validator document_id a =
  insert_doc_elements validator document_id (with_index a 1).
Proof.
  intros H. unfold insert_doc_elements. rewrite H. reflexivity.
Qed.

Lemma index_0_is_index_1_witness :
  insert_doc_elements accept_all "doc" (list_args 0 (Some "Item")) =
  insert_doc_elements accept_all "doc"
    (with_index (list_args 0 (Some "Item")) 1).
Proof.
  exact (index_0_is_index_1 accept_all "doc" (list_args 0 (Some "Item"))
           eq_refl).
Defined.

End InsertRouting.

Section TableFurther.

Import InsertDocElements.
Local Open Scope Z_scope.

(** X15. When a table call is retried after a boundary failure and the
    retry succeeds, the table has been created by the attempt at
    [index - 1], and the success message still names [index], the index of
    the first attempt. *)
Theorem table_retry_success_names_first_index
  (validator : ValidationManager) (document_id : string) (a : Args)
  (td : list (list string)) (W : Type) (sv : Services W) (w w1 w2 : W)
  (r1 r2 : ManagerResult) :
  operation a = "table" -> table_data a = Some td -> td <> [] ->
  let i := bump_index (index a) in
  table_call_accepted validator document_id i td = true ->
  sv_create_and_populate_table sv w document_id td i (bold_headers a)
    = (inr r1, w1) ->
  success r1 = false ->
  PyStr.contains BOUNDARY_PATTERN (message r1) = true ->
  sv_create_and_populate_table sv w1 document_id td (i - 1) (bold_headers a)
    = (inr r2, w2) ->
  success r2 = true ->
  let call := insert_doc_elements validator document_id a in
  table_attempts_of (events sv w call) = [i; i - 1]
  /\ result sv w call =
     Returned ("SUCCESS: " ++ message r2 ++ ". Table: "
               ++ PyStr.of_int (dict_get (metadata r2) "rows" 0) ++ "x"
               ++ PyStr.of_int (dict_get (metadata r2) "columns" 0)
               ++ ", Index: " ++ PyStr.of_int i ++ ". Link: "
               ++ doc_link document_id).
Proof.
  intros Hop Htd Hne i Hacc H1 Hfail Hpat H2 Hok call.
  unfold call, events, result.
  rewrite insert_doc_elements_table by exact Hop. fold i.
  rewrite (table_operation_accepted validator document_id i a td Htd Hne Hacc).
  rewrite (run_retry sv w w1 w2 document_id td i (bold_headers a) r1 (inr r2)
             H1 Hfail Hpat H2).
  cbn [fst snd]. split; [reflexivity|].
  unfold table_result. now rewrite Hok.
Qed.

Lemma table_retry_success_names_first_index_witness :
  result end_at_50_free_below tt
    (insert_doc_elements accept_all "doc" (table_args 50)) =
  Returned
    "SUCCESS: Successfully created 1x1 table and populated 1 cells. Table: 1x1, Index: 50. Link: https://docs.google.com/document/d/doc/edit".
Proof.
  exact (proj2
           (table_retry_success_names_first_index accept_all "doc"
              (table_args 50) [["H1"]] unit end_at_50_free_below tt tt tt
              refused_at_end created_table
              eq_refl eq_refl ltac:(discriminate) eq_refl eq_refl eq_refl
              eq_refl eq_refl eq_refl)).
Defined.

(** X16. A table call makes no attempt at all when its data is missing or
    empty (it raises) or when a validation refuses it (it returns an
    ["ERROR: "] string); otherwise it makes one attempt, and a second one
    exactly when the first returned a failure whose message holds the
    boundary pattern.  An exception of the first attempt is raised at once,
    and a success or any other failure is final. *)
Theorem table_attempts_counted
  (validator : ValidationManager) (document_id : string) (a : Args)
  (W : Type) (sv : Services W) (w : W) :
  operation a = "table" ->
  let i := bump_index (index a) in
  let call := insert_doc_elements validator document_id a in
  match table_data a with
  | None | Some [] =>
      events sv w call = []
      /\ result sv w call =
         Raised "Unexpected error: 'table_data' is required for table operation"
  | Some td =>
      if table_call_accepted validator document_id i td then
        match fst (sv_create_and_populate_table sv w document_id td i
                     (bold_headers a)) with
        | inl e =>
            table_attempts_of (events sv w call) = [i]
            /\ result sv w call = handle_exception e
        | inr r1 =>
            if negb (success r1)
               && PyStr.contains BOUNDARY_PATTERN (message r1)
            then table_attempts_of (events sv w call) = [i; i - 1]
            else table_attempts_of (events sv w call) = [i]
                 /\ result sv w call = table_result document_id i r1
        end
      else
        events sv w call = []
        /\ exists error, result sv w call = Returned ("ERROR: " ++ error)
  end.
Proof.
  intros Hop i call. unfold call.
  rewrite insert_doc_elements_table by exact Hop. fold i.
  destruct (table_data a) as [[|row td]|] eqn:Htd.
  - unfold table_operation. rewrite Htd. split; reflexivity.
  - destruct (table_call_accepted validator document_id i (row :: td)) eqn:Hacc.
    + rewrite (table_operation_accepted validator document_id i a (row :: td)
                 Htd ltac:(discriminate) Hacc).
      unfold events, result, create_table_with_retry. cbn [run].
      destruct (sv_create_and_populate_table sv w document_id (row :: td) i
                  (bold_headers a)) as [[e | r1] w1]; cbn [fst].
      * split; reflexivity.
      * destruct (negb (success r1)
                  && PyStr.contains BOUNDARY_PATTERN (message r1)).
        -- cbn [run].
           destruct (sv_create_and_populate_table sv w1 document_id
                       (row :: td) (i - 1) (bold_headers a))
             as [[e2 | r2] w2]; reflexivity.
        -- split; reflexivity.
    + unfold table_operation, table_call_accepted in *. rewrite Htd.
      destruct (validate_document_id validator document_id) as [[] m1];
        cbn [fst negb andb] in *.
      2:{ split; [reflexivity|]. now exists m1. }
      destruct (validate_table_data validator (row :: td)) as [[] m2];
        cbn [fst negb andb] in *.
      2:{ split; [reflexivity|]. now exists m2. }
      destruct (validate_index validator i "Index") as [[] m3];
        cbn [fst negb] in *; [discriminate|].
      split; [reflexivity|]. now exists m3.
  - unfold table_operation. rewrite Htd. split; reflexivity.
Qed.

Lemma table_attempts_counted_witness :
  table_attempts_of
    (events end_at_50_free_below tt
       (insert_doc_elements accept_all "doc" (table_args 20))) = [20]
  /\ result end_at_50_free_below tt
       (insert_doc_elements accept_all "doc" (table_args 20)) =
     table_result "doc" 20 created_table.
Proof.
  exact (table_attempts_counted accept_all "doc" (table_args 20) unit
           end_at_50_free_below tt eq_refl).
Defined.

End TableFurther.

(** ** [search_docs]: the query sent to Drive *)

Section SearchFacts.

Import Api.

Lemma escape_query_cons (c : ascii) (s : string) :
  escape_query (String c s) =
  if Ascii.eqb c apostrophe
  then String backslash (String apostrophe (escape_query s))
  else String c (escape_query s).
Proof.
  unfold escape_query. cbn [PyStr2.replace_char].
  destruct (Ascii.eqb c apostrophe); reflexivity.
Qed.

Lemma escape_query_head (s : string) :
  match escape_query s with
  | String c _ => Ascii.eqb c apostrophe = false
  | EmptyString => True
  end.
Proof.
  destruct s as [|c s]; [exact I|]. rewrite escape_query_cons.
  destruct (Ascii.eqb c apostrophe) eqn:E; [reflexivity | exact E].
Qed.

Lemma unescape_escape (s : string) : unescape_query (escape_query s) = s.
Proof.
  induction s as [|c s IH]; [reflexivity|].
  rewrite escape_query_cons.
  destruct (Ascii.eqb c apostrophe) eqn:E.
  - apply Ascii.eqb_eq in E. subst c.
    cbn [unescape_query]. rewrite !Ascii.eqb_refl. cbn [andb].
    now rewrite IH.
  - cbn [unescape_query].
    pose proof (escape_query_head s) as Hhead.
    destruct (escape_query s) as [|c' s'] eqn:Es.
    + now rewrite <- IH.
    + rewrite Hhead, andb_false_r. now rewrite IH.
Qed.

Lemma escape_guarded (s : string) (after_backslash : bool) :
  apostrophes_guarded after_backslash (escape_query s) = true.
Proof.
  revert after_backslash.
  induction s as [|c s IH]; intros ab; [reflexivity|].
  rewrite escape_query_cons.
  destruct (Ascii.eqb c apostrophe) eqn:E.
  - cbn [apostrophes_guarded]. rewrite !Ascii.eqb_refl.
    replace (Ascii.eqb backslash apostrophe) with false by reflexivity.
    cbn [andb]. apply IH.
  - cbn [apostrophes_guarded]. rewrite E. cbn [andb]. apply IH.
Qed.

Lemma escape_length (s : string) :
  String.length (escape_query s) =
  (String.length s + count_char apostrophe s)%nat.
Proof.
  induction s as [|c s IH]; [reflexivity|].
  rewrite escape_query_cons. cbn [count_char String.length].
  destruct (Ascii.eqb c apostrophe); cbn [String.length]; lia.
Qed.

(** X18. [search_docs] makes one Drive call, and in the query it sends
    every apostrophe of the search text has a backslash put before it:
    no apostrophe of the escaped text stands without one, dropping those
    backslashes gives the search text back, and the escaped text is longer
    by one code unit per apostrophe.  Nothing else is escaped: a text
    without apostrophes is sent as it is. *)
Theorem search_docs_query_escaped
  (query : string) (page_size : Z) (W : Type) (h : Handler W) (w : W) :
  calls h w (search_docs query page_size) =
    [FilesList
       ("name contains '" ++ escape_query query
        ++ "' and mimeType='application/vnd.google-apps.document' and trashed=false")
       page_size]
  /\ apostrophes_guarded false (escape_query query) = true
  /\ unescape_query (escape_query query) = query
  /\ String.length (escape_query query) =
     (String.length query + count_char apostrophe query)%nat
  /\ (count_char apostrophe query = 0%nat -> escape_query query = query).
Proof.
  split.
  { unfold calls, search_docs. cbn [run].
    destruct (h (FilesList (search_q query) page_size) w) as [[e | resp] w1].
    - reflexivity.
    - destruct (files resp) as [[|f fs]|]; try reflexivity.
      destruct (file_lines (f :: fs)); reflexivity. }
  split; [apply escape_guarded|].
  split; [apply unescape_escape|].
  split; [apply escape_length|].
  induction query as [|c s IH]; [reflexivity|].
  cbn [count_char]. rewrite escape_query_cons.
  destruct (Ascii.eqb c apostrophe); [discriminate|].
  intros H. now rewrite IH.
Qed.

Lemma search_docs_query_escaped_witness :
  escape_query "budget 2024" = "budget 2024".
Proof.
  exact (proj2 (proj2 (proj2 (proj2
           (search_docs_query_escaped "budget 2024" 10 unit drive_down tt))))
           eq_refl).
Defined.

End SearchFacts.

(** ** [find_replace] *)

Section FindReplaceFacts.

Import Api.
Local Open Scope Z_scope.

(** X19. [find_replace] raises, before any call, when [find_text] is
    missing or empty or when [replace_text] is missing; an empty
    [replace_text] is accepted.  Otherwise it sends one batch holding the
    one find-and-replace request, with [match_case] false when not given,
    and reports the count of the first reply alone: 0 when the replies,
    the [replaceAllText] entry or its count are missing, whatever later
    replies say. *)
Theorem find_replace_behaviour
  (document_id : string) (p : FindReplacePayload)
  (W : Type) (h : Handler W) (w : W) :
  let call := find_replace document_id p in
  match find_text p, replace_text p with
  | None, _ | Some EmptyString, _ =>
      calls h w call = []
      /\ result h w call =
         Raised "Unexpected error: 'find_text' is required for find_replace operation"
  | Some _, None =>
      calls h w call = []
      /\ result h w call =
         Raised "Unexpected error: 'replace_text' is required for find_replace operation"
  | Some find, Some replace =>
      let request :=
        DocumentsBatchUpdate document_id
          [FindReplace find replace
             match match_case p with Some b => b | None => false end] in
      calls h w call = [request]
      /\ match fst (h request w) with
         | inl e => result h w call = handle_exception e
         | inr res =>
             result h w call =
             Returned ("Replaced " ++ PyStr.of_int (replacements_of res)
                       ++ " occurrence(s) of '" ++ find ++ "' with '" ++ replace
                       ++ "' in document " ++ document_id ++ ". Link: "
                       ++ doc_link document_id)
             /\ (replies res = None \/ replies res = Some [] ->
                 replacements_of res = 0)
             /\ (forall first rest,
                    replies res = Some (first :: rest) ->
                    replacements_of res =
                    match replaceAllText first with
                    | Some r =>
                        match occurrencesChanged r with
                        | Some n => n
                        | None => 0
                        end
                    | None => 0
                    end)
         end
  end.
Proof.
  intros call. unfold call, find_replace, calls, result.
  destruct (find_text p) as [[|c find]|]; try (split; reflexivity).
  destruct (replace_text p) as [replace|]; [|split; reflexivity].
  cbv zeta. cbn [run].
  destruct (h (DocumentsBatchUpdate document_id
                 [FindReplace (String c find) replace
                    match match_case p with Some b => b | None => false end])
              w) as [[e | res] w1]; cbn [fst snd].
  - split; reflexivity.
  - split; [reflexivity|]. split; [reflexivity|]. split.
    + unfold replacements_of. intros [-> | ->]; reflexivity.
    + intros first rest Hr. unfold replacements_of. now rewrite Hr.
Qed.

End FindReplaceFacts.

(** ** [export_pdf] *)

Section ExportFacts.

Import Api.

Lemma endswith_refl (s : string) : PyStr2.endswith s s = true.
Proof. destruct s; cbn [PyStr2.endswith]; now rewrite String.eqb_refl. Qed.

Lemma endswith_app (a s suffix : string) :
  PyStr2.endswith s suffix = true -> PyStr2.endswith (a ++ s) suffix = true.
Proof.
  intros H. induction a as [|c a IH]; [exact H|].
  cbn [append PyStr2.endswith]. rewrite IH. apply orb_true_r.
Qed.

Lemma pdf_name_ends (original_name : string) (pdf_filename : option string) :
  PyStr2.endswith (pdf_name original_name pdf_filename) ".pdf" = true.
Proof.
  unfold pdf_name.
  destruct pdf_filename as [[|c given]|];
    try (apply endswith_app; reflexivity).
  destruct (PyStr2.endswith (String c given) ".pdf") eqn:E; cbn [negb].
  - exact E.
  - apply endswith_app, endswith_refl.
Qed.

(** X20. The name under which [export_pdf] saves the PDF always ends in
    [.pdf]: a name given with that ending is kept as it is, any other name
    given gets [.pdf] appended, and no name or an empty one gives the
    document name followed by [_PDF.pdf].  Naming is idempotent. *)
Theorem pdf_name_always_pdf
  (original_name : string) (pdf_filename : option string) :
  PyStr2.endswith (pdf_name original_name pdf_filename) ".pdf" = true
  /\ (forall given,
         pdf_filename = Some given -> PyStr2.endswith given ".pdf" = true ->
         pdf_name original_name pdf_filename = given)
  /\ (forall given,
         pdf_filename = Some given -> given <> "" ->
         PyStr2.endswith given ".pdf" = false ->
         pdf_name original_name pdf_filename = given ++ ".pdf")
  /\ (pdf_filename = None \/ pdf_filename = Some "" ->
      pdf_name original_name pdf_filename = original_name ++ "_PDF.pdf")
  /\ pdf_name original_name (Some (pdf_name original_name pdf_filename)) =
     pdf_name original_name pdf_filename.
Proof.
  assert (Hkeep : forall given,
             PyStr2.endswith given ".pdf" = true ->
             pdf_name original_name (Some given) = given).
  { intros given H. unfold pdf_name.
    destruct given as [|c given]; [discriminate H|]. now rewrite H. }
  split; [apply pdf_name_ends|].
  split; [intros given -> H; now apply Hkeep|].
  split.
  { intros given -> Hne H. unfold pdf_name.
    destruct given as [|c given]; [congruence|]. now rewrite H. }
  split; [intros [-> | ->]; reflexivity|].
  apply Hkeep, pdf_name_ends.
Qed.

Lemma pdf_name_always_pdf_witness :
  pdf_name "Report" (Some "q3.pdf") = "q3.pdf"
  /\ pdf_name "Report" (Some "q3") = "q3.pdf"
  /\ pdf_name "Report" None = "Report_PDF.pdf".
Proof.
  split; [|split].
  - exact (proj1 (proj2 (pdf_name_always_pdf "Report" (Some "q3.pdf")))
             "q3.pdf" eq_refl eq_refl).
  - exact (proj1 (proj2 (proj2 (pdf_name_always_pdf "Report" (Some "q3"))))
             "q3" eq_refl ltac:(discriminate) eq_refl).
  - exact (proj1 (proj2 (proj2 (proj2 (pdf_name_always_pdf "Report" None))))
             (or_introl eq_refl)).
Defined.

(** X21. [export_pdf] never raises on a failing service: each of its three
    calls is guarded, and whatever the services answer the result is a
    returned string.  The calls come in a fixed order and each depends on
    the one before: the export is asked only for a file whose MIME type is
    that of a Google Doc, and the upload only after the export gave its
    content; the upload carries that content under a name ending in [.pdf],
    with the folder asked for as its only parent. *)
Theorem export_pdf_guarded
  (document_id : string) (pdf_filename folder_id : option string)
  (W : Type) (h : Handler W) (w : W) :
  let call := export_pdf document_id pdf_filename folder_id in
  (exists s, result h w call = Returned s)
  /\ match h (FilesGet document_id) w with
     | (inl _, _) => calls h w call = [FilesGet document_id]
     | (inr file_metadata, w1) =>
         if String.eqb
              match info_mimeType file_metadata with Some m => m | None => "" end
              GOOGLE_DOC
         then
           match h (ExportMedia document_id PDF) w1 with
           | (inl _, _) =>
               calls h w call =
                 [FilesGet document_id; ExportMedia document_id PDF]
           | (inr pdf_content, _) =>
               exists file_name,
                 calls h w call =
                   [FilesGet document_id; ExportMedia document_id PDF;
                    FilesCreate file_name PDF (upload_parents folder_id)
                      pdf_content]
                 /\ PyStr2.endswith file_name ".pdf" = true
           end
         else calls h w call = [FilesGet document_id]
     end.
Proof.
  intros call. unfold call, export_pdf, calls, result. cbn [run].
  destruct (h (FilesGet document_id) w) as [[e | meta] w1].
  { cbn. split; [eexists; reflexivity | reflexivity]. }
  destruct (String.eqb
              match info_mimeType meta with Some m => m | None => "" end
              GOOGLE_DOC); cbn [negb].
  2:{ cbn. split; [eexists; reflexivity | reflexivity]. }
  cbn [run].
  destruct (h (ExportMedia document_id PDF) w1) as [[e | content] w2].
  { cbn. split; [eexists; reflexivity | reflexivity]. }
  cbn [run].
  match goal with
  | |- context [h (FilesCreate ?n ?m ?ps ?c) w2] =>
      destruct (h (FilesCreate n m ps c) w2) as [[e | up] w3]
  end.
  - cbn. split; [eexists; reflexivity|].
    eexists. split; [reflexivity | apply pdf_name_ends].
  - cbn. split; [eexists; reflexivity|].
    eexists. split; [reflexivity | apply pdf_name_ends].
Qed.

End ExportFacts.

Lemma find_replace_behaviour_witness :
  Api.calls (docs_replacing 3) tt
    (Api.find_replace "doc" (replace_payload "colour" "")) =
  [Api.DocumentsBatchUpdate "doc" [FindReplace "colour" "" false]]
  /\ Api.result (docs_replacing 3) tt
       (Api.find_replace "doc" (replace_payload "colour" "")) =
     Returned
       "Replaced 3 occurrence(s) of 'colour' with '' in document doc. Link: https://docs.google.com/document/d/doc/edit".
Proof.
  pose proof (find_replace_behaviour "doc" (replace_payload "colour" "")
                unit (docs_replacing 3) tt) as H.
  split; [exact (proj1 H) | exact (proj1 (proj2 H))].
Defined.

(** ** [debug_table]: which table is reported *)

Section DebugTableFacts.

Import DebugTable.
Local Open Scope Z_scope.

Variable json_dumps : Json -> string.
Variable repr : string -> string.

Lemma map_enumerate {A B : Type} (f : A -> B) (l : list A) :
  map (fun '(_, x) => f x) (PyStr2.enumerate l) = map f l.
Proof.
  unfold PyStr2.enumerate. generalize 0%nat.
  induction l as [|x l IH]; intros k; [reflexivity|].
  cbn [List.length seq map combine]. now rewrite IH.
Qed.

Lemma debug_row_sizes_cells (table_index : Z) (table_info : TableInfo) :
  debug_row_sizes (debug_info repr table_index table_info) =
  map (@List.length CellInfo) (cells table_info).
Proof.
  unfold debug_info, debug_row_sizes. rewrite map_map.
  rewrite <- (map_enumerate (@List.length CellInfo) (cells table_info)).
  apply map_ext. intros [row_idx row].
  rewrite length_map. unfold PyStr2.enumerate.
  rewrite length_combine, length_map, length_seq. apply Nat.min_id.
Qed.

(** X22. [debug_table] refuses only an index at or beyond the number of
    tables.  An index from 0 up reports that table; a negative index is
    not refused: down to minus the number of tables it reports the table
    counted from the end, under the negative index asked for, and below
    that the call raises ['list index out of range'].  The report keeps
    the shape of the table: one list per row, one entry per cell. *)
Theorem debug_table_index
  (document_id : string) (tables : list TableInfo) (table_index : Z) :
  let n := Z.of_nat (List.length tables) in
  let r := debug_table json_dumps repr document_id tables table_index in
  (n <= table_index ->
   r = Returned ("Error: Table index " ++ PyStr.of_int table_index
                 ++ " not found. Document has " ++ PyStr.of_int n
                 ++ " table(s)."))
  /\ (0 <= table_index < n ->
      exists t, nth_error tables (Z.to_nat table_index) = Some t
                /\ r = debug_report json_dumps repr document_id table_index t)
  /\ (- n <= table_index < 0 ->
      exists t, nth_error tables (Z.to_nat (n + table_index)) = Some t
                /\ r = debug_report json_dumps repr document_id table_index t)
  /\ (table_index < - n ->
      r = Raised "Unexpected error: list index out of range")
  /\ (forall t,
         debug_row_sizes (debug_info repr table_index t) =
         map (@List.length CellInfo) (cells t)).
Proof.
  intros n r. unfold r, debug_table, PyStr2.list_index. fold n.
  split; [|split; [|split; [|split]]].
  - intros H. destruct (Z.leb_spec n table_index); [reflexivity | lia].
  - intros H. destruct (Z.leb_spec n table_index); [lia|].
    destruct (Z.leb_spec 0 table_index); [|lia].
    destruct (nth_error tables (Z.to_nat table_index)) as [t|] eqn:E.
    + exists t. split; reflexivity.
    + apply nth_error_None in E. lia.
  - intros H. destruct (Z.leb_spec n table_index); [lia|].
    destruct (Z.leb_spec 0 table_index); [lia|].
    destruct (Z.leb_spec (- n) table_index); [|lia].
    destruct (nth_error tables (Z.to_nat (n + table_index))) as [t|] eqn:E.
    + exists t. split; reflexivity.
    + apply nth_error_None in E. lia.
  - intros H. destruct (Z.leb_spec n table_index); [lia|].
    destruct (Z.leb_spec 0 table_index); [lia|].
    destruct (Z.leb_spec (- n) table_index); [lia | reflexivity].
  - intros t. apply debug_row_sizes_cells.
Qed.

End DebugTableFacts.

Lemma debug_table_index_witness :
  DebugTable.debug_table (fun _ => "{}") (fun s => s) "doc"
    [small_table 10; small_table 40] (-1) =
  debug_report (fun _ => "{}") (fun s => s) "doc" (-1) (small_table 40).
Proof.
  destruct (proj1 (proj2 (proj2
              (debug_table_index (fun _ => "{}") (fun s => s) "doc"
                 [small_table 10; small_table 40] (-1))))
              ltac:(cbn; lia)) as (t & Hnth & Hr).
  injection Hnth as <-. exact Hr.
Defined.

(** ** [edit_text]: position 0 is never touched *)

Section EditFromZero.

Import DocService.
Import EditTextUnicode.
Local Open Scope Z_scope.



End EditFromZero.
